(** * libflux: scope stack, guard pool and error objects of [libflux.h]

    A shallow embedding of the macros and inline functions of
    [src/libflux.h], with the properties of its scope protocol.

    Conventions of the embedding.
    - A [char] is an [ascii]; a [char] array is a [list ascii] of the array's
      length; a [const char*] argument is the list of bytes found at the
      pointer, read up to its first NUL ([c_str]).
    - [int] and [int32_t] values are [Z]; the atomic pool cursor wraps as a
      32-bit signed integer, an argument handed to an [int32_t] parameter is
      converted to 32 bits, plain [int] arithmetic that would overflow is a
      fault.
    - A [flux_guard_t*] is [None] for [NULL] and [Some i] for
      [&pool->guards[i]]: guards are only ever handed out by
      [__flux_acquire_guard], so every guard pointer designates a pool slot,
      and two scopes that hold the same index share the slot.
    - Function pointers and [void*] handles are integers, [0] being [NULL].
    - [setjmp]/[longjmp] become an outcome: an operation either returns,
      jumps to the capture point of [stack[top]], aborts the process, or
      faults (undefined behaviour in C). *)

From stdpp Require Import base list strings.
From Stdlib Require Import ZArith Ascii DecimalString Lia.

Open Scope Z_scope.

(** ** Limits ([libflux.h], lines 21-23) *)

Definition FLUX_MAX_DEPTH : Z := 64.
Definition FLUX_POOL_SIZE : Z := 2048.
Definition FLUX_ERROR_MSG_MAX : Z := 512.

(** [sizeof(e.file)], the [char file[64]] member of [struct flux_error]. *)
Definition FLUX_FILE_MAX : Z := 64.

Definition INT_MAX : Z := 2147483647.
Definition INT_MIN : Z := -2147483648.

(** Two's complement wrap-around to 32 bits: the arithmetic of the atomic
    cursor, and the conversion of an argument to an [int32_t] parameter. *)
Definition wrap_int (z : Z) : Z := (z + 2 ^ 31) mod 2 ^ 32 - 2 ^ 31.

(** ** C strings *)

Module CStr.

Definition NUL : ascii := "000"%char.
Definition LF : ascii := "010"%char.

(** The string a [char*] designates: the bytes before the first NUL. *)
Fixpoint c_str (m : list ascii) : list ascii :=
  match m with
  | [] => []
  | c :: m' => if Ascii.eqb c NUL then [] else c :: c_str m'
  end.

Definition strlen (m : list ascii) : nat := length (c_str m).

(** [strncpy(dst, src, n)]: the first [n] bytes of [dst] receive the string
    at [src] cut at [n] bytes and padded with NUL; the rest of [dst] is
    kept. *)
Definition strncpy (dst src : list ascii) (n : nat) : list ascii :=
  let s := take n (c_str src) in
  s ++ replicate (n - length s) NUL ++ drop n dst.

(** [strrchr(s, c)] for a non-NUL [c]: the suffix of [s] that starts at the
    last occurrence of [c], [None] for a null result. *)
Fixpoint strrchr (s : list ascii) (c : ascii) : option (list ascii) :=
  match s with
  | [] => None
  | x :: s' =>
      if Ascii.eqb x NUL then None
      else match strrchr s' c with
           | Some r => Some r
           | None => if Ascii.eqb x c then Some s else None
           end
  end.

(** [%d] of [printf]. *)
Definition dec (z : Z) : list ascii :=
  String.list_ascii_of_string (NilZero.string_of_int (Z.to_int z)).

(** A [printf] format, cut into its literal pieces and conversions. *)
Inductive fmt_item : Type :=
| FLit (s : string)
| FStr
| FInt.

Inductive fmt_arg : Type :=
| AStr (p : list ascii)
| AInt (z : Z).

(** The bytes [fprintf] writes; [None] when an argument does not fit its
    conversion. *)
Fixpoint fprintf (f : list fmt_item) (args : list fmt_arg)
  : option (list ascii) :=
  match f, args with
  | [], [] => Some []
  | FLit s :: f', _ =>
      option_map (app (String.list_ascii_of_string s)) (fprintf f' args)
  | FStr :: f', AStr p :: args' =>
      option_map (app (c_str p)) (fprintf f' args')
  | FInt :: f', AInt z :: args' =>
      option_map (app (dec z)) (fprintf f' args')
  | _, _ => None
  end.

End CStr.

Import CStr.

(** ** Error object ([struct flux_error], [__flux_make_error],
       [flux_error_print]) *)

Record flux_error : Type := FluxError {
  code : Z;
  msg : list ascii;
  file : list ascii;
  line : Z
}.

(** [flux_error_t e = {0};] *)
Definition zero_error : flux_error :=
  {| code := 0;
     msg := replicate (Z.to_nat FLUX_ERROR_MSG_MAX) NUL;
     file := replicate (Z.to_nat FLUX_FILE_MAX) NUL;
     line := 0 |}.

(** The [basename] computed inside [__flux_make_error]. *)
Definition basename (path : list ascii) : list ascii :=
  let b := match strrchr path "/"%char with
           | Some r => Some r
           | None => strrchr path "\"%char
           end in
  match b with
  | Some r => tail r
  | None => path
  end.

Definition __flux_make_error (c : Z) (m : option (list ascii))
    (f : option (list ascii)) (ln : Z) : flux_error :=
  let e := zero_error in
  let msg1 :=
    match m with
    | Some s =>
        <[Z.to_nat (FLUX_ERROR_MSG_MAX - 1) := NUL]>
          (strncpy (msg e) s (Z.to_nat (FLUX_ERROR_MSG_MAX - 1)))
    | None => msg e
    end in
  let file1 :=
    match f with
    | Some p =>
        <[Z.to_nat (FLUX_FILE_MAX - 1) := NUL]>
          (strncpy (file e) (basename p) (Z.to_nat (FLUX_FILE_MAX - 1)))
    | None => file e
    end in
  {| code := c; msg := msg1; file := file1; line := ln |}.

(** The format string of [flux_error_print]. *)
Definition flux_error_format : list fmt_item :=
  [FLit "🔥 ["; FStr; FLit ":"; FInt; FLit "] ERR "; FInt; FLit ": "; FStr;
   FLit (String.String LF String.EmptyString)].

(** [flux_error_print(e)]: the bytes appended to [stderr]. *)
Definition flux_error_print (e : option flux_error) (err : list ascii)
  : list ascii :=
  match e with
  | None => err
  | Some e =>
      match msg e !! 0%nat with
      | Some c =>
          if Ascii.eqb c NUL then err
          else match fprintf flux_error_format
                       [AStr (file e); AInt (line e); AInt (code e);
                        AStr (msg e)] with
               | Some out => err ++ out
               | None => err
               end
      | None => err
      end
  end.

(** ** Guards, scope records, the pool and the thread registry *)

(** [struct flux_guard]. *)
Record flux_guard : Type := FluxGuard {
  dtor : Z;
  ptr : Z;
  next : option Z
}.

(** [struct flux_scope]; [buf] records whether [setjmp] has stored a context
    in the [jmp_buf]. *)
Record flux_scope : Type := FluxScope {
  buf : bool;
  err : flux_error;
  guards : option Z;
  active : bool
}.

(** [struct flux_pool]. *)
Record flux_pool : Type := FluxPool {
  slots : list flux_guard;
  idx : Z
}.

(** [struct flux_tls]. *)
Record flux_tls : Type := FluxTls {
  stack : list flux_scope;
  top : Z;
  pool : flux_pool
}.

Definition set_err (s : flux_scope) (e : flux_error) : flux_scope :=
  {| buf := buf s; err := e; guards := guards s; active := active s |}.

Definition set_guards (s : flux_scope) (h : option Z) : flux_scope :=
  {| buf := buf s; err := err s; guards := h; active := active s |}.

Definition set_active (s : flux_scope) (a : bool) : flux_scope :=
  {| buf := buf s; err := err s; guards := guards s; active := a |}.

Definition zero_guard : flux_guard := {| dtor := 0; ptr := 0; next := None |}.

Definition zero_scope : flux_scope :=
  {| buf := false; err := zero_error; guards := None; active := false |}.

(** [calloc(1, sizeof(flux_tls_t))]: every member is zero, [top] included. *)
Definition calloc_flux_tls : flux_tls :=
  {| stack := replicate (Z.to_nat FLUX_MAX_DEPTH) zero_scope;
     top := 0;
     pool := {| slots := replicate (Z.to_nat FLUX_POOL_SIZE) zero_guard;
                idx := 0 |} |}.

(** One cleanup call [dtor(ptr)]. *)
Definition call : Type := (Z * Z)%type.

(** What a thread can observe: its thread-specific registry pointer ([None]
    before the first use), the cleanup calls made so far, oldest first, and
    the bytes written to [stderr]. *)
Record world : Type := World {
  tls_slot : option flux_tls;
  calls : list call;
  stderr : list ascii
}.

(** A thread that has not touched the library yet. *)
Definition thread_start : world :=
  {| tls_slot := None; calls := []; stderr := [] |}.

(** [__flux_get_tls()]: the registry of the thread, allocated on first use.
    The failures of [calloc] and of the thread-specific-data calls, which
    abort, are left out. *)
Definition __flux_get_tls (w : world) : flux_tls :=
  match tls_slot w with
  | Some t => t
  | None => calloc_flux_tls
  end.

Definition set_tls (w : world) (t : flux_tls) : world :=
  {| tls_slot := Some t; calls := calls w; stderr := stderr w |}.

(** The shape the C types give the arrays. *)
Definition wf_tls (t : flux_tls) : Prop :=
  length (stack t) = Z.to_nat FLUX_MAX_DEPTH /\
  length (slots (pool t)) = Z.to_nat FLUX_POOL_SIZE.

Definition wf (w : world) : Prop := wf_tls (__flux_get_tls w).

(** Undefined behaviour the operations can run into. *)
Inductive fault : Type :=
| StackIndexOutOfBounds
| PoolIndexOutOfBounds
| JmpBufNotSet
| IntOverflow.

Inductive outcome : Type :=
| Returns (w : world)
| Jumps (w : world)
| Aborts (w : world)
| Faults (f : fault)
| OutOfFuel.

(** [stack[i]] and [pool->guards[i]] for an [int] index. *)
Definition stack_at (t : flux_tls) (i : Z) : option flux_scope :=
  if (0 <=? i) && (i <? FLUX_MAX_DEPTH) then stack t !! Z.to_nat i else None.

Definition slot_at (p : flux_pool) (i : Z) : option flux_guard :=
  if (0 <=? i) && (i <? FLUX_POOL_SIZE) then slots p !! Z.to_nat i else None.

Definition set_stack (t : flux_tls) (i : Z) (s : flux_scope) : flux_tls :=
  {| stack := <[Z.to_nat i := s]> (stack t); top := top t; pool := pool t |}.

Definition set_top (t : flux_tls) (n : Z) : flux_tls :=
  {| stack := stack t; top := n; pool := pool t |}.

Definition set_pool (t : flux_tls) (p : flux_pool) : flux_tls :=
  {| stack := stack t; top := top t; pool := p |}.

Definition set_slot (p : flux_pool) (i : Z) (g : flux_guard) : flux_pool :=
  {| slots := <[Z.to_nat i := g]> (slots p); idx := idx p |}.

(** ** Guard pool *)

(** [__flux_acquire_guard]: the claimed slot, if any, and the pool after the
    cursor update. *)
Definition __flux_acquire_guard (p : flux_pool) : option Z * flux_pool :=
  let i := idx p in
  let p1 := {| slots := slots p; idx := wrap_int (idx p + 1) |} in
  if FLUX_POOL_SIZE <=? i
  then (None, {| slots := slots p1; idx := wrap_int (idx p1 - 1) |})
  else (Some i, p1).

Definition __flux_reset_pool (p : flux_pool) : flux_pool :=
  {| slots := slots p; idx := 0 |}.

Inductive walk : Type :=
| WalkDone (cs : list call)
| WalkFault
| WalkOutOfFuel.

(** [__flux_release_guards]: the loop runs while [head] is not null; [fuel]
    bounds the number of iterations. *)
Fixpoint __flux_release_guards (fuel : nat) (p : flux_pool) (head : option Z)
    (cs : list call) : walk :=
  match head with
  | None => WalkDone cs
  | Some i =>
      match fuel with
      | O => WalkOutOfFuel
      | S fuel' =>
          match slot_at p i with
          | None => WalkFault
          | Some g =>
              let cs' :=
                if negb (dtor g =? 0) && negb (ptr g =? 0)
                then cs ++ [(dtor g, ptr g)] else cs in
              __flux_release_guards fuel' p (next g) cs'
          end
      end
  end.

(** ** Control protocol *)

(** The expansion site of a macro: [__FILE__] and [__LINE__]. *)
Record site : Type := Site {
  site_file : list ascii;
  site_line : Z
}.

(** [FLUX_THROW(code, msg)]. The macro hands its argument to the [int32_t]
    parameter of [__flux_make_error]: a value outside that type is
    converted. *)
Definition FLUX_THROW (c : Z) (m : option (list ascii)) (at_ : site)
    (w : world) : outcome :=
  let t := __flux_get_tls w in
  let e := __flux_make_error (wrap_int c) m (Some (site_file at_))
             (site_line at_) in
  if (0 <=? top t) && (top t <? FLUX_MAX_DEPTH) then
    match stack_at t (top t) with
    | None => Faults StackIndexOutOfBounds
    | Some s =>
        if buf s then Jumps (set_tls w (set_stack t (top t) (set_err s e)))
        else Faults JmpBufNotSet
    end
  else
    Aborts {| tls_slot := Some t; calls := calls w;
              stderr := flux_error_print (Some e) (stderr w) |}.

Definition FLUX_THROW_LIMIT : site -> world -> outcome :=
  FLUX_THROW 5 (Some (String.list_ascii_of_string "resource limit exceeded")).

(** [FLUX_TRY], up to the [setjmp] call that returns 0. *)
Definition FLUX_TRY (w : world) : outcome :=
  let t := __flux_get_tls w in
  if INT_MAX <? top t + 1 then Faults IntOverflow
  else if FLUX_MAX_DEPTH <=? top t + 1 then Aborts (set_tls w t)
  else
    let l := top t + 1 in
    match stack_at t l with
    | None => Faults StackIndexOutOfBounds
    | Some s =>
        let s' := {| buf := true; err := err s; guards := None;
                     active := true |} in
        Returns (set_tls w
          (set_pool (set_stack (set_top t l) l s')
                    (__flux_reset_pool (pool t))))
    end.

(** [FLUX_CATCH], first branch: the body has run to its end. [l] is the
    local [__l] of the enclosing [FLUX_TRY]. *)
Definition FLUX_CATCH_exit (l : Z) (w : world) : outcome :=
  let t := __flux_get_tls w in
  match stack_at t l with
  | None => Faults StackIndexOutOfBounds
  | Some s =>
      if top t - 1 <? INT_MIN then Faults IntOverflow
      else Returns (set_tls w
             (set_top (set_stack t l (set_active s false)) (top t - 1)))
  end.

(** [FLUX_CATCH], second branch: [setjmp] has returned 1. The handler that
    follows reads the error from [stack[l].err]. *)
Definition FLUX_CATCH_unwind (fuel : nat) (l : Z) (w : world) : outcome :=
  let t := __flux_get_tls w in
  match stack_at t l with
  | None => Faults StackIndexOutOfBounds
  | Some s =>
      match __flux_release_guards fuel (pool t) (guards s) (calls w) with
      | WalkOutOfFuel => OutOfFuel
      | WalkFault => Faults PoolIndexOutOfBounds
      | WalkDone cs =>
          if top t - 1 <? INT_MIN then Faults IntOverflow
          else Returns {| tls_slot :=
                            Some (set_top (set_stack t l (set_active s false))
                                          (top t - 1));
                          calls := cs; stderr := stderr w |}
      end
  end.

(** [FLUX_DEFER(dt, p)]. *)
Definition FLUX_DEFER (dt p : Z) (at_ : site) (w : world) : outcome :=
  let t := __flux_get_tls w in
  let '(g, pool1) := __flux_acquire_guard (pool t) in
  match g with
  | Some i =>
      match slot_at pool1 i with
      | None => Faults PoolIndexOutOfBounds
      | Some _ =>
          match stack_at t (top t) with
          | None => Faults StackIndexOutOfBounds
          | Some s =>
              let g' := {| dtor := dt; ptr := p; next := guards s |} in
              Returns (set_tls w
                (set_stack (set_pool t (set_slot pool1 i g')) (top t)
                           (set_guards s (Some i))))
          end
      end
  | None => FLUX_THROW_LIMIT at_ (set_tls w (set_pool t pool1))
  end.

(** ** Programs built from the macros *)

(** The statements user code composes: a guard registration, a signalled
    failure, and a [FLUX_TRY { body } FLUX_CATCH(e) { handler } FLUX_END_TRY]
    block. *)
Unset Elimination Schemes.

Inductive stmt : Type :=
| SDefer (dt p : Z) (at_ : site)
| SThrow (c : Z) (m : option (list ascii)) (at_ : site)
| STry (body handler : list stmt).

Set Elimination Schemes.

(** A sequence of statements stops at the first one that does not return. *)
Definition seq_with (f : stmt -> world -> outcome)
  : list stmt -> world -> outcome :=
  fix go (ss : list stmt) (w : world) {struct ss} : outcome :=
    match ss with
    | [] => Returns w
    | s :: ss' =>
        match f s w with
        | Returns w' => go ss' w'
        | o => o
        end
    end.

(** Execution of a statement. A jump raised inside a body lands on the
    [setjmp] of the scope [stack[top]] designates; the block whose [__l] is
    that index resumes in its second branch, any other block is left.
    [fuel] bounds the guard walk of each unwind. *)
Fixpoint exec (fuel : nat) (s : stmt) (w : world) {struct s} : outcome :=
  match s with
  | SDefer dt p at_ => FLUX_DEFER dt p at_ w
  | SThrow c m at_ => FLUX_THROW c m at_ w
  | STry body handler =>
      let l := top (__flux_get_tls w) + 1 in
      match FLUX_TRY w with
      | Returns w1 =>
          match seq_with (exec fuel) body w1 with
          | Returns w2 => FLUX_CATCH_exit l w2
          | Jumps w2 =>
              if top (__flux_get_tls w2) =? l then
                match FLUX_CATCH_unwind fuel l w2 with
                | Returns w3 => seq_with (exec fuel) handler w3
                | o => o
                end
              else Jumps w2
          | o => o
          end
      | o => o
      end
  end.

Definition exec_seq (fuel : nat) : list stmt -> world -> outcome :=
  seq_with (exec fuel).

(** [n] nested [FLUX_TRY] entries, none of them left. *)
Fixpoint enter_n (n : nat) (w : world) : outcome :=
  match n with
  | O => Returns w
  | S n' =>
      match FLUX_TRY w with
      | Returns w' => enter_n n' w'
      | o => o
      end
  end.

(** ** Vocabulary of the statements *)

(** The world as its registry shows it. *)
Definition wtop (w : world) : Z := top (__flux_get_tls w).
Definition wpool (w : world) : flux_pool := pool (__flux_get_tls w).
Definition wscope (w : world) (i : Z) : option flux_scope :=
  stack_at (__flux_get_tls w) i.

(** The diagnostic line as the interface description words it:
    [[<basename>:<line>] ERR <code>: <message>], nothing before and nothing
    after. *)
Definition documented_line (e : flux_error) : list ascii :=
  String.list_ascii_of_string "[" ++ c_str (file e) ++
  String.list_ascii_of_string ":" ++ dec (line e) ++
  String.list_ascii_of_string "] ERR " ++ dec (code e) ++
  String.list_ascii_of_string ": " ++ c_str (msg e).

(** The line [flux_error_print] writes. *)
Definition printed_line (e : flux_error) : list ascii :=
  String.list_ascii_of_string "🔥 [" ++ c_str (file e) ++
  String.list_ascii_of_string ":" ++ dec (line e) ++
  String.list_ascii_of_string "] ERR " ++ dec (code e) ++
  String.list_ascii_of_string ": " ++ c_str (msg e) ++ [LF].

(** The registrations of a body, in program order. *)
Definition defers (at_ : site) (gs : list call) : list stmt :=
  map (fun g => SDefer (fst g) (snd g) at_) gs.

(** A guard [__flux_release_guards] calls: neither member is null. *)
Definition callable (g : call) : bool :=
  negb (fst g =? 0) && negb (snd g =? 0).

(** The calls an unwind makes for the registrations [gs]. *)
Definition unwind_calls (gs : list call) : list call :=
  filter (fun g => callable g = true) (reverse gs).

(** The slots [length gs] registrations write, starting at slot [k] with the
    list head [h], and the list head they leave. *)
Fixpoint chain (k : nat) (h : option Z) (gs : list call) : list flux_guard :=
  match gs with
  | [] => []
  | g :: gs' =>
      {| dtor := fst g; ptr := snd g; next := h |}
        :: chain (S k) (Some (Z.of_nat k)) gs'
  end.

Fixpoint chain_head (k : nat) (h : option Z) (gs : list call) : option Z :=
  match gs with
  | [] => h
  | _ :: gs' => chain_head (S k) (Some (Z.of_nat k)) gs'
  end.

(** The registry after a scope has been entered from [t], where [s] is the
    record found at the new level, and [gs] has been registered in it. *)
Definition scope_after (t : flux_tls) (s : flux_scope) (gs : list call)
  : flux_tls :=
  {| stack := <[Z.to_nat (top t + 1) :=
                  {| buf := true; err := err s;
                     guards := chain_head 0 None gs; active := true |}]>
                (stack t);
     top := top t + 1;
     pool := {| slots := chain 0 None gs ++
                         drop (length gs) (slots (pool t));
                idx := Z.of_nat (length gs) |} |}.

(** The bounds of the stack top, [-1] standing for the empty stack. *)
Definition top_in_range (w : world) : Prop :=
  -1 <= wtop w <= FLUX_MAX_DEPTH - 1.

(** An outcome that leaves the stack at the depth of [w]: a return or a
    jump carries a well-formed world with the top of [w], an abort a
    well-formed world with the top in its bounds. *)
Definition keeps_depth (w : world) (o : outcome) : Prop :=
  match o with
  | Returns w' | Jumps w' => wf w' /\ wtop w' = wtop w
  | Aborts w' => wf w' /\ top_in_range w'
  | Faults _ | OutOfFuel => True
  end.

(** A registry whose stack is empty in the sense of [FLUX_THROW]'s test. *)
Definition empty_stack_tls : flux_tls := set_top calloc_flux_tls (-1).

Definition empty_stack_world : world :=
  {| tls_slot := Some empty_stack_tls; calls := []; stderr := [] |}.

Definition demo_site : site :=
  {| site_file := String.list_ascii_of_string "/a/b/c.txt"; site_line := 7 |}.

Definition demo_msg : list ascii := String.list_ascii_of_string "bad input".

(** The operations read a world through its registry only: [settled w] is
    [w] with the registry allocated. *)
Definition settled (w : world) : world := set_tls w (__flux_get_tls w).

(** ** Reserved codes and convenience wrappers ([libflux.h], lines 182-279)

    The wrappers are macros: each expands, at its call site, to a few
    statements around one call into the C library. Their embedding is that
    expansion, given what the library call returns, together with the value
    of the statement expression. *)

(** The C library as the wrappers see it: the addresses of the cleanup
    functions and the results of the allocation and open calls ([0] is a
    null result). *)
Record libc : Type := Libc {
  free : Z;
  fclose : Z;
  close : Z;
  malloc : Z -> Z;
  calloc : Z -> Z -> Z;
  realloc : Z -> Z -> Z;
  strdup : list ascii -> Z;
  fopen : list ascii -> list ascii -> Z
}.

Definition FLUX_THROW_FILE (m : option (list ascii)) (at_ : site) : stmt :=
  SThrow 1 m at_.

Definition FLUX_THROW_MEMORY (at_ : site) : stmt :=
  SThrow 2 (Some (String.list_ascii_of_string "out of memory")) at_.

Definition FLUX_THROW_PARSE (m : option (list ascii)) (at_ : site) : stmt :=
  SThrow 3 m at_.

Definition FLUX_THROW_INVALID (m : option (list ascii)) (at_ : site) : stmt :=
  SThrow 4 m at_.

(** [snprintf(buf, n, ...)]: the string left in [buf], the output cut to
    [n - 1] bytes. *)
Definition snprintf (n : nat) (f : list fmt_item) (args : list fmt_arg)
  : option (list ascii) :=
  option_map (take (n - 1)) (fprintf f args).

(** [FLUX_MALLOC(sz)]. *)
Definition FLUX_MALLOC (L : libc) (sz : Z) (at_ : site) : list stmt * Z :=
  let sz1 := if sz =? 0 then 1 else sz in
  let p := malloc L sz1 in
  ((if p =? 0 then [FLUX_THROW_MEMORY at_] else []) ++
   [SDefer (free L) p at_], p).

(** [FLUX_CALLOC(nmemb, sz)]. *)
Definition FLUX_CALLOC (L : libc) (nmemb sz : Z) (at_ : site)
  : list stmt * Z :=
  let z := (nmemb =? 0) || (sz =? 0) in
  let nmemb1 := if z then 1 else nmemb in
  let sz1 := if z then 1 else sz in
  let p := calloc L nmemb1 sz1 in
  ((if p =? 0 then [FLUX_THROW_MEMORY at_] else []) ++
   [SDefer (free L) p at_], p).

(** [FLUX_REALLOC(ptr, new_sz)]. *)
Definition FLUX_REALLOC (L : libc) (old new_sz : Z) (at_ : site)
  : list stmt * Z :=
  let sz1 := if new_sz =? 0 then 1 else new_sz in
  let p := realloc L old sz1 in
  ((if p =? 0 then [FLUX_THROW_MEMORY at_] else []) ++
   [SDefer (free L) p at_], p).

(** [FLUX_STRDUP(s)]. *)
Definition FLUX_STRDUP (L : libc) (s : option (list ascii)) (at_ : site)
  : list stmt * Z :=
  let p := match s with Some m => strdup L m | None => 0 end in
  ((if (p =? 0) && (match s with Some _ => true | None => false end)
    then [FLUX_THROW_MEMORY at_] else []) ++
   (if negb (p =? 0) then [SDefer (free L) p at_] else []), p).

(** The message [FLUX_FOPEN] formats into its 256-byte buffer. *)
Definition fopen_failed (path mode : list ascii) : option (list ascii) :=
  snprintf 256
    [FLit "fopen('"; FStr; FLit "', '"; FStr; FLit "') failed"]
    [AStr path; AStr mode].

(** [FLUX_FOPEN(path, mode)]. *)
Definition FLUX_FOPEN (L : libc) (path mode : list ascii) (at_ : site)
  : list stmt * Z :=
  let f := fopen L path mode in
  ((if f =? 0 then [FLUX_THROW_FILE (fopen_failed path mode) at_] else []) ++
   [SDefer (fclose L) f at_], f).


(** A use of one of the allocating wrappers at the site [a]: its expansion
    and the pointer it yields. *)
Inductive alloc_call (L : libc) (a : site) : list stmt -> Z -> Prop :=
| alloc_malloc (sz : Z) :
    alloc_call L a (fst (FLUX_MALLOC L sz a)) (snd (FLUX_MALLOC L sz a))
| alloc_calloc (nmemb sz : Z) :
    alloc_call L a (fst (FLUX_CALLOC L nmemb sz a))
      (snd (FLUX_CALLOC L nmemb sz a))
| alloc_realloc (old sz : Z) :
    alloc_call L a (fst (FLUX_REALLOC L old sz a))
      (snd (FLUX_REALLOC L old sz a))
| alloc_strdup (str : list ascii) :
    alloc_call L a (fst (FLUX_STRDUP L (Some str) a))
      (snd (FLUX_STRDUP L (Some str) a)).

(** A C library for examples: every call succeeds, except [fopen] in read
    mode. *)
Definition demo_libc : libc :=
  {| free := 1; fclose := 2; close := 3;
     malloc := fun sz => 1000 + sz;
     calloc := fun n sz => 5000 + n * sz;
     realloc := fun old sz => old + 16;
     strdup := fun _ => 9000;
     fopen := fun _ mode =>
       match mode with
       | "r"%char :: _ => 0
       | _ => 7000
       end |}.

(** ** Blocks with a handler written in C

    A [FLUX_TRY ... FLUX_CATCH(e) ... FLUX_END_TRY] block up to the first
    statement of its handler: the body has run to its end, or a failure has
    been caught and [e] points to the error of the block's record, or the
    block did not get that far. *)
Inductive caught : Type :=
| Completed (w : world)
| Caught (w : world) (e : flux_error)
| Stopped (o : outcome).

Definition run_block (fuel : nat) (body : list stmt) (w : world) : caught :=
  let l := top (__flux_get_tls w) + 1 in
  match FLUX_TRY w with
  | Returns w1 =>
      match exec_seq fuel body w1 with
      | Returns w2 =>
          match FLUX_CATCH_exit l w2 with
          | Returns w3 => Completed w3
          | o => Stopped o
          end
      | Jumps w2 =>
          if top (__flux_get_tls w2) =? l then
            match FLUX_CATCH_unwind fuel l w2 with
            | Returns w3 =>
                match stack_at (__flux_get_tls w3) l with
                | Some s => Caught w3 (err s)
                | None => Stopped (Faults StackIndexOutOfBounds)
                end
            | o => Stopped o
            end
          else Stopped (Jumps w2)
      | o => Stopped o
      end
  | o => Stopped o
  end.

(** ** The demonstration program ([main.c])

    [main] as the registry, the cleanup calls and [stderr] see it; what it
    writes to [stdout], to the file it opens and into the blocks it
    allocates is not part of a [world]. [src] is [__FILE__]. *)
Inductive main_result : Type :=
| Exit (status : Z) (w : world)
| Crash (o : outcome).

Definition main_site (src : list ascii) (ln : Z) : site :=
  {| site_file := src; site_line := ln |}.

Definition main (L : libc) (fuel : nat) (src : list ascii) (w : world)
  : main_result :=
  let print e w :=
    {| tls_slot := tls_slot w; calls := calls w;
       stderr := flux_error_print (Some e) (stderr w) |} in
  match run_block fuel
          (fst (FLUX_MALLOC L 1024 (main_site src 6)) ++
           fst (FLUX_FOPEN L (String.list_ascii_of_string "test.txt")
                  (String.list_ascii_of_string "w") (main_site src 7))) w with
  | Caught w1 e => Exit 1 (print e w1)
  | Stopped o => Crash o
  | Completed w1 =>
      match run_block fuel
              (fst (FLUX_CALLOC L 1000 4 (main_site src 17))) w1 with
      | Caught w2 e => Exit 1 (print e w2)
      | Stopped o => Crash o
      | Completed w2 =>
          match run_block fuel
                  (fst (FLUX_FOPEN L
                          (String.list_ascii_of_string "nonexistent.txt")
                          (String.list_ascii_of_string "r")
                          (main_site src 26))) w2 with
          | Caught w3 e => Exit 0 (print e w3)
          | Stopped o => Crash o
          | Completed w3 => Exit 0 w3
          end
      end
  end.

(** What the four library calls of [main] return. *)
Definition main_buffer (L : libc) : Z := malloc L 1024.

Definition main_file (L : libc) : Z :=
  fopen L (String.list_ascii_of_string "test.txt")
    (String.list_ascii_of_string "w").

Definition main_arr (L : libc) : Z := calloc L 1000 4.

Definition main_missing (L : libc) : Z :=
  fopen L (String.list_ascii_of_string "nonexistent.txt")
    (String.list_ascii_of_string "r").

(** ** The guard walk, one link at a time *)

(** The head [__flux_release_guards] moves to after one iteration; a null
    head and a head outside the pool have no successor. *)
Definition next_head (p : flux_pool) (h : option Z) : option Z :=
  match h with
  | Some i =>
      match slot_at p i with
      | Some g => next g
      | None => None
      end
  | None => None
  end.

(** The head after [n] iterations. *)
Fixpoint nth_head (p : flux_pool) (n : nat) (h : option Z) : option Z :=
  match n with
  | O => h
  | S n' => nth_head p n' (next_head p h)
  end.

(** The pool cursor lies within the pool. *)
Definition cursor_in_range (w : world) : Prop :=
  0 <= idx (wpool w) <= FLUX_POOL_SIZE.

(** The world an outcome carries, if any. *)
Definition outcome_world (o : outcome) : option world :=
  match o with
  | Returns w | Jumps w | Aborts w => Some w
  | Faults _ | OutOfFuel => None
  end.

(** The scope records below the top of [w] are in [w'] what they are in
    [w]. *)
Definition unchanged_below (w w' : world) : Prop :=
  forall i, i < wtop w -> wscope w' i = wscope w i.

(** An outcome that has left the enclosing scopes alone, and [stderr] too
    when the top of [w] is not negative; if it is an abort, the stack is
    full. *)
Definition frame_outcome (w : world) (o : outcome) : Prop :=
  match o with
  | Returns w' | Jumps w' =>
      unchanged_below w w' /\ (0 <= wtop w -> stderr w' = stderr w)
  | Aborts w' =>
      unchanged_below w w' /\
      (0 <= wtop w ->
       stderr w' = stderr w /\ wtop w' = FLUX_MAX_DEPTH - 1)
  | Faults _ | OutOfFuel => True
  end.

(** The guard a statement registers, if it is a registration, and the
    guards a sequence of statements would register, in program order. *)
Definition guard_of (s : stmt) : option call :=
  match s with
  | SDefer dt p _ => Some (dt, p)
  | _ => None
  end.

Definition registrations (ss : list stmt) : list call := omap guard_of ss.

Definition only_defers (ss : list stmt) : Prop :=
  Forall (fun s => is_Some (guard_of s)) ss.

(** A string in which the character [c] does not occur. *)
Definition no_char (c : ascii) (s : list ascii) : Prop :=
  Forall (fun x => x <> c) s.

(** A thread outside every scope, as the code has it: the top has the
    value 0 it got from [calloc], and no [setjmp] has stored a capture point
    in [stack[0]], the record no [FLUX_TRY] ever takes. *)
Definition outside_every_scope (w : world) : Prop :=
  wf w /\ wtop w = 0 /\ (buf <$> wscope w 0) = Some false.

(** ** Proof automation *)

(** Case analysis on the innermost scrutinee of the goal. *)
Ltac case_matches :=
  repeat match goal with
         | |- context [match ?x with _ => _ end] =>
             lazymatch x with
             | context [match _ with _ => _ end] => fail
             | _ => destruct x eqn:?
             end
         end.

Ltac frame_wf H :=
  destruct H as [?Hst ?Hsl];
  unfold wf, wf_tls, wtop, wpool, set_tls, set_stack, set_top, set_pool,
    set_slot, __flux_reset_pool;
  cbn [__flux_get_tls tls_slot stack top pool slots idx];
  rewrite ?length_insert;
  repeat split; try assumption; try reflexivity.

(** * Properties *)

(** ** C strings *)

Section CStrFacts.

Implicit Types (m s b : list ascii).

Lemma c_str_no_nul m : Forall (fun c => c <> NUL) (c_str m).
Proof.
  induction m as [|c m IH]; simpl; [constructor|].
  destruct (Ascii.eqb_spec c NUL); [constructor|].
  constructor; assumption.
Qed.

(** Reading back a buffer that holds a NUL-free string followed by NUL. *)
Lemma c_str_app_nul s rest :
  Forall (fun c => c <> NUL) s -> c_str (s ++ NUL :: rest) = s.
Proof.
  induction 1 as [|c s Hc _ IH]; simpl; [reflexivity|].
  destruct (Ascii.eqb_spec c NUL); [contradiction|].
  f_equal. exact IH.
Qed.

(** The buffer [strncpy] and the terminator store leave in a zeroed array
    of [S n] bytes. *)
Lemma stored_string n s :
  <[n := NUL]> (strncpy (replicate (S n) NUL) s n) =
  take n (c_str s) ++ replicate (S n - length (take n (c_str s))) NUL.
Proof.
  unfold strncpy.
  assert (Hlen : (length (take n (c_str s)) <= n)%nat)
    by (rewrite length_take; lia).
  set (t := take n (c_str s)) in *.
  rewrite drop_replicate.
  replace (S n - n)%nat with 1%nat by lia.
  rewrite <- replicate_add.
  replace (n - length t + 1)%nat with (S n - length t)%nat by lia.
  apply list_eq. intros i.
  destruct (decide (i = n)) as [->|Hne].
  - rewrite list_lookup_insert_eq.
    + symmetry. rewrite lookup_app_r by lia.
      apply lookup_replicate_2. lia.
    + rewrite length_app, length_replicate. lia.
  - rewrite list_lookup_insert_ne by congruence. reflexivity.
Qed.

Lemma stored_string_length n s :
  length (take n (c_str s) ++
          replicate (S n - length (take n (c_str s))) NUL) = S n.
Proof.
  rewrite length_app, length_replicate.
  assert ((length (take n (c_str s)) <= n)%nat)
    by (rewrite length_take; lia).
  lia.
Qed.

Lemma stored_string_c_str n s :
  c_str (take n (c_str s) ++
         replicate (S n - length (take n (c_str s))) NUL) =
  take n (c_str s).
Proof.
  assert (Hlen : (length (take n (c_str s)) <= n)%nat)
    by (rewrite length_take; lia).
  replace (S n - length (take n (c_str s)))%nat
    with (S (n - length (take n (c_str s)))) by lia.
  simpl replicate. apply c_str_app_nul.
  apply Forall_take, c_str_no_nul.
Qed.

End CStrFacts.

(** ** Error object *)

Lemma make_error_msg (c : Z) (m : list ascii) (f : option (list ascii))
    (ln : Z) :
  msg (__flux_make_error c (Some m) f ln) =
  take 511 (c_str m) ++
  replicate (512 - length (take 511 (c_str m))) NUL.
Proof.
  unfold __flux_make_error. cbn [msg zero_error].
  change (Z.to_nat (FLUX_ERROR_MSG_MAX - 1)) with 511%nat.
  change (Z.to_nat FLUX_ERROR_MSG_MAX) with (S 511).
  apply stored_string.
Qed.

(** C6. The message stored by [__flux_make_error] is the input string when
    its length is at most 511 and its first 511 bytes otherwise; the buffer
    keeps its 512 bytes and holds a NUL right after the stored string, and it
    is all NUL when the message pointer is null. *)
Theorem C6_message_truncated_and_terminated
    (c : Z) (m : list ascii) (f : option (list ascii)) (ln : Z) :
  let e := __flux_make_error c (Some m) f ln in
  let e0 := __flux_make_error c None f ln in
  c_str (msg e) =
    (if (strlen m <=? 511)%nat then c_str m else take 511 (c_str m)) /\
  length (msg e) = 512%nat /\
  msg e !! length (c_str (msg e)) = Some NUL /\
  msg e !! 511%nat = Some NUL /\
  msg e0 = replicate 512 NUL /\
  c_str (msg e0) = [].
Proof.
  intros e e0. subst e e0. rewrite make_error_msg.
  change 512%nat with (S 511).
  rewrite stored_string_c_str.
  assert (Hlen : (length (take 511 (c_str m)) <= 511)%nat)
    by (rewrite length_take; lia).
  repeat split.
  - unfold strlen. destruct (Nat.leb_spec (length (c_str m)) 511).
    + apply take_ge. lia.
    + reflexivity.
  - apply stored_string_length.
  - rewrite lookup_app_r by lia. apply lookup_replicate_2. lia.
  - rewrite lookup_app_r by lia. apply lookup_replicate_2. lia.
Qed.

(** C7 as documented fails: the line written for a non-empty message starts
    with the four bytes of the fire sign and a blank and ends with a line
    feed, so it is not the documented line. *)
Lemma C7_documented_line_counterexample :
  let e := __flux_make_error 4 (Some demo_msg) (Some (site_file demo_site))
             (site_line demo_site) in
  c_str (msg e) = demo_msg /\
  documented_line e =
    String.list_ascii_of_string "[c.txt:7] ERR 4: bad input" /\
  flux_error_print (Some e) [] <> documented_line e.
Proof.
  vm_compute. repeat split. discriminate.
Qed.

(** What [flux_error_print] appends for a non-null error pointer. *)
Lemma flux_error_print_line (e : flux_error) (out : list ascii) :
  flux_error_print (Some e) out =
    match c_str (msg e) with
    | [] => out
    | _ :: _ => out ++ printed_line e
    end.
Proof.
  unfold flux_error_print.
  destruct (msg e) as [|c b] eqn:Hm; simpl; [reflexivity|].
  destruct (Ascii.eqb_spec c NUL); [reflexivity|].
  unfold printed_line. rewrite Hm. simpl.
  destruct (Ascii.eqb_spec c NUL); [contradiction|].
  reflexivity.
Qed.

(** C7, amended. For every error object, [flux_error_print] appends to the
    diagnostic sink exactly the fire sign, a blank,
    [[<file>:<line>] ERR <code>: <message>] and a line feed when the message
    is not empty, and nothing when the message is empty or the error pointer
    is null. *)
Theorem C7_printed_line (e : flux_error) (out : list ascii) :
  flux_error_print (Some e) out =
    match c_str (msg e) with
    | [] => out
    | _ :: _ => out ++ printed_line e
    end /\
  flux_error_print None out = out /\
  printed_line e =
    String.list_ascii_of_string "🔥 " ++ documented_line e ++ [LF].
Proof.
  split; [apply flux_error_print_line|].
  split; [reflexivity|].
  unfold printed_line, documented_line.
  rewrite <- !app_assoc. reflexivity.
Qed.

(** ** Array accesses *)

Lemma stack_at_lookup (t : flux_tls) (i : Z) :
  0 <= i < FLUX_MAX_DEPTH -> stack_at t i = stack t !! Z.to_nat i.
Proof.
  intros Hi. unfold stack_at.
  destruct (Z.leb_spec 0 i), (Z.ltb_spec i FLUX_MAX_DEPTH); simpl;
    (reflexivity || lia).
Qed.


Lemma stack_at_Some (t : flux_tls) (i : Z) (s : flux_scope) :
  stack_at t i = Some s ->
  0 <= i < FLUX_MAX_DEPTH /\ stack t !! Z.to_nat i = Some s.
Proof.
  unfold stack_at.
  destruct (Z.leb_spec 0 i), (Z.ltb_spec i FLUX_MAX_DEPTH); simpl;
    intros Hs; (discriminate || (split; [lia | exact Hs])).
Qed.

Lemma stack_at_wf (t : flux_tls) (i : Z) :
  wf_tls t -> 0 <= i < FLUX_MAX_DEPTH -> exists s, stack_at t i = Some s.
Proof.
  intros [Hs _] Hi. rewrite stack_at_lookup by exact Hi.
  apply lookup_lt_is_Some_2. rewrite Hs.
  unfold FLUX_MAX_DEPTH in *. lia.
Qed.

Lemma slot_at_lookup (p : flux_pool) (i : Z) :
  0 <= i < FLUX_POOL_SIZE -> slot_at p i = slots p !! Z.to_nat i.
Proof.
  intros Hi. unfold slot_at.
  destruct (Z.leb_spec 0 i), (Z.ltb_spec i FLUX_POOL_SIZE); simpl;
    (reflexivity || lia).
Qed.

Lemma wrap_int_small (z : Z) : INT_MIN <= z <= INT_MAX -> wrap_int z = z.
Proof.
  unfold wrap_int, INT_MIN, INT_MAX. intros H.
  rewrite Z.mod_small; lia.
Qed.

Lemma set_guards_same (s : flux_scope) : set_guards s (guards s) = s.
Proof. destruct s; reflexivity. Qed.

Lemma exec_settled (fuel : nat) (s : stmt) (w : world) :
  exec fuel s w = exec fuel s (settled w).
Proof. destruct w as [[t|] c e]; destruct s; reflexivity. Qed.

Lemma FLUX_TRY_settled (w : world) : FLUX_TRY w = FLUX_TRY (settled w).
Proof. destruct w as [[t|] c e]; reflexivity. Qed.

(** ** The operations on a settled world *)

Section Operations.

Variables (t : flux_tls) (c : list call) (e : list ascii).

Hypothesis Hwf : wf_tls t.

Lemma FLUX_TRY_returns (s : flux_scope) :
  -1 <= top t < FLUX_MAX_DEPTH - 1 ->
  stack t !! Z.to_nat (top t + 1) = Some s ->
  FLUX_TRY (World (Some t) c e) =
  Returns (World (Some
    {| stack := <[Z.to_nat (top t + 1) :=
                    {| buf := true; err := err s; guards := None;
                       active := true |}]> (stack t);
       top := top t + 1;
       pool := {| slots := slots (pool t); idx := 0 |} |}) c e).
Proof.
  intros Ht Hs. unfold FLUX_TRY. cbn [__flux_get_tls tls_slot].
  unfold FLUX_MAX_DEPTH, INT_MAX in *.
  destruct (Z.ltb_spec 2147483647 (top t + 1)); [lia|].
  destruct (Z.leb_spec 64 (top t + 1)); [lia|].
  rewrite stack_at_lookup by (unfold FLUX_MAX_DEPTH; lia).
  rewrite Hs. reflexivity.
Qed.

Lemma FLUX_DEFER_returns (dt p : Z) (at_ : site) (s : flux_scope) :
  0 <= top t < FLUX_MAX_DEPTH ->
  stack t !! Z.to_nat (top t) = Some s ->
  0 <= idx (pool t) < FLUX_POOL_SIZE ->
  FLUX_DEFER dt p at_ (World (Some t) c e) =
  Returns (World (Some
    {| stack := <[Z.to_nat (top t) := set_guards s (Some (idx (pool t)))]>
                  (stack t);
       top := top t;
       pool := {| slots := <[Z.to_nat (idx (pool t)) :=
                               {| dtor := dt; ptr := p;
                                  next := guards s |}]> (slots (pool t));
                  idx := idx (pool t) + 1 |} |}) c e).
Proof.
  intros Ht Hs Hi. unfold FLUX_DEFER, __flux_acquire_guard.
  cbn [__flux_get_tls tls_slot].
  unfold FLUX_POOL_SIZE in *.
  destruct (Z.leb_spec 2048 (idx (pool t))); [lia|].
  rewrite slot_at_lookup by (unfold FLUX_POOL_SIZE; lia). cbn [slots].
  destruct Hwf as [_ Hp].
  destruct (lookup_lt_is_Some_2 (slots (pool t)) (Z.to_nat (idx (pool t))))
    as [g Hg]; [rewrite Hp; unfold FLUX_POOL_SIZE; lia|].
  rewrite Hg, stack_at_lookup by exact Ht. rewrite Hs.
  rewrite wrap_int_small by (unfold INT_MIN, INT_MAX; lia).
  reflexivity.
Qed.


Lemma FLUX_THROW_jumps (k : Z) (m : option (list ascii)) (at_ : site)
    (s : flux_scope) :
  0 <= top t < FLUX_MAX_DEPTH ->
  stack t !! Z.to_nat (top t) = Some s ->
  buf s = true ->
  FLUX_THROW k m at_ (World (Some t) c e) =
  Jumps (World (Some
    {| stack := <[Z.to_nat (top t) :=
                    set_err s (__flux_make_error (wrap_int k) m
                                 (Some (site_file at_)) (site_line at_))]>
                  (stack t);
       top := top t; pool := pool t |}) c e).
Proof.
  intros Ht Hs Hb. unfold FLUX_THROW. cbn [__flux_get_tls tls_slot].
  rewrite stack_at_lookup by exact Ht. rewrite Hs, Hb.
  unfold FLUX_MAX_DEPTH in *.
  destruct (Z.leb_spec 0 (top t)), (Z.ltb_spec (top t) 64); try lia.
  reflexivity.
Qed.

Lemma FLUX_THROW_aborts (k : Z) (m : option (list ascii)) (at_ : site) :
  ~ (0 <= top t < FLUX_MAX_DEPTH) ->
  FLUX_THROW k m at_ (World (Some t) c e) =
  Aborts (World (Some t) c
    (flux_error_print
       (Some (__flux_make_error (wrap_int k) m (Some (site_file at_))
                (site_line at_))) e)).
Proof.
  intros Ht. unfold FLUX_THROW. cbn [__flux_get_tls tls_slot].
  unfold FLUX_MAX_DEPTH in *.
  destruct (Z.leb_spec 0 (top t)), (Z.ltb_spec (top t) 64);
    (lia || reflexivity).
Qed.

(** A full pool: the cursor is bumped and put back, the claim fails and
    the limit failure is thrown. *)
Lemma FLUX_DEFER_limit (dt p : Z) (at_ : site) :
  idx (pool t) = FLUX_POOL_SIZE ->
  FLUX_DEFER dt p at_ (World (Some t) c e) =
  FLUX_THROW_LIMIT at_ (World (Some t) c e).
Proof.
  intros Hi. unfold FLUX_DEFER, __flux_acquire_guard.
  cbn [__flux_get_tls tls_slot]. rewrite Hi.
  change (FLUX_POOL_SIZE <=? FLUX_POOL_SIZE) with true. cbn iota.
  cbn [idx slots].
  change (wrap_int (wrap_int (FLUX_POOL_SIZE + 1) - 1)) with FLUX_POOL_SIZE.
  rewrite <- Hi. unfold set_tls, set_pool. cbn [calls stderr].
  destruct t as [st tp [sl ix]]. reflexivity.
Qed.

Lemma FLUX_CATCH_exit_returns (l : Z) (s : flux_scope) :
  0 <= l < FLUX_MAX_DEPTH ->
  stack t !! Z.to_nat l = Some s ->
  INT_MIN < top t ->
  FLUX_CATCH_exit l (World (Some t) c e) =
  Returns (World (Some
    {| stack := <[Z.to_nat l := set_active s false]> (stack t);
       top := top t - 1; pool := pool t |}) c e).
Proof.
  intros Hl Hs Ht. unfold FLUX_CATCH_exit.
  cbn [__flux_get_tls tls_slot].
  rewrite stack_at_lookup by exact Hl. rewrite Hs.
  unfold INT_MIN in *.
  destruct (Z.ltb_spec (top t - 1) (-2147483648)); [lia|].
  reflexivity.
Qed.

Lemma FLUX_CATCH_unwind_returns (fuel : nat) (l : Z) (s : flux_scope)
    (c' : list call) :
  0 <= l < FLUX_MAX_DEPTH ->
  stack t !! Z.to_nat l = Some s ->
  INT_MIN < top t ->
  __flux_release_guards fuel (pool t) (guards s) c = WalkDone c' ->
  FLUX_CATCH_unwind fuel l (World (Some t) c e) =
  Returns (World (Some
    {| stack := <[Z.to_nat l := set_active s false]> (stack t);
       top := top t - 1; pool := pool t |}) c' e).
Proof.
  intros Hl Hs Ht Hr. unfold FLUX_CATCH_unwind.
  cbn [__flux_get_tls tls_slot calls stderr].
  rewrite stack_at_lookup by exact Hl. rewrite Hs, Hr.
  unfold INT_MIN in *.
  destruct (Z.ltb_spec (top t - 1) (-2147483648)); [lia|].
  reflexivity.
Qed.

End Operations.

(** ** Registrations in one scope *)

Lemma chain_length (gs : list call) (k : nat) (h : option Z) :
  length (chain k h gs) = length gs.
Proof.
  revert k h. induction gs as [|g gs IH]; intros k h; simpl;
    [reflexivity | f_equal; apply IH].
Qed.

Lemma chain_snoc (gs : list call) (g : call) (k : nat) (h : option Z) :
  chain k h (gs ++ [g]) =
  chain k h gs ++
  [{| dtor := fst g; ptr := snd g; next := chain_head k h gs |}].
Proof.
  revert k h. induction gs as [|g' gs IH]; intros k h; simpl;
    [reflexivity | f_equal; apply IH].
Qed.

Lemma chain_head_snoc (gs : list call) (g : call) (k : nat) (h : option Z) :
  chain_head k h (gs ++ [g]) = Some (Z.of_nat (k + length gs)).
Proof.
  revert k h. induction gs as [|g' gs IH]; intros k h; simpl.
  - do 2 f_equal. lia.
  - rewrite IH. do 2 f_equal. lia.
Qed.

Lemma chain_head_last (gs : list call) (k : nat) (h : option Z) :
  gs <> [] -> chain_head k h gs = Some (Z.of_nat (k + length gs) - 1).
Proof.
  destruct gs as [|g gs'] using rev_ind; [congruence|].
  intros _. rewrite chain_head_snoc, length_app. simpl.
  f_equal. lia.
Qed.

Lemma unwind_calls_snoc (gs : list call) (g : call) :
  unwind_calls (gs ++ [g]) =
  (if callable g then [g] else []) ++ unwind_calls gs.
Proof.
  unfold unwind_calls. rewrite reverse_snoc.
  destruct (callable g) eqn:Hg.
  - rewrite filter_cons_True by exact Hg. reflexivity.
  - rewrite filter_cons_False by congruence. reflexivity.
Qed.

Lemma unwind_calls_all (gs : list call) :
  forallb callable gs = true -> unwind_calls gs = reverse gs.
Proof.
  induction gs as [|g gs IH] using rev_ind; [reflexivity|].
  rewrite forallb_app. simpl. rewrite andb_true_r.
  intros [Hgs Hg]%andb_prop.
  rewrite unwind_calls_snoc, reverse_snoc, Hg, IH by exact Hgs.
  reflexivity.
Qed.

(** The registrations [gs] made in the scope [stack[top]], from cursor [k]:
    each claims the next slot and becomes the head of the scope's list. *)
Lemma defers_returns (fuel : nat) (at_ : site) (gs : list call) :
  forall (t : flux_tls) (c : list call) (e : list ascii) (k : nat)
         (s : flux_scope),
    wf_tls t ->
    0 <= top t < FLUX_MAX_DEPTH ->
    stack t !! Z.to_nat (top t) = Some s ->
    idx (pool t) = Z.of_nat k ->
    (k + length gs <= Z.to_nat FLUX_POOL_SIZE)%nat ->
    exec_seq fuel (defers at_ gs) (World (Some t) c e) =
    Returns (World (Some
      {| stack := <[Z.to_nat (top t) :=
                      set_guards s (chain_head k (guards s) gs)]> (stack t);
         top := top t;
         pool := {| slots := take k (slots (pool t)) ++
                             chain k (guards s) gs ++
                             drop (k + length gs) (slots (pool t));
                    idx := Z.of_nat (k + length gs) |} |}) c e).
Proof.
  induction gs as [|g gs IH]; intros t c e k s Hwf Ht Hs Hi Hk.
  - simpl. rewrite set_guards_same, list_insert_id by exact Hs.
    rewrite Nat.add_0_r, take_drop, <- Hi.
    destruct t as [st tp [sl ix]]. reflexivity.
  - simpl in Hk. change (Z.to_nat FLUX_POOL_SIZE) with 2048%nat in Hk.
    unfold exec_seq in *. simpl.
    rewrite (FLUX_DEFER_returns t c e Hwf _ _ _ s Ht Hs)
      by (unfold FLUX_POOL_SIZE; lia).
    destruct Hwf as [Hst Hsl].
    change (Z.to_nat FLUX_POOL_SIZE) with 2048%nat in Hsl.
    assert (Hlt : (Z.to_nat (top t) < length (stack t))%nat).
    { rewrite Hst. unfold FLUX_MAX_DEPTH in *. lia. }
    rewrite (IH _ c e (S k) (set_guards s (Some (idx (pool t)))));
      cbn [top stack pool slots idx].
    + do 4 f_equal.
      * rewrite list_insert_insert_eq. cbn [guards set_guards].
        rewrite Hi. reflexivity.
      * f_equal; [|f_equal; lia].
        rewrite Hi, Nat2Z.id. cbn [guards set_guards].
        rewrite (take_S_r _ _ {| dtor := fst g; ptr := snd g;
                                 next := guards s |})
          by (apply list_lookup_insert_eq; lia).
        rewrite take_insert_ge by lia.
        rewrite <- !app_assoc. simpl. do 3 f_equal.
        rewrite drop_insert_lt by lia. f_equal. lia.
    + split; cbn [stack pool slots]; rewrite length_insert; assumption.
    + exact Ht.
    + apply list_lookup_insert_eq. exact Hlt.
    + rewrite Hi. lia.
    + change (Z.to_nat FLUX_POOL_SIZE) with 2048%nat. lia.
Qed.

(** Walking the list the registrations [gs] left: every callable guard is
    called, latest first, and the walk goes on at the head [h] the scope had
    before them. *)
Lemma release_chain (gs : list call) :
  forall (fuel k : nat) (h : option Z) (p : flux_pool)
         (pre post : list flux_guard) (c : list call),
    slots p = pre ++ chain k h gs ++ post ->
    length pre = k ->
    (k + length gs <= Z.to_nat FLUX_POOL_SIZE)%nat ->
    (length gs <= fuel)%nat ->
    __flux_release_guards fuel p (chain_head k h gs) c =
    __flux_release_guards (fuel - length gs) p h (c ++ unwind_calls gs).
Proof.
  induction gs as [|g gs IH] using rev_ind;
    intros fuel k h p pre post c Hp Hpre Hk Hf.
  - simpl. rewrite Nat.sub_0_r, app_nil_r. reflexivity.
  - rewrite length_app in Hk, Hf. simpl in Hk, Hf.
    change (Z.to_nat FLUX_POOL_SIZE) with 2048%nat in Hk.
    rewrite chain_head_snoc. rewrite chain_snoc, <- app_assoc in Hp.
    destruct fuel as [|fuel]; [lia|].
    cbn [__flux_release_guards].
    rewrite slot_at_lookup by (unfold FLUX_POOL_SIZE; lia).
    rewrite Nat2Z.id, Hp.
    rewrite lookup_app_r by lia.
    rewrite lookup_app_r by (rewrite chain_length; lia).
    replace (k + length gs - length pre - length (chain k h gs))%nat
      with 0%nat by (rewrite chain_length; lia).
    cbn [lookup list_lookup app dtor ptr next].
    rewrite (IH fuel k h p pre _ _ Hp Hpre)
      by (try change (Z.to_nat FLUX_POOL_SIZE) with 2048%nat; lia).
    rewrite length_app. simpl length.
    replace (S fuel - (length gs + 1))%nat with (fuel - length gs)%nat by lia.
    f_equal. rewrite unwind_calls_snoc. unfold callable.
    destruct (negb (fst g =? 0) && negb (snd g =? 0)).
    + destruct g. rewrite <- app_assoc. reflexivity.
    + reflexivity.
Qed.

Lemma exec_seq_app (fuel : nat) (a b : list stmt) (w : world) :
  exec_seq fuel (a ++ b) w =
  match exec_seq fuel a w with
  | Returns w' => exec_seq fuel b w'
  | o => o
  end.
Proof.
  unfold exec_seq. revert w.
  induction a as [|s a IH]; intros w; simpl; [reflexivity|].
  destruct (exec fuel s w); try reflexivity. apply IH.
Qed.

Lemma exec_STry (fuel : nat) (body handler : list stmt) (w : world) :
  exec fuel (STry body handler) w =
  match FLUX_TRY w with
  | Returns w1 =>
      match exec_seq fuel body w1 with
      | Returns w2 => FLUX_CATCH_exit (wtop w + 1) w2
      | Jumps w2 =>
          if wtop w2 =? wtop w + 1 then
            match FLUX_CATCH_unwind fuel (wtop w + 1) w2 with
            | Returns w3 => exec_seq fuel handler w3
            | o => o
            end
          else Jumps w2
      | o => o
      end
  | o => o
  end.
Proof. reflexivity. Qed.

Section OneScope.

Variables (fuel : nat) (at_ : site) (gs : list call).
Variables (t : flux_tls) (c : list call) (e : list ascii) (s : flux_scope).

Hypothesis Hwf : wf_tls t.
Hypothesis Htop : -1 <= top t < FLUX_MAX_DEPTH - 1.
Hypothesis Hs : stack t !! Z.to_nat (top t + 1) = Some s.
Hypothesis Hlen : (length gs <= Z.to_nat FLUX_POOL_SIZE)%nat.

Lemma scope_after_wf : wf_tls (scope_after t s gs).
Proof.
  destruct Hwf as [Hst Hsl]. split; cbn [scope_after stack pool slots].
  - rewrite length_insert. exact Hst.
  - rewrite length_app, chain_length, length_drop. lia.
Qed.

Lemma scope_after_level :
  stack (scope_after t s gs) !! Z.to_nat (top t + 1) =
  Some {| buf := true; err := err s; guards := chain_head 0 None gs;
          active := true |}.
Proof.
  cbn [scope_after stack]. apply list_lookup_insert_eq.
  destruct Hwf as [-> _]. unfold FLUX_MAX_DEPTH in *. lia.
Qed.

Lemma scope_registered :
  exists w1,
    FLUX_TRY (World (Some t) c e) = Returns w1 /\
    exec_seq fuel (defers at_ gs) w1 =
      Returns (World (Some (scope_after t s gs)) c e).
Proof.
  pose (s1 := {| buf := true; err := err s; guards := None;
                 active := true |}).
  pose (t1 := {| stack := <[Z.to_nat (top t + 1) := s1]> (stack t);
                 top := top t + 1;
                 pool := {| slots := slots (pool t); idx := 0 |} |}).
  exists (World (Some t1) c e).
  split; [apply (FLUX_TRY_returns t c e s Htop Hs)|].
  destruct Hwf as [Hst Hsl].
  assert (Hl : (Z.to_nat (top t + 1) < length (stack t))%nat)
    by (rewrite Hst; unfold FLUX_MAX_DEPTH in *; lia).
  rewrite (defers_returns fuel at_ gs t1 c e 0 s1).
  - unfold scope_after, t1. cbn [top stack pool slots idx guards s1].
    do 4 f_equal. rewrite list_insert_insert_eq. reflexivity.
  - split; cbn [t1 stack pool slots]; [rewrite length_insert|]; assumption.
  - cbn [t1 top]. unfold FLUX_MAX_DEPTH in *. lia.
  - cbn [t1 top stack]. apply list_lookup_insert_eq. exact Hl.
  - reflexivity.
  - exact Hlen.
Qed.

(** The unwind of the scope calls the callable guards of [gs], latest
    first, after the calls [c'] made so far. *)
Lemma scope_release (c' : list call) :
  (length gs <= fuel)%nat ->
  __flux_release_guards fuel (pool (scope_after t s gs))
    (chain_head 0 None gs) c' = WalkDone (c' ++ unwind_calls gs).
Proof.
  intros Hf.
  rewrite (release_chain gs fuel 0 None _ []
             (drop (length gs) (slots (pool t))) c');
    [|reflexivity|reflexivity|exact Hlen|exact Hf].
  destruct (fuel - length gs)%nat; reflexivity.
Qed.

End OneScope.

(** What a scope that registers [gs] and then throws goes through, on a
    settled world: the throw jumps to the scope with the error stored in its
    record, and the unwind calls the callable guards. *)
Lemma scope_throw_unwind (fuel : nat) (at_ : site) (gs : list call)
    (k : Z) (m : option (list ascii))
    (t : flux_tls) (c : list call) (e : list ascii) :
  wf_tls t ->
  -1 <= top t < FLUX_MAX_DEPTH - 1 ->
  (length gs <= Z.to_nat FLUX_POOL_SIZE)%nat ->
  (length gs <= fuel)%nat ->
  exists w1 w2 w3,
    FLUX_TRY (World (Some t) c e) = Returns w1 /\
    exec_seq fuel (defers at_ gs ++ [SThrow k m at_]) w1 = Jumps w2 /\
    wtop w2 = top t + 1 /\
    (err <$> wscope w2 (top t + 1)) =
      Some (__flux_make_error (wrap_int k) m (Some (site_file at_))
              (site_line at_)) /\
    FLUX_CATCH_unwind fuel (top t + 1) w2 = Returns w3 /\
    calls w3 = c ++ unwind_calls gs /\
    stderr w3 = e /\
    wtop w3 = top t /\
    wf w3 /\
    (err <$> wscope w3 (top t + 1)) =
      Some (__flux_make_error (wrap_int k) m (Some (site_file at_))
              (site_line at_)) /\
    (active <$> wscope w3 (top t + 1)) = Some false.
Proof.
  intros Hwf Htop Hlen Hfuel.
  assert (Hl : 0 <= top t + 1 < FLUX_MAX_DEPTH)
    by (unfold FLUX_MAX_DEPTH in *; lia).
  destruct (stack_at_wf t (top t + 1) Hwf Hl) as [s Hs].
  rewrite stack_at_lookup in Hs by exact Hl.
  destruct (scope_registered fuel at_ gs t c e s Hwf Htop Hs Hlen)
    as (w1 & Htry & Hbody).
  pose proof (scope_after_wf gs t s Hwf Hlen) as Hwf2.
  pose proof (scope_after_level gs t s Hwf Htop Hlen) as Hlev.
  assert (Hlen64 : (Z.to_nat (top t + 1) < length (stack t))%nat).
  { destruct Hwf as [-> _]. unfold FLUX_MAX_DEPTH in *. lia. }
  exists w1. do 2 eexists.
  split; [exact Htry|].
  split.
  { rewrite exec_seq_app, Hbody. unfold exec_seq. cbn [seq_with exec].
    rewrite (FLUX_THROW_jumps (scope_after t s gs) c e k m at_ _
               Hl Hlev eq_refl).
    reflexivity. }
  split; [reflexivity|].
  split.
  { unfold wscope. cbn [__flux_get_tls tls_slot].
    rewrite stack_at_lookup by exact Hl. cbn [stack top scope_after].
    rewrite list_lookup_insert_eq
      by (rewrite length_insert; exact Hlen64).
    reflexivity. }
  split.
  { erewrite FLUX_CATCH_unwind_returns; [reflexivity | exact Hl | | | ].
    - cbn [stack top scope_after].
      apply list_lookup_insert_eq. rewrite length_insert. exact Hlen64.
    - cbn [top scope_after]. unfold INT_MIN. lia.
    - cbn [pool guards set_err]. apply scope_release; assumption. }
  split; [reflexivity|].
  split; [reflexivity|].
  split; [unfold wtop; cbn [__flux_get_tls tls_slot top scope_after]; lia|].
  split.
  { destruct Hwf2 as [H1 H2].
    split; cbn [__flux_get_tls tls_slot stack pool] in *.
    - rewrite !length_insert in *. exact H1.
    - exact H2. }
  unfold wscope. cbn [__flux_get_tls tls_slot].
  rewrite stack_at_lookup by exact Hl. cbn [stack top scope_after].
  rewrite list_lookup_insert_eq
    by (rewrite !length_insert; exact Hlen64).
  split; reflexivity.
Qed.

(** C1 as stated fails: a guard whose argument is null, such as the one
    [FLUX_CLOSE_FD(0)] registers, is never called by the unwind. *)
Lemma C1_null_argument_counterexample :
  exists w',
    exec 8 (STry [SDefer 7 0 demo_site; SThrow 4 (Some demo_msg) demo_site]
               []) thread_start = Returns w' /\
    calls w' = [] /\
    calls w' <> reverse [(7, 0)].
Proof.
  eexists. split; [vm_compute; reflexivity|].
  split; [reflexivity | discriminate].
Qed.

(** C1, amended. In a scope that registers the [N <= 2048] guards [gs] and
    then signals a failure, the throw jumps to that scope and its unwind
    calls, latest registration first, exactly the guards whose action and
    argument are both non-null, each once and with its stored argument; all
    [N] of them when none has a null member. *)
Theorem C1_unwind_calls_in_reverse_order
    (fuel : nat) (w : world) (at_ : site) (gs : list call)
    (k : Z) (m : option (list ascii)) :
  wf w ->
  -1 <= wtop w < FLUX_MAX_DEPTH - 1 ->
  (length gs <= Z.to_nat FLUX_POOL_SIZE)%nat ->
  (length gs <= fuel)%nat ->
  exists w1 w2 w3,
    FLUX_TRY w = Returns w1 /\
    exec_seq fuel (defers at_ gs ++ [SThrow k m at_]) w1 = Jumps w2 /\
    wtop w2 = wtop w + 1 /\
    FLUX_CATCH_unwind fuel (wtop w + 1) w2 = Returns w3 /\
    calls w3 = calls w ++ unwind_calls gs /\
    (forallb callable gs = true -> calls w3 = calls w ++ reverse gs) /\
    wtop w3 = wtop w /\
    (forall handler,
       exec fuel (STry (defers at_ gs ++ [SThrow k m at_]) handler) w =
       exec_seq fuel handler w3).
Proof.
  intros Hwf Htop Hlen Hfuel.
  destruct (scope_throw_unwind fuel at_ gs k m (__flux_get_tls w)
              (calls w) (stderr w) Hwf Htop Hlen Hfuel)
    as (w1 & w2 & w3 & Htry & Hbody & Ht2 & _ & Hun & Hc & _ & Ht3 & _).
  change (World (Some (__flux_get_tls w)) (calls w) (stderr w))
    with (settled w) in Htry.
  rewrite <- FLUX_TRY_settled in Htry.
  exists w1, w2, w3. fold (wtop w) in *.
  repeat (split; [assumption|]).
  split; [intros Hall; rewrite Hc, unwind_calls_all by exact Hall;
          reflexivity|].
  split; [assumption|].
  intros handler. rewrite exec_STry, Htry, Hbody, Ht2, Z.eqb_refl, Hun.
  reflexivity.
Qed.

Lemma C1_unwind_calls_in_reverse_order_witness :
  exists w3,
    exec 8 (STry (defers demo_site [(1, 11); (2, 22); (3, 33)] ++
                  [SThrow 4 (Some demo_msg) demo_site]) []) thread_start =
      Returns w3 /\
    calls w3 = [(3, 33); (2, 22); (1, 11)].
Proof.
  destruct (C1_unwind_calls_in_reverse_order 8 thread_start demo_site
              [(1, 11); (2, 22); (3, 33)] 4 (Some demo_msg))
    as (w1 & w2 & w3 & _ & _ & _ & _ & Hc & _ & _ & Hblock).
  - split; reflexivity.
  - unfold wtop, FLUX_MAX_DEPTH. simpl. lia.
  - unfold FLUX_POOL_SIZE. simpl length. lia.
  - simpl length. lia.
  - exists w3. split; [apply (Hblock [])|exact Hc].
Defined.

(** C3 as stated fails once a nested block comes between the entry of the
    scope and a registration, because the nested entry resets the cursor and
    nothing puts it back. A scope that has made 2048 registrations and then
    run an empty nested block makes its 2049th registration without any
    failure; a scope that has run a nested block with 2048 registrations
    throws the limit failure, code 5, at its own first registration. *)
Lemma C3_nested_block_counterexample :
  exists w1,
    FLUX_TRY thread_start = Returns w1 /\
    (exists w2 w3,
       exec_seq 0 (defers demo_site (replicate 2048 (1, 11)) ++
                   [STry [] []]) w1 = Returns w2 /\
       FLUX_DEFER 2 22 demo_site w2 = Returns w3 /\
       idx (wpool w3) = 1) /\
    (exists w2 w3,
       exec_seq 0 [STry (defers demo_site (replicate 2048 (1, 11))) []] w1 =
         Returns w2 /\
       (guards <$> wscope w2 1) = Some None /\
       FLUX_DEFER 2 22 demo_site w2 = Jumps w3 /\
       (code <$> (err <$> wscope w3 1)) = Some 5).
Proof.
  eexists. split; [vm_compute; reflexivity|].
  split; do 2 eexists.
  - split; [vm_compute; reflexivity|].
    split; [vm_compute; reflexivity|]. reflexivity.
  - split; [vm_compute; reflexivity|]. split; [reflexivity|].
    split; [vm_compute; reflexivity|]. reflexivity.
Qed.

(** C3, amended: with no nested block between the entry of the scope and
    its registrations. In a scope just entered, 2048 registrations return;
    the next one claims no slot and throws code 5 with the message
    [resource limit exceeded] to the scope, and it leaves the pool (cursor
    and slots) and the scope's guard list as they were. *)
Theorem C3_registration_2049_throws_limit
    (fuel : nat) (w : world) (at_ : site) (gs : list call) (dt p : Z) :
  wf w ->
  -1 <= wtop w < FLUX_MAX_DEPTH - 1 ->
  length gs = Z.to_nat FLUX_POOL_SIZE ->
  exists w1 w2 w3,
    FLUX_TRY w = Returns w1 /\
    exec_seq fuel (defers at_ gs) w1 = Returns w2 /\
    idx (wpool w2) = FLUX_POOL_SIZE /\
    FLUX_DEFER dt p at_ w2 = Jumps w3 /\
    wpool w3 = wpool w2 /\
    (guards <$> wscope w3 (wtop w + 1)) = Some (Some (FLUX_POOL_SIZE - 1)) /\
    (guards <$> wscope w3 (wtop w + 1)) =
      (guards <$> wscope w2 (wtop w + 1)) /\
    wtop w3 = wtop w + 1 /\
    wtop w2 = wtop w + 1 /\
    calls w3 = calls w /\
    stderr w3 = stderr w /\
    (err <$> wscope w3 (wtop w + 1)) =
      Some (__flux_make_error 5
              (Some (String.list_ascii_of_string "resource limit exceeded"))
              (Some (site_file at_)) (site_line at_)) /\
    (code <$> (err <$> wscope w3 (wtop w + 1))) = Some 5 /\
    (forall handler,
       (length gs <= fuel)%nat ->
       exists w4,
         FLUX_CATCH_unwind fuel (wtop w + 1) w3 = Returns w4 /\
         exec fuel (STry (defers at_ gs ++ [SDefer dt p at_]) handler) w =
           exec_seq fuel handler w4 /\
         calls w4 = calls w ++ unwind_calls gs /\
         wtop w4 = wtop w).
Proof.
  intros Hwf Htop Hlen.
  assert (Hrecover : forall w1 w2 w3 handler,
            FLUX_TRY w = Returns w1 ->
            exec_seq fuel (defers at_ gs) w1 = Returns w2 ->
            FLUX_DEFER dt p at_ w2 = FLUX_THROW_LIMIT at_ w2 ->
            FLUX_DEFER dt p at_ w2 = Jumps w3 ->
            (length gs <= fuel)%nat ->
            exists w4,
              FLUX_CATCH_unwind fuel (wtop w + 1) w3 = Returns w4 /\
              exec fuel (STry (defers at_ gs ++ [SDefer dt p at_]) handler)
                w = exec_seq fuel handler w4 /\
              calls w4 = calls w ++ unwind_calls gs /\
              wtop w4 = wtop w).
  { intros w1 w2 w3 handler Htry Hbody Hlim Hjump Hfuel.
    destruct (scope_throw_unwind fuel at_ gs 5
                (Some (String.list_ascii_of_string
                         "resource limit exceeded"))
                (__flux_get_tls w) (calls w) (stderr w) Hwf Htop
                ltac:(lia) Hfuel)
      as (w1' & w3' & w4 & Htry' & Hbody' & Ht3 & _ & Hun & Hc & _ & Ht4
          & _).
    change (World (Some (__flux_get_tls w)) (calls w) (stderr w))
      with (settled w) in Htry'.
    rewrite <- FLUX_TRY_settled, Htry in Htry'. injection Htry' as <-.
    rewrite exec_seq_app, Hbody in Hbody'.
    unfold exec_seq in Hbody'. cbn [seq_with exec] in Hbody'.
    fold (FLUX_THROW_LIMIT at_ w2) in Hbody'.
    rewrite <- Hlim, Hjump in Hbody'. injection Hbody' as <-.
    exists w4. fold (wtop w) in *.
    split; [exact Hun|].
    split; [|split; assumption].
    rewrite exec_STry, Htry, exec_seq_app, Hbody.
    unfold exec_seq at 1. cbn [seq_with exec].
    rewrite Hjump, Ht3, Z.eqb_refl, Hun. reflexivity. }
  unfold wf, wtop in *.
  set (t := __flux_get_tls w) in *.
  assert (Hl : 0 <= top t + 1 < FLUX_MAX_DEPTH)
    by (unfold FLUX_MAX_DEPTH in *; lia).
  destruct (stack_at_wf t (top t + 1) Hwf Hl) as [s Hs].
  rewrite stack_at_lookup in Hs by exact Hl.
  assert (Hle : (length gs <= Z.to_nat FLUX_POOL_SIZE)%nat) by lia.
  destruct (scope_registered fuel at_ gs t (calls w) (stderr w) s
              Hwf Htop Hs Hle) as (w1 & Htry & Hbody).
  change (World (Some t) (calls w) (stderr w)) with (settled w) in Htry.
  rewrite <- FLUX_TRY_settled in Htry.
  pose proof (scope_after_wf gs t s Hwf Hle) as Hwf2.
  pose proof (scope_after_level gs t s Hwf Htop Hle) as Hlev.
  assert (Hlen64 : (Z.to_nat (top t + 1) < length (stack t))%nat).
  { destruct Hwf as [-> _]. unfold FLUX_MAX_DEPTH in *. lia. }
  assert (Hidx : idx (pool (scope_after t s gs)) = FLUX_POOL_SIZE).
  { cbn [scope_after pool idx]. rewrite Hlen. reflexivity. }
  assert (Hhead : chain_head 0 None gs = Some (FLUX_POOL_SIZE - 1)).
  { rewrite chain_head_last.
    - rewrite Hlen. reflexivity.
    - intros ->. discriminate Hlen. }
  assert (Hlim : FLUX_DEFER dt p at_
                   (World (Some (scope_after t s gs)) (calls w) (stderr w)) =
                 FLUX_THROW_LIMIT at_
                   (World (Some (scope_after t s gs)) (calls w) (stderr w)))
    by (apply FLUX_DEFER_limit; [exact Hwf2 | exact Hidx]).
  assert (Hjump : exists w3,
            FLUX_DEFER dt p at_
              (World (Some (scope_after t s gs)) (calls w) (stderr w)) =
              Jumps w3 /\
            w3 = World (Some
                   {| stack := <[Z.to_nat (top t + 1) :=
                         set_err {| buf := true; err := err s;
                                    guards := chain_head 0 None gs;
                                    active := true |}
                           (__flux_make_error 5
                              (Some (String.list_ascii_of_string
                                       "resource limit exceeded"))
                              (Some (site_file at_)) (site_line at_))]>
                         (stack (scope_after t s gs));
                      top := top t + 1;
                      pool := pool (scope_after t s gs) |})
                   (calls w) (stderr w)).
  { eexists. split; [|reflexivity]. rewrite Hlim. unfold FLUX_THROW_LIMIT.
    apply (FLUX_THROW_jumps (scope_after t s gs) (calls w) (stderr w)
             5 _ at_ _ Hl Hlev eq_refl). }
  destruct Hjump as (w3 & Hjump & Hw3).
  exists w1, (World (Some (scope_after t s gs)) (calls w) (stderr w)), w3.
  split; [exact Htry|].
  split; [exact Hbody|].
  split; [exact Hidx|].
  split; [exact Hjump|].
  assert (Hrest : forall handler, (length gs <= fuel)%nat -> _)
    by (intros handler; apply (Hrecover w1 _ w3 handler Htry Hbody Hlim Hjump)).
  clear Hrecover Hjump Hlim. subst w3.
  unfold wpool, wscope, wtop. cbn [__flux_get_tls tls_slot].
  rewrite !stack_at_lookup by exact Hl.
  cbn [stack top pool scope_after].
  rewrite !list_lookup_insert_eq
    by (rewrite ?length_insert; exact Hlen64).
  cbn [fmap option_fmap option_map guards err set_err code
       __flux_make_error calls stderr].
  split; [reflexivity|].
  split; [f_equal; exact Hhead|].
  repeat (split; [reflexivity|]). exact Hrest.
Qed.

Lemma C3_registration_2049_throws_limit_witness :
  exists w2 w3,
    exec_seq 0 (defers demo_site (replicate 2048 (1, 11)))
      (set_tls thread_start
         (set_stack (set_top calloc_flux_tls 1) 1
            {| buf := true; err := zero_error; guards := None;
               active := true |})) = Returns w2 /\
    FLUX_DEFER 2 22 demo_site w2 = Jumps w3 /\
    wpool w3 = wpool w2 /\
    (code <$> (err <$> wscope w3 1)) = Some 5.
Proof.
  destruct (C3_registration_2049_throws_limit 0 thread_start demo_site
              (replicate 2048 (1, 11)) 2 22)
    as (w1 & w2 & w3 & Htry & Hbody & _ & Hd & Hp & _ & _ & _ & _ & _ & _ &
        _ & Hcode & _).
  - split; reflexivity.
  - unfold wtop, FLUX_MAX_DEPTH. simpl. lia.
  - rewrite length_replicate. reflexivity.
  - exists w2, w3. vm_compute in Htry. injection Htry as <-.
    split; [exact Hbody|].
    split; [exact Hd|]. split; [exact Hp | exact Hcode].
Defined.

(** ** Depth of the scope stack *)

Lemma FLUX_THROW_settled (k : Z) (m : option (list ascii)) (at_ : site)
    (w : world) :
  FLUX_THROW k m at_ w = FLUX_THROW k m at_ (settled w).
Proof. destruct w as [[t|] c e]; reflexivity. Qed.

Lemma FLUX_DEFER_settled (dt p : Z) (at_ : site) (w : world) :
  FLUX_DEFER dt p at_ w = FLUX_DEFER dt p at_ (settled w).
Proof. destruct w as [[t|] c e]; reflexivity. Qed.

Lemma FLUX_CATCH_exit_settled (l : Z) (w : world) :
  FLUX_CATCH_exit l w = FLUX_CATCH_exit l (settled w).
Proof. destruct w as [[t|] c e]; reflexivity. Qed.

Lemma FLUX_CATCH_unwind_settled (fuel : nat) (l : Z) (w : world) :
  FLUX_CATCH_unwind fuel l w = FLUX_CATCH_unwind fuel l (settled w).
Proof. destruct w as [[t|] c e]; reflexivity. Qed.

Lemma FLUX_THROW_depth (k : Z) (m : option (list ascii)) (at_ : site)
    (w : world) :
  wf w ->
  match FLUX_THROW k m at_ w with
  | Returns _ => False
  | Jumps w' => wf w' /\ wtop w' = wtop w /\ 0 <= wtop w < FLUX_MAX_DEPTH
  | Aborts w' => wf w' /\ wtop w' = wtop w /\ ~ 0 <= wtop w < FLUX_MAX_DEPTH
  | _ => True
  end.
Proof.
  intros Hwf. rewrite FLUX_THROW_settled. unfold wf, wtop in *.
  set (t := __flux_get_tls w) in *. unfold FLUX_THROW, settled.
  cbn [__flux_get_tls tls_slot set_tls]. fold t.
  destruct (Z.leb_spec 0 (top t)), (Z.ltb_spec (top t) FLUX_MAX_DEPTH);
    cbn [andb]; case_matches; try exact I;
    frame_wf Hwf; lia.
Qed.

Lemma FLUX_DEFER_depth (dt p : Z) (at_ : site) (w : world) :
  wf w ->
  match FLUX_DEFER dt p at_ w with
  | Returns w' | Jumps w' | Aborts w' => wf w' /\ wtop w' = wtop w
  | _ => True
  end.
Proof.
  intros Hwf. rewrite FLUX_DEFER_settled. unfold wf, wtop in *.
  set (t := __flux_get_tls w) in *. unfold FLUX_DEFER, settled.
  cbn [__flux_get_tls tls_slot set_tls]. fold t.
  unfold __flux_acquire_guard.
  destruct (FLUX_POOL_SIZE <=? idx (pool t)).
  - unfold FLUX_THROW_LIMIT.
    match goal with
    | |- context [FLUX_THROW ?k ?m ?a ?w0] =>
        pose proof (FLUX_THROW_depth k m a w0) as Hthrow;
        destruct (FLUX_THROW k m a w0)
    end; try exact I.
    + destruct Hthrow. frame_wf Hwf.
    + destruct Hthrow as (? & ? & _); [frame_wf Hwf|]. split; assumption.
    + destruct Hthrow as (? & ? & _); [frame_wf Hwf|]. split; assumption.
  - case_matches; try exact I. frame_wf Hwf.
Qed.

Lemma FLUX_TRY_depth (w : world) :
  wf w ->
  -1 <= wtop w ->
  match FLUX_TRY w with
  | Returns w' =>
      wf w' /\ wtop w' = wtop w + 1 /\ wtop w' <= FLUX_MAX_DEPTH - 1 /\
      calls w' = calls w /\ stderr w' = stderr w
  | Jumps _ => False
  | Aborts w' =>
      wf w' /\ wtop w' = wtop w /\ FLUX_MAX_DEPTH - 1 <= wtop w /\
      w' = settled w
  | _ => True
  end.
Proof.
  intros Hwf Hge. rewrite FLUX_TRY_settled. unfold wf, wtop in *.
  set (t := __flux_get_tls w) in *. unfold FLUX_TRY, settled.
  cbn [__flux_get_tls tls_slot set_tls]. fold t.
  destruct (Z.ltb_spec INT_MAX (top t + 1)); [exact I|].
  destruct (Z.leb_spec FLUX_MAX_DEPTH (top t + 1)).
  - frame_wf Hwf. lia.
  - case_matches; try exact I. frame_wf Hwf. lia.
Qed.

Lemma FLUX_CATCH_exit_depth (l : Z) (w : world) :
  wf w ->
  match FLUX_CATCH_exit l w with
  | Returns w' =>
      wf w' /\ wtop w' = wtop w - 1 /\ calls w' = calls w /\
      stderr w' = stderr w /\ wpool w' = wpool w /\
      (active <$> wscope w' l) = Some false /\
      (guards <$> wscope w' l) = (guards <$> wscope w l)
  | Jumps _ | Aborts _ => False
  | _ => True
  end.
Proof.
  intros Hwf. rewrite FLUX_CATCH_exit_settled. unfold wf, wtop in *.
  set (t := __flux_get_tls w) in *. unfold FLUX_CATCH_exit, settled.
  cbn [__flux_get_tls tls_slot set_tls]. fold t.
  destruct (stack_at t l) as [s|] eqn:Hs; [|exact I].
  destruct (top t - 1 <? INT_MIN); [exact I|].
  apply stack_at_Some in Hs as [Hl Hs].
  unfold wscope. cbn [__flux_get_tls tls_slot]. fold t.
  rewrite !stack_at_lookup by exact Hl.
  unfold set_tls, set_top, set_stack, wpool.
  cbn [__flux_get_tls tls_slot stack top pool calls stderr]. rewrite Hs.
  rewrite list_lookup_insert_eq by (eapply lookup_lt_Some; exact Hs).
  frame_wf Hwf.
Qed.

Lemma FLUX_CATCH_unwind_depth (fuel : nat) (l : Z) (w : world) :
  wf w ->
  match FLUX_CATCH_unwind fuel l w with
  | Returns w' => wf w' /\ wtop w' = wtop w - 1
  | Jumps _ | Aborts _ => False
  | _ => True
  end.
Proof.
  intros Hwf. rewrite FLUX_CATCH_unwind_settled. unfold wf, wtop in *.
  set (t := __flux_get_tls w) in *. unfold FLUX_CATCH_unwind, settled.
  cbn [__flux_get_tls tls_slot set_tls calls stderr]. fold t.
  case_matches; try exact I. frame_wf Hwf.
Qed.

(** Induction on statements, with the bodies and handlers of blocks. *)
Lemma stmt_ind' (P : stmt -> Prop) :
  (forall dt p at_, P (SDefer dt p at_)) ->
  (forall c m at_, P (SThrow c m at_)) ->
  (forall body handler,
     Forall P body -> Forall P handler -> P (STry body handler)) ->
  forall s, P s.
Proof.
  intros Hd Ht Hb. fix IH 1. intros [dt p a|c m a|body handler].
  - apply Hd.
  - apply Ht.
  - apply Hb.
    + induction body as [|s body IHb]; constructor; [apply IH | exact IHb].
    + induction handler as [|s h IHh]; constructor; [apply IH | exact IHh].
Qed.

Lemma keeps_depth_trans (w w' : world) (o : outcome) :
  wtop w' = wtop w -> keeps_depth w' o -> keeps_depth w o.
Proof.
  intros Heq. destruct o; simpl; try tauto; rewrite Heq; tauto.
Qed.

Lemma exec_seq_depth (fuel : nat) (ss : list stmt) :
  Forall (fun s => forall w, wf w -> top_in_range w ->
                     keeps_depth w (exec fuel s w)) ss ->
  forall w, wf w -> top_in_range w -> keeps_depth w (exec_seq fuel ss w).
Proof.
  unfold exec_seq.
  induction 1 as [|s ss Hs _ IH]; intros w Hwf Hr; simpl; [tauto|].
  specialize (Hs w Hwf Hr).
  destruct (exec fuel s w) as [w'| | | |]; try exact Hs.
  destruct Hs as [Hwf' Ht].
  apply (keeps_depth_trans w w'); [exact Ht|].
  apply IH; [exact Hwf'|]. unfold top_in_range in *. rewrite Ht. exact Hr.
Qed.

(** Every statement leaves the stack at the depth it found. *)
Lemma exec_depth (fuel : nat) (s : stmt) :
  forall w, wf w -> top_in_range w -> keeps_depth w (exec fuel s w).
Proof.
  induction s as [dt p a|c m a|body handler IHb IHh] using stmt_ind';
    intros w Hwf Hr.
  - simpl. pose proof (FLUX_DEFER_depth dt p a w Hwf) as H.
    destruct (FLUX_DEFER dt p a w) as [w'|w'|w'| |]; try exact H.
    destruct H as [H1 H2]. split; [exact H1|].
    unfold top_in_range in *. rewrite H2. exact Hr.
  - simpl. pose proof (FLUX_THROW_depth c m a w Hwf) as H.
    destruct (FLUX_THROW c m a w) as [w'|w'|w'| |]; try exact I.
    + contradiction.
    + destruct H as (H1 & H2 & _). split; assumption.
    + destruct H as (H1 & H2 & _). split; [exact H1|].
      unfold top_in_range in *. rewrite H2. exact Hr.
  - rewrite exec_STry.
    pose proof (FLUX_TRY_depth w Hwf (proj1 Hr)) as Htry.
    destruct (FLUX_TRY w) as [w1|w1|w1| |]; try exact I; [|tauto|].
    + destruct Htry as (Hwf1 & Ht1 & Hle1 & _).
      assert (Hr1 : top_in_range w1).
      { unfold top_in_range in *. lia. }
      pose proof (exec_seq_depth fuel body IHb w1 Hwf1 Hr1) as Hbody.
      destruct (exec_seq fuel body w1) as [w2|w2|w2| |]; try exact I.
      * destruct Hbody as [Hwf2 Ht2].
        pose proof (FLUX_CATCH_exit_depth (wtop w + 1) w2 Hwf2) as Hex.
        destruct (FLUX_CATCH_exit (wtop w + 1) w2); try exact I; try tauto.
        destruct Hex as (Hwf3 & Ht3 & _). split; [exact Hwf3 | lia].
      * destruct Hbody as [Hwf2 Ht2].
        rewrite Ht2, Ht1, Z.eqb_refl.
        pose proof (FLUX_CATCH_unwind_depth fuel (wtop w + 1) w2 Hwf2)
          as Hun.
        destruct (FLUX_CATCH_unwind fuel (wtop w + 1) w2) as [w3| | | |];
          try exact I; try tauto.
        destruct Hun as [Hwf3 Ht3].
        assert (Heq : wtop w3 = wtop w) by lia.
        apply (keeps_depth_trans w w3 _ Heq).
        apply (exec_seq_depth fuel handler IHh w3 Hwf3).
        unfold top_in_range in *. rewrite Heq. exact Hr.
      * exact Hbody.
    + destruct Htry as (Hwf1 & Ht1 & _). split; [exact Hwf1|].
      unfold top_in_range in *. rewrite Ht1. exact Hr.
Qed.

Lemma FLUX_CATCH_exit_total (l : Z) (w : world) :
  wf w -> 0 <= l < FLUX_MAX_DEPTH -> INT_MIN < wtop w ->
  exists w', FLUX_CATCH_exit l w = Returns w'.
Proof.
  intros Hwf Hl Ht. rewrite FLUX_CATCH_exit_settled.
  destruct (stack_at_wf _ l Hwf Hl) as [s Hs].
  rewrite stack_at_lookup in Hs by exact Hl.
  eexists. apply (FLUX_CATCH_exit_returns _ _ _ l s Hl Hs Ht).
Qed.



(** C10. From a world whose top lies in [-1 .. 63]: entering a scope raises
    the top by one and keeps it in range; registering a guard and throwing
    leave it alone; after a body that returned or jumped, the top is the
    level of the block, and either branch of [FLUX_CATCH] brings it back to
    its value before the block, so that a caught failure and a normal exit
    leave the same depth; a whole block, whether it returns or its handler
    throws further, ends at the depth it started from, and a process that
    aborts does so with the top in range. *)
Theorem C10_scope_blocks_restore_depth (fuel : nat) (w : world) :
  wf w ->
  top_in_range w ->
  (forall w', FLUX_TRY w = Returns w' ->
     wtop w' = wtop w + 1 /\ top_in_range w') /\
  (forall dt p a,
     match FLUX_DEFER dt p a w with
     | Returns w' | Jumps w' | Aborts w' => wtop w' = wtop w
     | _ => True
     end) /\
  (forall c m a,
     match FLUX_THROW c m a w with
     | Returns w' | Jumps w' | Aborts w' => wtop w' = wtop w
     | _ => True
     end) /\
  (forall body w1 w2,
     FLUX_TRY w = Returns w1 ->
     exec_seq fuel body w1 = Returns w2 \/
     exec_seq fuel body w1 = Jumps w2 ->
     wtop w2 = wtop w + 1 /\
     forall w3,
       FLUX_CATCH_exit (wtop w + 1) w2 = Returns w3 \/
       FLUX_CATCH_unwind fuel (wtop w + 1) w2 = Returns w3 ->
       wtop w3 = wtop w /\ top_in_range w3) /\
  (forall body handler w',
     exec fuel (STry body handler) w = Returns w' \/
     exec fuel (STry body handler) w = Jumps w' ->
     wtop w' = wtop w /\ top_in_range w') /\
  (forall s w', exec fuel s w = Aborts w' -> top_in_range w').
Proof.
  intros Hwf Hr.
  split.
  { intros w' Htry.
    pose proof (FLUX_TRY_depth w Hwf (proj1 Hr)) as H. rewrite Htry in H.
    unfold top_in_range in *. lia. }
  split.
  { intros dt p a. pose proof (FLUX_DEFER_depth dt p a w Hwf) as H.
    destruct (FLUX_DEFER dt p a w); tauto. }
  split.
  { intros c m a. pose proof (FLUX_THROW_depth c m a w Hwf) as H.
    destruct (FLUX_THROW c m a w); tauto. }
  split.
  { intros body w1 w2 Htry Hbody.
    pose proof (FLUX_TRY_depth w Hwf (proj1 Hr)) as H1. rewrite Htry in H1.
    destruct H1 as (Hwf1 & Ht1 & Hle1 & _).
    assert (Hr1 : top_in_range w1) by (unfold top_in_range in *; lia).
    assert (H2 : keeps_depth w1 (exec_seq fuel body w1)).
    { apply exec_seq_depth; [|assumption..].
      apply Forall_forall. intros s _. apply exec_depth. }
    assert (Hw2 : wf w2 /\ wtop w2 = wtop w1)
      by (destruct Hbody as [Hb|Hb]; rewrite Hb in H2; exact H2).
    destruct Hw2 as [Hwf2 Ht2]. split; [lia|].
    intros w3 [Hex|Hun].
    - pose proof (FLUX_CATCH_exit_depth (wtop w + 1) w2 Hwf2) as H3.
      rewrite Hex in H3. unfold top_in_range in *. lia.
    - pose proof (FLUX_CATCH_unwind_depth fuel (wtop w + 1) w2 Hwf2) as H3.
      rewrite Hun in H3. unfold top_in_range in *. lia. }
  split.
  { intros body handler w' Hblock.
    pose proof (exec_depth fuel (STry body handler) w Hwf Hr) as H.
    assert (Hw' : wf w' /\ wtop w' = wtop w)
      by (destruct Hblock as [Hb|Hb]; rewrite Hb in H; exact H).
    unfold top_in_range in *. lia. }
  intros s w' Hab.
  pose proof (exec_depth fuel s w Hwf Hr) as H. rewrite Hab in H.
  apply H.
Qed.

Lemma C10_scope_blocks_restore_depth_witness :
  exists w1 w2,
    exec 8 (STry [SDefer 1 11 demo_site] []) thread_start = Returns w1 /\
    wtop w1 = wtop thread_start /\
    exec 8 (STry [SDefer 1 11 demo_site;
                  SThrow 4 (Some demo_msg) demo_site] []) thread_start =
      Returns w2 /\
    wtop w2 = wtop thread_start.
Proof.
  destruct (C10_scope_blocks_restore_depth 8 thread_start)
    as (_ & _ & _ & _ & Hblock & _).
  - split; reflexivity.
  - unfold top_in_range, wtop, FLUX_MAX_DEPTH. simpl. lia.
  - assert (H1 : exists w1,
              exec 8 (STry [SDefer 1 11 demo_site] []) thread_start =
                Returns w1)
      by (eexists; vm_compute; reflexivity).
    assert (H2 : exists w2,
              exec 8 (STry [SDefer 1 11 demo_site;
                            SThrow 4 (Some demo_msg) demo_site] [])
                thread_start = Returns w2)
      by (eexists; vm_compute; reflexivity).
    destruct H1 as [w1 H1], H2 as [w2 H2]. exists w1, w2.
    split; [exact H1|].
    split; [exact (proj1 (Hblock _ _ w1 (or_introl H1)))|].
    split; [exact H2|].
    exact (proj1 (Hblock _ _ w2 (or_introl H2))).
Defined.




(** ** A thread's first scopes *)

(** C4 on the code. The registry of a thread comes zeroed out of [calloc],
    so its top starts at 0 and not at -1: the first scope takes level 1, 63
    nested scopes fit, and the 64th entry aborts with the stack as the 63rd
    left it. A stack whose top were -1 would take 64 scopes and abort on the
    65th. *)
Theorem C4_fresh_thread_aborts_at_entry_64 :
  wtop thread_start = 0 /\
  (exists w63,
     enter_n 63 thread_start = Returns w63 /\
     wtop w63 = 63 /\
     enter_n 64 thread_start = Aborts w63) /\
  (exists w64,
     enter_n 64 empty_stack_world = Returns w64 /\
     wtop w64 = 63 /\
     enter_n 65 empty_stack_world = Aborts w64).
Proof.
  split; [reflexivity|].
  split; eexists; (split; [vm_compute; reflexivity|]);
    (split; [reflexivity|]); vm_compute; reflexivity.
Qed.

(** ** Nested scopes and the shared pool *)

(** C2 on the code. On a fresh thread an outer scope registers [(d1, p1)],
    an inner scope registers [(d2, p2)] and exits normally, then the outer
    scope throws: the inner registration has overwritten slot 0, which the
    outer list still points to, so the outer unwind calls [(d2, p2)], if it is
    callable, and makes no call for [(d1, p1)]. When the inner scope fails
    too, [(2, 22)] is called twice and [(1, 11)] never. *)
Theorem C2_outer_unwind_runs_inner_guard (d1 p1 d2 p2 : Z) :
  (exists w',
     exec 8 (STry [SDefer d1 p1 demo_site;
                   STry [SDefer d2 p2 demo_site] [];
                   SThrow 4 (Some demo_msg) demo_site] []) thread_start =
       Returns w' /\
     calls w' = (if callable (d2, p2) then [(d2, p2)] else [])) /\
  (exists w',
     exec 8 (STry [SDefer 1 11 demo_site;
                   STry [SDefer 2 22 demo_site] [];
                   SThrow 4 (Some demo_msg) demo_site] []) thread_start =
       Returns w' /\
     calls w' = [(2, 22)]) /\
  (exists w',
     exec 8 (STry [SDefer 1 11 demo_site;
                   STry [SDefer 2 22 demo_site;
                         SThrow 3 (Some demo_msg) demo_site] [];
                   SThrow 4 (Some demo_msg) demo_site] []) thread_start =
       Returns w' /\
     calls w' = [(2, 22); (2, 22)]).
Proof.
  split; [|split]; eexists; (split; [vm_compute; reflexivity|]);
    reflexivity.
Qed.

(** * Further properties of the library *)

(** ** The source location of an error *)

Lemma make_error_file (c : Z) (m : option (list ascii)) (path : list ascii)
    (ln : Z) :
  file (__flux_make_error c m (Some path) ln) =
  take 63 (c_str (basename path)) ++
  replicate (64 - length (take 63 (c_str (basename path)))) NUL.
Proof.
  unfold __flux_make_error. cbn [file zero_error].
  change (Z.to_nat (FLUX_FILE_MAX - 1)) with 63%nat.
  change (Z.to_nat FLUX_FILE_MAX) with (S 63).
  apply stored_string.
Qed.

(** X1. The file name stored by [__flux_make_error] is the base name of the
    given path cut to 63 bytes, in a 64-byte buffer with a NUL right after
    it; a null path leaves the buffer all NUL; code and line are stored as
    given, whatever the message and the path are. *)
Theorem make_error_location
    (c : Z) (m : option (list ascii)) (path : list ascii) (ln : Z) :
  let e := __flux_make_error c m (Some path) ln in
  let e0 := __flux_make_error c m None ln in
  c_str (file e) = take 63 (c_str (basename path)) /\
  length (file e) = 64%nat /\
  file e !! length (c_str (file e)) = Some NUL /\
  file e0 = replicate 64 NUL /\
  code e = c /\ line e = ln /\ code e0 = c /\ line e0 = ln /\
  msg e = msg e0.
Proof.
  intros e e0. subst e e0. rewrite make_error_file.
  change 64%nat with (S 63).
  rewrite stored_string_c_str.
  assert (Hlen : (length (take 63 (c_str (basename path))) <= 63)%nat)
    by (rewrite length_take; lia).
  split; [reflexivity|].
  split; [apply stored_string_length|].
  split; [rewrite lookup_app_r by lia; apply lookup_replicate_2; lia|].
  repeat split.
Qed.

(** ** Base names *)

Lemma strrchr_None (s : list ascii) (c : ascii) :
  strrchr s c = None -> no_char c (c_str s).
Proof.
  unfold no_char. induction s as [|x s IH]; simpl; [constructor|].
  destruct (Ascii.eqb_spec x NUL); [constructor|].
  destruct (strrchr s c); [discriminate|].
  destruct (Ascii.eqb_spec x c); [discriminate|].
  intros _. constructor; [assumption | apply IH; reflexivity].
Qed.

Lemma strrchr_Some (s r : list ascii) (c : ascii) :
  strrchr s c = Some r ->
  exists pre r',
    s = pre ++ c :: r' /\ r = c :: r' /\ no_char NUL pre /\
    no_char c (c_str r') /\ c <> NUL.
Proof.
  unfold no_char. revert r. induction s as [|x s IH]; simpl; [discriminate|].
  intros r. destruct (Ascii.eqb_spec x NUL) as [|Hx]; [discriminate|].
  destruct (strrchr s c) as [r0|] eqn:Hs.
  - intros [= <-]. destruct (IH r0 eq_refl) as (pre & r' & -> & -> & ? & ? & ?).
    exists (x :: pre), r'. repeat split; try assumption.
    constructor; assumption.
  - destruct (Ascii.eqb_spec x c) as [->|]; [|discriminate].
    intros [= <-]. exists [], s. repeat split; try assumption.
    + constructor.
    + apply strrchr_None. exact Hs.
Qed.

Lemma strrchr_app (dir name : list ascii) (c : ascii) :
  no_char NUL dir -> c <> NUL ->
  strrchr (dir ++ c :: name) c =
  match strrchr name c with
  | Some r => Some r
  | None => Some (c :: name)
  end.
Proof.
  unfold no_char. intros Hdir Hc.
  induction Hdir as [|x dir Hx _ IH]; simpl.
  - destruct (Ascii.eqb_spec c NUL); [contradiction|].
    destruct (strrchr name c); [reflexivity|].
    rewrite Ascii.eqb_refl. reflexivity.
  - destruct (Ascii.eqb_spec x NUL); [contradiction|].
    rewrite IH. destruct (strrchr name c); reflexivity.
Qed.

Lemma strrchr_absent (s : list ascii) (c : ascii) :
  no_char c (c_str s) -> strrchr s c = None.
Proof.
  unfold no_char. induction s as [|x s IH]; simpl; [reflexivity|].
  destruct (Ascii.eqb_spec x NUL); [reflexivity|].
  intros H. inversion H as [|? ? Hx Hs]; subst.
  rewrite (IH Hs). destruct (Ascii.eqb_spec x c); [contradiction|].
  reflexivity.
Qed.

(** X2. The base name [__flux_make_error] computes never contains a
    slash. *)
Theorem basename_has_no_slash (path : list ascii) :
  no_char "/"%char (c_str (basename path)).
Proof.
  unfold basename.
  destruct (strrchr path "/"%char) as [r|] eqn:Hs.
  - destruct (strrchr_Some _ _ _ Hs) as (pre & r' & _ & -> & _ & Hr & _).
    exact Hr.
  - apply strrchr_None in Hs.
    destruct (strrchr path "\"%char) as [r|] eqn:Hb; [|exact Hs].
    destruct (strrchr_Some _ _ _ Hb) as (pre & r' & -> & -> & Hpre & _ & _).
    simpl. clear Hb. unfold no_char in *.
    induction Hpre as [|x pre Hx _ IH]; simpl in Hs.
    + destruct (Ascii.eqb_spec "\"%char NUL); [discriminate|].
      inversion Hs; assumption.
    + destruct (Ascii.eqb_spec x NUL); [contradiction|].
      inversion Hs; subst. apply IH. assumption.
Qed.

(** X3. For a directory part without NUL and a last component without
    slash, the base name of [dir/name] is [name], backslashes in [name]
    included. *)
Theorem basename_after_last_slash (dir name : list ascii) :
  no_char NUL dir ->
  no_char "/"%char (c_str name) ->
  basename (dir ++ "/"%char :: name) = name.
Proof.
  intros Hdir Hname. unfold basename.
  rewrite strrchr_app by (assumption || discriminate).
  rewrite (strrchr_absent name _ Hname). reflexivity.
Qed.

Lemma basename_after_last_slash_witness :
  basename (String.list_ascii_of_string "/a/b/c.txt") =
  String.list_ascii_of_string "c.txt".
Proof.
  apply (basename_after_last_slash (String.list_ascii_of_string "/a/b")
           (String.list_ascii_of_string "c.txt")).
  - unfold no_char. repeat constructor; discriminate.
  - unfold no_char. simpl. repeat constructor; discriminate.
Defined.

(** X4. A backslash separates components only in a path without any slash:
    then the base name of [dir\name] is [name] when [name] holds no
    backslash, and a path with neither separator is its own base name. *)
Theorem basename_backslash_fallback (dir name : list ascii) :
  no_char NUL dir ->
  no_char "/"%char dir ->
  no_char "/"%char (c_str name) ->
  no_char "\"%char (c_str name) ->
  basename (dir ++ "\"%char :: name) = name /\
  basename name = name.
Proof.
  intros Hnul Hdir Hs Hb. unfold basename. split.
  - rewrite strrchr_absent.
    + rewrite strrchr_app by (assumption || discriminate).
      rewrite (strrchr_absent name _ Hb). reflexivity.
    + unfold no_char in *. clear Hb.
      induction Hnul as [|x dir Hx _ IH]; simpl.
      * constructor; [discriminate | assumption].
      * destruct (Ascii.eqb_spec x NUL); [contradiction|].
        inversion Hdir; subst. constructor; [assumption | apply IH; assumption].
  - rewrite (strrchr_absent name _ Hs), (strrchr_absent name _ Hb).
    reflexivity.
Qed.

Lemma basename_backslash_fallback_witness :
  basename (String.list_ascii_of_string "C:\src\main.c") =
  String.list_ascii_of_string "main.c".
Proof.
  apply (basename_backslash_fallback
           (String.list_ascii_of_string "C:\src")
           (String.list_ascii_of_string "main.c")).
  - unfold no_char. repeat constructor; discriminate.
  - unfold no_char. repeat constructor; discriminate.
  - unfold no_char. simpl. repeat constructor; discriminate.
  - unfold no_char. simpl. repeat constructor; discriminate.
Defined.

(** X5. Constructing an error from a non-empty message and a path and then
    printing it writes the fire sign, a blank, the base name of the path cut
    to 63 bytes, the line, the code and the message cut to 511 bytes, and a
    line feed. *)
Theorem constructed_error_prints
    (c : Z) (m path : list ascii) (ln : Z) (out : list ascii) :
  c_str m <> [] ->
  flux_error_print (Some (__flux_make_error c (Some m) (Some path) ln)) out =
  out ++ String.list_ascii_of_string "🔥 [" ++
  take 63 (c_str (basename path)) ++
  String.list_ascii_of_string ":" ++ dec ln ++
  String.list_ascii_of_string "] ERR " ++ dec c ++
  String.list_ascii_of_string ": " ++ take 511 (c_str m) ++ [LF].
Proof.
  intros Hm. rewrite flux_error_print_line. unfold printed_line.
  rewrite make_error_msg, make_error_file.
  change 512%nat with (S 511). change 64%nat with (S 63).
  rewrite !stored_string_c_str.
  destruct (c_str m) as [|x s]; [congruence|]. reflexivity.
Qed.

Lemma constructed_error_prints_witness :
  flux_error_print
    (Some (__flux_make_error 4 (Some demo_msg)
             (Some (site_file demo_site)) 7)) [] =
  String.list_ascii_of_string "🔥 [c.txt:7] ERR 4: bad input" ++ [LF].
Proof.
  rewrite (constructed_error_prints 4 demo_msg (site_file demo_site) 7 []).
  - reflexivity.
  - discriminate.
Defined.

(** ** What each operation leaves alone *)

Lemma stack_at_set_ne (t : flux_tls) (l i : Z) (s : flux_scope) :
  0 <= l -> i <> l -> stack_at (set_stack t l s) i = stack_at t i.
Proof.
  intros Hl Hi. unfold stack_at, set_stack. cbn [stack].
  destruct ((0 <=? i) && (i <? FLUX_MAX_DEPTH)) eqn:Hr; [|reflexivity].
  apply andb_prop in Hr as [H0 _]. apply Z.leb_le in H0.
  apply list_lookup_insert_ne. lia.
Qed.

Lemma stack_at_set_eq (t : flux_tls) (l : Z) (s s0 : flux_scope) :
  stack_at t l = Some s0 -> stack_at (set_stack t l s) l = Some s.
Proof.
  intros H. pose proof (stack_at_Some _ _ _ H) as [Hl Hs].
  rewrite stack_at_lookup by exact Hl. unfold set_stack. cbn [stack].
  apply list_lookup_insert_eq. eapply lookup_lt_Some. exact Hs.
Qed.

(** [FLUX_THROW] touches the error slot of [stack[top]] and, when it
    aborts, [stderr]; nothing else. *)
Lemma FLUX_THROW_effects (k : Z) (m : option (list ascii)) (a : site)
    (w : world) :
  match FLUX_THROW k m a w with
  | Returns _ => False
  | Jumps w' =>
      0 <= wtop w < FLUX_MAX_DEPTH /\
      stderr w' = stderr w /\ calls w' = calls w /\ wpool w' = wpool w /\
      (forall i, i <> wtop w -> wscope w' i = wscope w i) /\
      wscope w' (wtop w) =
        ((fun s => set_err s (__flux_make_error (wrap_int k) m
                                (Some (site_file a))
                                (site_line a))) <$> wscope w (wtop w))
  | Aborts w' =>
      ~ 0 <= wtop w < FLUX_MAX_DEPTH /\
      calls w' = calls w /\ __flux_get_tls w' = __flux_get_tls w
  | _ => True
  end.
Proof.
  rewrite FLUX_THROW_settled. unfold wtop, wpool, wscope.
  set (t := __flux_get_tls w). unfold FLUX_THROW, settled.
  cbn [__flux_get_tls tls_slot set_tls]. fold t.
  destruct (Z.leb_spec 0 (top t)), (Z.ltb_spec (top t) FLUX_MAX_DEPTH);
    cbn [andb]; try (repeat split; try reflexivity; lia).
  destruct (stack_at t (top t)) as [s|] eqn:Hs; [|exact I].
  destruct (buf s); [|exact I].
  cbn [__flux_get_tls tls_slot calls stderr pool set_stack].
  repeat split; try reflexivity; try lia.
  - intros i Hi.
    match goal with
    | |- context [set_err s ?e] =>
        change (stack_at (set_stack t (top t) (set_err s e)) i = stack_at t i)
    end.
    apply stack_at_set_ne; assumption.
  - match goal with
    | |- context [set_err s ?e] =>
        change (stack_at (set_stack t (top t) (set_err s e)) (top t) =
                Some (set_err s e))
    end.
    apply (stack_at_set_eq _ _ _ _ Hs).
Qed.

(** [FLUX_DEFER] touches the claimed slot, the cursor and the list head of
    [stack[top]]; when the pool is full it is a [FLUX_THROW_LIMIT]. *)
Lemma FLUX_DEFER_effects (dt p : Z) (a : site) (w : world) :
  cursor_in_range w ->
  match FLUX_DEFER dt p a w with
  | Returns w' =>
      idx (wpool w) < FLUX_POOL_SIZE /\
      idx (wpool w') = idx (wpool w) + 1 /\
      stderr w' = stderr w /\ calls w' = calls w /\
      (forall i, i <> wtop w -> wscope w' i = wscope w i) /\
      wscope w' (wtop w) =
        ((fun s => set_guards s (Some (idx (wpool w)))) <$>
           wscope w (wtop w))
  | Jumps w' =>
      idx (wpool w) = FLUX_POOL_SIZE /\
      FLUX_THROW_LIMIT a (settled w) = Jumps w'
  | Aborts w' =>
      idx (wpool w) = FLUX_POOL_SIZE /\
      FLUX_THROW_LIMIT a (settled w) = Aborts w'
  | _ => True
  end.
Proof.
  intros Hc. unfold cursor_in_range in Hc.
  rewrite FLUX_DEFER_settled. unfold wtop, wpool, wscope in *.
  set (t := __flux_get_tls w) in *. unfold FLUX_DEFER, settled.
  cbn [__flux_get_tls tls_slot set_tls]. fold t.
  unfold __flux_acquire_guard.
  destruct (Z.leb_spec FLUX_POOL_SIZE (idx (pool t))) as [Hfull|Hfree].
  - assert (Hi : idx (pool t) = FLUX_POOL_SIZE) by lia.
    cbn [idx slots]. rewrite Hi.
    change (wrap_int (wrap_int (FLUX_POOL_SIZE + 1) - 1))
      with FLUX_POOL_SIZE.
    replace (set_pool t {| slots := slots (pool t); idx := FLUX_POOL_SIZE |})
      with t
      by (rewrite <- Hi; destruct t as [st tp [sl ix]]; reflexivity).
    unfold set_tls. cbn [calls stderr]. unfold FLUX_THROW_LIMIT.
    match goal with
    | |- context [FLUX_THROW ?k ?m a ?w0] =>
        pose proof (FLUX_THROW_effects k m a w0) as Hth;
        destruct (FLUX_THROW k m a w0)
    end; try exact I; [contradiction | split; reflexivity..].
  - destruct (slot_at _ (idx (pool t))) as [g|]; [|exact I].
    destruct (stack_at t (top t)) as [s|] eqn:Hs; [|exact I].
    pose proof (stack_at_Some _ _ _ Hs) as [Ht _].
    cbn [__flux_get_tls tls_slot calls stderr pool set_stack set_pool
         set_slot idx].
    rewrite wrap_int_small
      by (unfold INT_MIN, INT_MAX, FLUX_POOL_SIZE in *; lia).
    repeat split; try reflexivity; try lia.
    + intros i Hi.
      change (stack_at (set_stack t (top t) (set_guards s (Some (idx (pool t)))))
                i = stack_at t i).
      apply stack_at_set_ne; [lia | assumption].
    + change (stack_at (set_stack t (top t)
                          (set_guards s (Some (idx (pool t))))) (top t) =
              Some (set_guards s (Some (idx (pool t))))).
      apply (stack_at_set_eq _ _ _ _ Hs).
Qed.

(** [FLUX_TRY] touches the record of the new level, the top and the
    cursor; when it aborts it has touched nothing. *)
Lemma FLUX_TRY_effects (w : world) :
  match FLUX_TRY w with
  | Returns w' =>
      wtop w' = wtop w + 1 /\ 0 <= wtop w' < FLUX_MAX_DEPTH /\
      idx (wpool w') = 0 /\
      stderr w' = stderr w /\ calls w' = calls w /\
      (forall i, i <> wtop w + 1 -> wscope w' i = wscope w i)
  | Jumps _ => False
  | Aborts w' => w' = settled w /\ FLUX_MAX_DEPTH - 1 <= wtop w
  | _ => True
  end.
Proof.
  rewrite FLUX_TRY_settled. unfold wtop, wpool, wscope.
  set (t := __flux_get_tls w). unfold FLUX_TRY, settled.
  cbn [__flux_get_tls tls_slot set_tls]. fold t.
  destruct (Z.ltb_spec INT_MAX (top t + 1)); [exact I|].
  destruct (Z.leb_spec FLUX_MAX_DEPTH (top t + 1)).
  - split; [reflexivity | lia].
  - destruct (stack_at t (top t + 1)) as [s|] eqn:Hs; [|exact I].
    pose proof (stack_at_Some _ _ _ Hs) as [Ht _].
    cbn [__flux_get_tls tls_slot calls stderr pool top set_stack set_pool
         set_top idx __flux_reset_pool].
    split; [reflexivity|]. split; [exact Ht|].
    do 3 (split; [reflexivity|]).
    intros i Hi.
    match goal with
    | |- stack_at ?t1 i = _ =>
        change (stack_at t1 i) with
          (stack_at (set_stack t (top t + 1)
                       {| buf := true; err := err s; guards := None;
                          active := true |}) i)
    end.
    apply stack_at_set_ne; [lia | assumption].
Qed.

(** The two branches of [FLUX_CATCH] touch the [active] flag of their
    record and the top; the unwind adds cleanup calls. *)
Lemma FLUX_CATCH_exit_effects (l : Z) (w : world) :
  match FLUX_CATCH_exit l w with
  | Returns w' =>
      wtop w' = wtop w - 1 /\ 0 <= l < FLUX_MAX_DEPTH /\
      stderr w' = stderr w /\ calls w' = calls w /\ wpool w' = wpool w /\
      (forall i, i <> l -> wscope w' i = wscope w i) /\
      wscope w' l = ((fun s => set_active s false) <$> wscope w l)
  | Jumps _ | Aborts _ => False
  | _ => True
  end.
Proof.
  rewrite FLUX_CATCH_exit_settled. unfold wtop, wpool, wscope.
  set (t := __flux_get_tls w). unfold FLUX_CATCH_exit, settled.
  cbn [__flux_get_tls tls_slot set_tls]. fold t.
  destruct (stack_at t l) as [s|] eqn:Hs; [|exact I].
  destruct (top t - 1 <? INT_MIN); [exact I|].
  pose proof (stack_at_Some _ _ _ Hs) as [Hl _].
  cbn [__flux_get_tls tls_slot calls stderr pool top set_top set_stack].
  repeat split; try reflexivity; try lia.
  - intros i Hi.
    change (stack_at (set_stack t l (set_active s false)) i = stack_at t i).
    apply stack_at_set_ne; [lia | assumption].
  - change (stack_at (set_stack t l (set_active s false)) l =
            Some (set_active s false)).
    apply (stack_at_set_eq _ _ _ _ Hs).
Qed.

Lemma FLUX_CATCH_unwind_effects (fuel : nat) (l : Z) (w : world) :
  match FLUX_CATCH_unwind fuel l w with
  | Returns w' =>
      wtop w' = wtop w - 1 /\ 0 <= l < FLUX_MAX_DEPTH /\
      stderr w' = stderr w /\ wpool w' = wpool w /\
      (forall i, i <> l -> wscope w' i = wscope w i) /\
      wscope w' l = ((fun s => set_active s false) <$> wscope w l) /\
      (exists s, wscope w l = Some s /\
         __flux_release_guards fuel (wpool w) (guards s) (calls w) =
         WalkDone (calls w'))
  | Jumps _ | Aborts _ => False
  | _ => True
  end.
Proof.
  rewrite FLUX_CATCH_unwind_settled. unfold wtop, wpool, wscope.
  set (t := __flux_get_tls w). unfold FLUX_CATCH_unwind, settled.
  cbn [__flux_get_tls tls_slot set_tls calls stderr]. fold t.
  destruct (stack_at t l) as [s|] eqn:Hs; [|exact I].
  destruct (__flux_release_guards fuel (pool t) (guards s) (calls w))
    as [c'| |] eqn:Hr; try exact I.
  destruct (top t - 1 <? INT_MIN); [exact I|].
  pose proof (stack_at_Some _ _ _ Hs) as [Hl _].
  cbn [__flux_get_tls tls_slot calls stderr pool top set_top set_stack].
  repeat split; try reflexivity; try lia.
  - intros i Hi.
    change (stack_at (set_stack t l (set_active s false)) i = stack_at t i).
    apply stack_at_set_ne; [lia | assumption].
  - change (stack_at (set_stack t l (set_active s false)) l =
            Some (set_active s false)).
    apply (stack_at_set_eq _ _ _ _ Hs).
  - exists s. split; [reflexivity | exact Hr].
Qed.

(** ** The pool cursor *)

Lemma settled_pool (w : world) : wpool (settled w) = wpool w.
Proof. destruct w as [[t|] c e]; reflexivity. Qed.

Lemma exec_seq_cursor (fuel : nat) (ss : list stmt) :
  Forall (fun s => forall w w', cursor_in_range w ->
                     outcome_world (exec fuel s w) = Some w' ->
                     cursor_in_range w') ss ->
  forall w w', cursor_in_range w ->
    outcome_world (exec_seq fuel ss w) = Some w' -> cursor_in_range w'.
Proof.
  unfold exec_seq.
  induction 1 as [|s ss Hs _ IH]; intros w w' Hc; simpl.
  - intros [= <-]. exact Hc.
  - specialize (Hs w). destruct (exec fuel s w) as [w1|w1|w1| |];
      simpl; try discriminate.
    + intros Ho. apply (IH w1); [|exact Ho]. apply Hs; [exact Hc|reflexivity].
    + intros [= <-]. apply Hs; [exact Hc | reflexivity].
    + intros [= <-]. apply Hs; [exact Hc | reflexivity].
Qed.

(** X6. Whatever a program built from the macros does, the pool cursor
    stays within [0 .. 2048]: in every world an execution returns, jumps or
    aborts with, the cursor is in range if it was in range at the start. *)
Theorem cursor_stays_in_range (fuel : nat) (s : stmt) :
  forall w w',
    cursor_in_range w ->
    outcome_world (exec fuel s w) = Some w' ->
    cursor_in_range w'.
Proof.
  induction s as [dt p a|c m a|body handler IHb IHh] using stmt_ind';
    intros w w' Hc.
  - simpl. pose proof (FLUX_DEFER_effects dt p a w Hc) as H.
    unfold cursor_in_range in *.
    destruct (FLUX_DEFER dt p a w) as [w1|w1|w1| |]; simpl;
      try discriminate; intros [= <-].
    + destruct H as (H1 & H2 & _). lia.
    + destruct H as (_ & H).
      pose proof (FLUX_THROW_effects 5
                    (Some (String.list_ascii_of_string
                             "resource limit exceeded")) a (settled w)) as E.
      unfold FLUX_THROW_LIMIT in H. rewrite H in E.
      destruct E as (_ & _ & _ & -> & _). rewrite settled_pool. exact Hc.
    + destruct H as (_ & H).
      pose proof (FLUX_THROW_effects 5
                    (Some (String.list_ascii_of_string
                             "resource limit exceeded")) a (settled w)) as E.
      unfold FLUX_THROW_LIMIT in H. rewrite H in E.
      destruct E as (_ & _ & E). unfold wpool. rewrite E. exact Hc.
  - simpl. pose proof (FLUX_THROW_effects c m a w) as H.
    unfold cursor_in_range in *.
    destruct (FLUX_THROW c m a w) as [w1|w1|w1| |]; simpl;
      try discriminate; intros [= <-].
    + contradiction.
    + destruct H as (_ & _ & _ & -> & _). exact Hc.
    + destruct H as (_ & _ & E). unfold wpool. rewrite E. exact Hc.
  - rewrite exec_STry.
    pose proof (FLUX_TRY_effects w) as Htry.
    destruct (FLUX_TRY w) as [w1|w1|w1| |]; simpl; try discriminate;
      [|contradiction|].
    + assert (Hc1 : cursor_in_range w1).
      { destruct Htry as (_ & _ & Hi & _). unfold cursor_in_range.
        rewrite Hi. unfold FLUX_POOL_SIZE. lia. }
      pose proof (exec_seq_cursor fuel body IHb w1) as Hbody.
      destruct (exec_seq fuel body w1) as [w2|w2|w2| |]; simpl;
        try discriminate.
      * specialize (Hbody w2 Hc1 eq_refl).
        pose proof (FLUX_CATCH_exit_effects (wtop w + 1) w2) as Hex.
        destruct (FLUX_CATCH_exit (wtop w + 1) w2); simpl;
          try discriminate; try contradiction.
        intros [= <-]. destruct Hex as (_ & _ & _ & _ & Hp & _).
        unfold cursor_in_range. rewrite Hp. exact Hbody.
      * specialize (Hbody w2 Hc1 eq_refl).
        destruct (wtop w2 =? wtop w + 1);
          [|simpl; intros [= <-]; exact Hbody].
        pose proof (FLUX_CATCH_unwind_effects fuel (wtop w + 1) w2) as Hun.
        destruct (FLUX_CATCH_unwind fuel (wtop w + 1) w2) as [w3| | | |];
          simpl; try discriminate; try contradiction.
        apply (exec_seq_cursor fuel handler IHh).
        destruct Hun as (_ & _ & _ & Hp & _).
        unfold cursor_in_range. rewrite Hp. exact Hbody.
      * intros [= <-]. apply (Hbody w2 Hc1 eq_refl).
    + intros [= <-]. destruct Htry as [-> _].
      unfold cursor_in_range. rewrite settled_pool. exact Hc.
Qed.

Lemma cursor_stays_in_range_witness :
  exists w',
    exec 8 (STry [SDefer 1 11 demo_site;
                  STry [SDefer 2 22 demo_site] [];
                  SThrow 4 (Some demo_msg) demo_site] []) thread_start =
      Returns w' /\
    cursor_in_range w'.
Proof.
  assert (H : exists w',
            exec 8 (STry [SDefer 1 11 demo_site;
                          STry [SDefer 2 22 demo_site] [];
                          SThrow 4 (Some demo_msg) demo_site] [])
              thread_start = Returns w')
    by (eexists; vm_compute; reflexivity).
  destruct H as [w' H]. exists w'. split; [exact H|].
  eapply (cursor_stays_in_range 8); [|rewrite H; reflexivity].
  unfold cursor_in_range, wpool, FLUX_POOL_SIZE. simpl. lia.
Defined.

(** ** Enclosing scopes and the diagnostic sink *)

Lemma settled_scope (w : world) (i : Z) : wscope (settled w) i = wscope w i.
Proof. destruct w as [[t|] c e]; reflexivity. Qed.

Lemma frame_outcome_step (w w1 : world) (o : outcome) :
  wtop w <= wtop w1 ->
  unchanged_below w w1 ->
  (0 <= wtop w -> stderr w1 = stderr w) ->
  frame_outcome w1 o -> frame_outcome w o.
Proof.
  unfold unchanged_below. intros Hle Hu He.
  destruct o as [w'|w'|w'| |]; simpl; try tauto.
  - intros [Hu' He']. split.
    + intros i Hi. rewrite Hu' by lia. apply Hu. exact Hi.
    + intros H0. rewrite He' by lia. apply He. exact H0.
  - intros [Hu' He']. split.
    + intros i Hi. rewrite Hu' by lia. apply Hu. exact Hi.
    + intros H0. rewrite He' by lia. apply He. exact H0.
  - intros [Hu' He']. split.
    + intros i Hi. rewrite Hu' by lia. apply Hu. exact Hi.
    + intros H0. destruct He' as [He1 He2]; [lia|].
      split; [rewrite He1; apply He; exact H0 | exact He2].
Qed.

Lemma FLUX_THROW_frame (k : Z) (m : option (list ascii)) (a : site)
    (w : world) :
  top_in_range w -> frame_outcome w (FLUX_THROW k m a w).
Proof.
  intros Hr. pose proof (FLUX_THROW_effects k m a w) as H.
  unfold top_in_range in Hr.
  destruct (FLUX_THROW k m a w) as [w'|w'|w'| |]; simpl; try tauto.
  - destruct H as (_ & He & _ & _ & Hs & _). split; [|tauto].
    intros i Hi. apply Hs. lia.
  - destruct H as (Ht & _ & E). split.
    + intros i Hi. unfold wscope. rewrite E. reflexivity.
    + intros H0. exfalso. apply Ht. lia.
Qed.

Lemma FLUX_DEFER_frame (dt p : Z) (a : site) (w : world) :
  top_in_range w -> frame_outcome w (FLUX_DEFER dt p a w).
Proof.
  intros Hr. rewrite FLUX_DEFER_settled.
  unfold FLUX_DEFER, settled.
  cbn [__flux_get_tls tls_slot set_tls].
  set (t := __flux_get_tls w).
  destruct (__flux_acquire_guard (pool t)) as [[i|] pool1].
  - destruct (slot_at pool1 i); [|exact I].
    destruct (stack_at t (top t)) as [s|] eqn:Hs; [|exact I].
    pose proof (stack_at_Some _ _ _ Hs) as [Ht _].
    split; [|reflexivity].
    intros j Hj. unfold wscope. cbn [__flux_get_tls tls_slot].
    change (stack_at (set_stack t (top t) (set_guards s (Some i))) j =
            stack_at t j).
    apply stack_at_set_ne; [lia | unfold wtop in Hj; fold t in Hj; lia].
  - unfold FLUX_THROW_LIMIT.
    match goal with
    | |- frame_outcome _ (FLUX_THROW ?k ?m a ?w0) =>
        pose proof (FLUX_THROW_frame k m a w0 Hr) as H;
        destruct (FLUX_THROW k m a w0)
    end; exact H.
Qed.

Lemma exec_seq_frame (fuel : nat) (ss : list stmt) :
  Forall (fun s => forall w, wf w -> top_in_range w ->
                     frame_outcome w (exec fuel s w)) ss ->
  forall w, wf w -> top_in_range w -> frame_outcome w (exec_seq fuel ss w).
Proof.
  intros Hss. unfold exec_seq.
  induction Hss as [|s ss Hs _ IH]; intros w Hwf Hr; simpl.
  - split; [intros i _; reflexivity | reflexivity].
  - specialize (Hs w Hwf Hr).
    pose proof (exec_depth fuel s w Hwf Hr) as Hd.
    destruct (exec fuel s w) as [w1| | | |]; try exact Hs.
    destruct Hd as [Hwf1 Ht1]. destruct Hs as [Hu He].
    apply (frame_outcome_step w w1); [lia | exact Hu | exact He |].
    apply IH; [exact Hwf1|]. unfold top_in_range in *. rewrite Ht1. exact Hr.
Qed.

(** What a block has done when its handler starts or when it leaves through
    the first branch of [FLUX_CATCH]: the records up to and including the
    one of the enclosing scope are untouched. *)
Lemma block_frame (fuel : nat) (body : list stmt) (w w1 w2 w3 : world) :
  wf w -> top_in_range w ->
  (forall w0, wf w0 -> top_in_range w0 ->
     frame_outcome w0 (exec_seq fuel body w0)) ->
  FLUX_TRY w = Returns w1 ->
  exec_seq fuel body w1 = Returns w2 \/ exec_seq fuel body w1 = Jumps w2 ->
  FLUX_CATCH_exit (wtop w + 1) w2 = Returns w3 \/
  FLUX_CATCH_unwind fuel (wtop w + 1) w2 = Returns w3 ->
  (forall i, i <= wtop w -> wscope w3 i = wscope w i) /\
  stderr w3 = stderr w /\ wtop w3 = wtop w /\ wf w3.
Proof.
  intros Hwf Hr Hfr Htry Hbody Hend.
  pose proof (FLUX_TRY_effects w) as E1. rewrite Htry in E1.
  destruct E1 as (Ht1 & Hl & _ & He1 & _ & Hs1).
  pose proof (FLUX_TRY_depth w Hwf (proj1 Hr)) as D1. rewrite Htry in D1.
  destruct D1 as (Hwf1 & _).
  assert (Hr1 : top_in_range w1) by (unfold top_in_range in *; lia).
  specialize (Hfr w1 Hwf1 Hr1).
  assert (Hd : keeps_depth w1 (exec_seq fuel body w1)).
  { apply exec_seq_depth; [|assumption..].
    apply Forall_forall. intros s _. apply exec_depth. }
  assert (H2 : unchanged_below w1 w2 /\ stderr w2 = stderr w1 /\
               wf w2 /\ wtop w2 = wtop w1).
  { destruct Hbody as [Hb|Hb]; rewrite Hb in Hfr, Hd;
      destruct Hfr as [Hu He], Hd as [? ?];
      (split; [exact Hu|]); (split; [apply He; lia|]); split; assumption. }
  destruct H2 as (Hu2 & He2 & Hwf2 & Ht2).
  assert (H3 : (forall i, i <> wtop w + 1 -> wscope w3 i = wscope w2 i) /\
               stderr w3 = stderr w2 /\ wtop w3 = wtop w2 - 1 /\ wf w3).
  { destruct Hend as [Hx|Hx].
    - pose proof (FLUX_CATCH_exit_effects (wtop w + 1) w2) as E.
      pose proof (FLUX_CATCH_exit_depth (wtop w + 1) w2 Hwf2) as D.
      rewrite Hx in E, D. intuition.
    - pose proof (FLUX_CATCH_unwind_effects fuel (wtop w + 1) w2) as E.
      pose proof (FLUX_CATCH_unwind_depth fuel (wtop w + 1) w2 Hwf2) as D.
      rewrite Hx in E, D. intuition. }
  destruct H3 as (Hs3 & He3 & Ht3 & Hwf3).
  split; [|split; [congruence | split; [lia | exact Hwf3]]].
  intros i Hi. rewrite Hs3 by lia. rewrite Hu2 by lia. apply Hs1. lia.
Qed.

(** Every statement leaves the enclosing scopes alone. *)
Lemma exec_frame (fuel : nat) (s : stmt) :
  forall w, wf w -> top_in_range w -> frame_outcome w (exec fuel s w).
Proof.
  induction s as [dt p a|c m a|body handler IHb IHh] using stmt_ind';
    intros w Hwf Hr.
  - apply FLUX_DEFER_frame. exact Hr.
  - apply FLUX_THROW_frame. exact Hr.
  - rewrite exec_STry.
    pose proof (FLUX_TRY_effects w) as E1.
    pose proof (FLUX_TRY_depth w Hwf (proj1 Hr)) as D1.
    destruct (FLUX_TRY w) as [w1|w1|w1| |] eqn:Htry; try exact I;
      [|contradiction|].
    + destruct E1 as (Ht1 & Hl & _ & He1 & _ & Hs1).
      destruct D1 as (Hwf1 & _).
      assert (Hr1 : top_in_range w1) by (unfold top_in_range in *; lia).
      pose proof (exec_seq_frame fuel body IHb) as Hseq.
      pose proof (Hseq w1 Hwf1 Hr1) as Hbody.
      assert (Hd : keeps_depth w1 (exec_seq fuel body w1)).
      { apply exec_seq_depth; [|assumption..].
        apply Forall_forall. intros s _. apply exec_depth. }
      destruct (exec_seq fuel body w1) as [w2|w2|w2| |] eqn:Hb; try exact I.
      * destruct (FLUX_CATCH_exit (wtop w + 1) w2) as [w3| | | |] eqn:Hx;
          try exact I;
          try (pose proof (FLUX_CATCH_exit_effects (wtop w + 1) w2) as E;
               rewrite Hx in E; contradiction).
        destruct (block_frame fuel body w w1 w2 w3 Hwf Hr Hseq Htry
                    (or_introl Hb) (or_introl Hx)) as (Hs & He & _).
        split; [intros i Hi; apply Hs; lia | intros _; exact He].
      * destruct Hd as [_ Ht2]. rewrite Ht2, Ht1, Z.eqb_refl.
        destruct (FLUX_CATCH_unwind fuel (wtop w + 1) w2) as [w3| | | |]
          eqn:Hx; try exact I;
          try (pose proof (FLUX_CATCH_unwind_effects fuel (wtop w + 1) w2)
                 as E; rewrite Hx in E; contradiction).
        destruct (block_frame fuel body w w1 w2 w3 Hwf Hr Hseq Htry
                    (or_intror Hb) (or_intror Hx)) as (Hs & He & Ht3 & Hwf3).
        apply (frame_outcome_step w w3); [lia | | intros _; exact He |].
        -- intros i Hi. apply Hs. lia.
        -- apply (exec_seq_frame fuel handler IHh w3 Hwf3).
           unfold top_in_range in *. rewrite Ht3. exact Hr.
      * destruct Hbody as [Hu He]. split.
        -- intros i Hi. rewrite Hu by lia. apply Hs1. lia.
        -- intros H0. destruct He as [He2 Ht2]; [lia|].
           split; [congruence | exact Ht2].
    + destruct E1 as [-> Hge]. split.
      * intros i _. apply settled_scope.
      * intros _. split; [reflexivity|].
        destruct w as [[t|] c e]; unfold top_in_range, wtop in *;
          cbn [settled set_tls __flux_get_tls tls_slot] in *; lia.
Qed.

Lemma exec_STry_run_block (fuel : nat) (body handler : list stmt)
    (w : world) :
  exec fuel (STry body handler) w =
  match run_block fuel body w with
  | Completed w' => Returns w'
  | Caught w' _ => exec_seq fuel handler w'
  | Stopped o => o
  end.
Proof.
  rewrite exec_STry. unfold run_block. fold (wtop w).
  destruct (FLUX_TRY w) as [w1| | | |]; try reflexivity.
  destruct (exec_seq fuel body w1) as [w2|w2| | |]; try reflexivity.
  - destruct (FLUX_CATCH_exit (wtop w + 1) w2); reflexivity.
  - fold (wtop w2). destruct (wtop w2 =? wtop w + 1); [|reflexivity].
    pose proof (FLUX_CATCH_unwind_effects fuel (wtop w + 1) w2) as E.
    destruct (FLUX_CATCH_unwind fuel (wtop w + 1) w2) as [w3| | | |];
      try reflexivity.
    destruct E as (_ & _ & _ & _ & _ & Hs & (s & Hs2 & _)).
    unfold wscope in Hs, Hs2. rewrite Hs, Hs2. reflexivity.
Qed.

(** X7. A statement never touches the record of a scope below the current
    top, and a block, when its body has completed or its failure has been
    caught, has not touched the record of the scope it is nested in either:
    that scope keeps its guard list head, its error slot and its flags. *)
Theorem enclosing_scopes_untouched (fuel : nat) (w : world) :
  wf w ->
  top_in_range w ->
  (forall s w',
     outcome_world (exec fuel s w) = Some w' ->
     forall i, i < wtop w -> wscope w' i = wscope w i) /\
  (forall body w',
     run_block fuel body w = Completed w' \/
     (exists e, run_block fuel body w = Caught w' e) ->
     wtop w' = wtop w /\
     forall i, i <= wtop w -> wscope w' i = wscope w i).
Proof.
  intros Hwf Hr. split.
  - intros s w' Ho. pose proof (exec_frame fuel s w Hwf Hr) as H.
    destruct (exec fuel s w); simpl in Ho; try discriminate;
      injection Ho as <-; apply H.
  - intros body w' Hb. unfold run_block in Hb. fold (wtop w) in Hb.
    assert (Hseq : forall w0, wf w0 -> top_in_range w0 ->
                     frame_outcome w0 (exec_seq fuel body w0)).
    { apply exec_seq_frame. apply Forall_forall. intros s _.
      apply exec_frame. }
    destruct (FLUX_TRY w) as [w1| | | |] eqn:Htry;
      try (destruct Hb as [Hb|[e Hb]]; discriminate).
    destruct (exec_seq fuel body w1) as [w2|w2| | |] eqn:Hbody;
      try (destruct Hb as [Hb|[e Hb]]; discriminate).
    + destruct (FLUX_CATCH_exit (wtop w + 1) w2) as [w3| | | |] eqn:Hx;
        try (destruct Hb as [Hb|[e Hb]]; discriminate).
      assert (w3 = w') as -> by (destruct Hb as [Hb|[e Hb]]; congruence).
      destruct (block_frame fuel body w w1 w2 w' Hwf Hr Hseq Htry
                  (or_introl Hbody) (or_introl Hx)) as (Hs & _ & Ht & _).
      split; assumption.
    + fold (wtop w2) in Hb. destruct (wtop w2 =? wtop w + 1);
        try (destruct Hb as [Hb|[e Hb]]; discriminate).
      destruct (FLUX_CATCH_unwind fuel (wtop w + 1) w2) as [w3| | | |]
        eqn:Hx; try (destruct Hb as [Hb|[e Hb]]; discriminate).
      assert (w3 = w') as ->.
      { destruct (stack_at (__flux_get_tls w3) (wtop w + 1));
          destruct Hb as [Hb|[e Hb]]; congruence. }
      destruct (block_frame fuel body w w1 w2 w' Hwf Hr Hseq Htry
                  (or_intror Hbody) (or_intror Hx)) as (Hs & _ & Ht & _).
      split; assumption.
Qed.

Lemma enclosing_scopes_untouched_witness :
  exists w w' e,
    exec_seq 8 [SDefer 1 11 demo_site] 
      (set_tls thread_start
         (set_stack (set_top calloc_flux_tls 1) 1
            {| buf := true; err := zero_error; guards := None;
               active := true |})) = Returns w /\
    run_block 8 [SDefer 2 22 demo_site;
                 SThrow 4 (Some demo_msg) demo_site] w = Caught w' e /\
    wscope w' 1 = wscope w 1 /\
    (guards <$> wscope w' 1) = Some (Some 0).
Proof.
  assert (H1 : exists w,
            exec_seq 8 [SDefer 1 11 demo_site]
              (set_tls thread_start
                 (set_stack (set_top calloc_flux_tls 1) 1
                    {| buf := true; err := zero_error; guards := None;
                       active := true |})) = Returns w /\
            wf w /\ top_in_range w /\ wtop w = 1 /\
            (guards <$> wscope w 1) = Some (Some 0) /\
            exists w' e,
              run_block 8 [SDefer 2 22 demo_site;
                           SThrow 4 (Some demo_msg) demo_site] w =
                Caught w' e).
  { eexists. split; [vm_compute; reflexivity|].
    split; [split; reflexivity|].
    split; [unfold top_in_range, wtop, FLUX_MAX_DEPTH; simpl; lia|].
    split; [reflexivity|]. split; [reflexivity|].
    do 2 eexists. vm_compute. reflexivity. }
  destruct H1 as (w & Hw & Hwf & Hr & Ht & Hg & w' & e & Hb).
  destruct (enclosing_scopes_untouched 8 w Hwf Hr) as [_ Hblock].
  destruct (Hblock _ w' (or_intror (ex_intro _ e Hb))) as [_ Hs].
  exists w, w', e. split; [exact Hw|]. split; [exact Hb|].
  assert (Heq : wscope w' 1 = wscope w 1) by (apply Hs; lia).
  split; [exact Heq|]. rewrite Heq. exact Hg.
Defined.

(** X8. From a stack top in [0 .. 63], the top of a thread's zeroed
    registry included, no program built from the macros writes to the
    diagnostic sink, and if it aborts it does so in [FLUX_TRY] with the
    stack full: the reporting branch of [FLUX_THROW] is never taken. *)
Theorem no_diagnostic_without_negative_top (fuel : nat) (s : stmt)
    (w w' : world) :
  wf w ->
  0 <= wtop w <= FLUX_MAX_DEPTH - 1 ->
  outcome_world (exec fuel s w) = Some w' ->
  stderr w' = stderr w /\
  (exec fuel s w = Aborts w' -> wtop w' = FLUX_MAX_DEPTH - 1).
Proof.
  intros Hwf Hr Ho.
  assert (Hr' : top_in_range w) by (unfold top_in_range; lia).
  pose proof (exec_frame fuel s w Hwf Hr') as H.
  destruct (exec fuel s w) as [w1|w1|w1| |]; simpl in Ho; try discriminate;
    injection Ho as <-; destruct H as [_ H].
  - split; [apply H; lia | discriminate].
  - split; [apply H; lia | discriminate].
  - destruct H as [H1 H2]; [lia|]. split; [exact H1 | intros _; exact H2].
Qed.

Lemma no_diagnostic_without_negative_top_witness :
  exists w',
    exec 8 (STry [STry [SThrow 4 (Some demo_msg) demo_site] [];
                  SThrow 3 (Some demo_msg) demo_site] []) thread_start =
      Returns w' /\
    stderr w' = [].
Proof.
  assert (H : exists w',
            exec 8 (STry [STry [SThrow 4 (Some demo_msg) demo_site] [];
                          SThrow 3 (Some demo_msg) demo_site] [])
              thread_start = Returns w')
    by (eexists; vm_compute; reflexivity).
  destruct H as [w' H]. exists w'. split; [exact H|].
  eapply (no_diagnostic_without_negative_top 8 _ thread_start w').
  - split; reflexivity.
  - unfold wtop, FLUX_MAX_DEPTH. simpl. lia.
  - rewrite H. reflexivity.
Defined.

(** ** Failures outside every scope *)

(** A jump needs a capture point: [FLUX_THROW] jumps only when [setjmp] has
    filled the [jmp_buf] of [stack[top]]. *)
Lemma FLUX_THROW_needs_buf (k : Z) (m : option (list ascii)) (a : site)
    (w : world) :
  match FLUX_THROW k m a w with
  | Jumps _ => (buf <$> wscope w (wtop w)) = Some true
  | _ => True
  end.
Proof.
  rewrite FLUX_THROW_settled. unfold wtop, wscope.
  set (t := __flux_get_tls w). unfold FLUX_THROW, settled.
  cbn [__flux_get_tls tls_slot set_tls]. fold t.
  destruct ((0 <=? top t) && (top t <? FLUX_MAX_DEPTH)); [|exact I].
  destruct (stack_at t (top t)) as [s|]; [|exact I].
  destruct (buf s) eqn:Hb; [|exact I]. simpl. rewrite Hb. reflexivity.
Qed.

(** [FLUX_DEFER] leaves the capture points alone, and its limit failure
    needs one like any other. *)
Lemma FLUX_DEFER_buf (dt p : Z) (a : site) (w : world) :
  match FLUX_DEFER dt p a w with
  | Returns w' => forall i, (buf <$> wscope w' i) = (buf <$> wscope w i)
  | Jumps _ => (buf <$> wscope w (wtop w)) = Some true
  | _ => True
  end.
Proof.
  rewrite FLUX_DEFER_settled. unfold wtop, wscope.
  set (t := __flux_get_tls w). unfold FLUX_DEFER, settled.
  cbn [__flux_get_tls tls_slot set_tls]. fold t.
  destruct (__flux_acquire_guard (pool t)) as [[i|] pool1].
  - destruct (slot_at pool1 i); [|exact I].
    destruct (stack_at t (top t)) as [s|] eqn:Hs; [|exact I].
    pose proof (stack_at_Some _ _ _ Hs) as [Ht _].
    intros j. cbn [__flux_get_tls tls_slot].
    change (buf <$> stack_at (set_stack t (top t) (set_guards s (Some i))) j =
            buf <$> stack_at t j).
    destruct (Z.eq_dec j (top t)) as [->|Hne].
    + rewrite (stack_at_set_eq _ _ _ _ Hs), Hs. reflexivity.
    + rewrite stack_at_set_ne by (lia || assumption). reflexivity.
  - unfold FLUX_THROW_LIMIT.
    match goal with
    | |- context [FLUX_THROW ?k ?m a ?w0] =>
        pose proof (FLUX_THROW_needs_buf k m a w0) as B;
        pose proof (FLUX_THROW_effects k m a w0) as E;
        destruct (FLUX_THROW k m a w0)
    end; try exact I; [contradiction | exact B].
Qed.

Lemma FLUX_THROW_outside (k : Z) (m : option (list ascii)) (a : site)
    (w : world) :
  outside_every_scope w -> FLUX_THROW k m a w = Faults JmpBufNotSet.
Proof.
  intros (_ & Ht & Hb). rewrite FLUX_THROW_settled.
  unfold wtop, wscope in *. unfold FLUX_THROW, settled.
  cbn [__flux_get_tls tls_slot set_tls]. rewrite Ht.
  change ((0 <=? 0) && (0 <? FLUX_MAX_DEPTH)) with true. cbn iota.
  destruct (stack_at (__flux_get_tls w) 0) as [s|]; [|discriminate Hb].
  injection Hb as ->. reflexivity.
Qed.

Lemma exec_seq_outside (fuel : nat) (ss : list stmt) :
  Forall (fun s => forall w, outside_every_scope w ->
                     match exec fuel s w with
                     | Returns w' => outside_every_scope w'
                     | Jumps _ => False
                     | _ => True
                     end) ss ->
  forall w, outside_every_scope w ->
    match exec_seq fuel ss w with
    | Returns w' => outside_every_scope w'
    | Jumps _ => False
    | _ => True
    end.
Proof.
  unfold exec_seq.
  induction 1 as [|s ss Hs _ IH]; intros w Hw; simpl; [exact Hw|].
  specialize (Hs w Hw). destruct (exec fuel s w); try exact Hs.
  apply IH. exact Hs.
Qed.

(** Outside every scope a statement that returns leaves the thread outside
    every scope, and no statement jumps: a block pops what it pushed and
    touches neither [stack[0]] nor its capture point, a registration
    changes the list head of [stack[0]] only. *)
Lemma exec_outside (fuel : nat) (s : stmt) :
  forall w, outside_every_scope w ->
    match exec fuel s w with
    | Returns w' => outside_every_scope w'
    | Jumps _ => False
    | _ => True
    end.
Proof.
  induction s as [dt p a|c m a|body handler IHb IHh] using stmt_ind';
    intros w (Hwf & Ht & Hb).
  - simpl. pose proof (FLUX_DEFER_buf dt p a w) as B.
    pose proof (FLUX_DEFER_depth dt p a w Hwf) as D.
    destruct (FLUX_DEFER dt p a w); try exact I.
    + destruct D as [D1 D2]. split; [exact D1|]. split; [lia|].
      rewrite B. exact Hb.
    + rewrite Ht, Hb in B. discriminate B.
  - simpl. pose proof (FLUX_THROW_needs_buf c m a w) as B.
    pose proof (FLUX_THROW_effects c m a w) as E.
    destruct (FLUX_THROW c m a w); try exact I.
    + contradiction.
    + rewrite Ht, Hb in B. discriminate B.
  - assert (Hr : top_in_range w)
      by (unfold top_in_range, FLUX_MAX_DEPTH; lia).
    rewrite exec_STry.
    pose proof (FLUX_TRY_effects w) as E1.
    pose proof (FLUX_TRY_depth w Hwf (proj1 Hr)) as D1.
    destruct (FLUX_TRY w) as [w1|w1|w1| |] eqn:Htry; try exact I;
      [|contradiction].
    destruct E1 as (Ht1 & _). destruct D1 as (Hwf1 & _ & Hle1 & _).
    assert (Hr1 : top_in_range w1) by (unfold top_in_range in *; lia).
    assert (Hseq : forall w0, wf w0 -> top_in_range w0 ->
                     frame_outcome w0 (exec_seq fuel body w0)).
    { apply exec_seq_frame. apply Forall_forall. intros s _.
      apply exec_frame. }
    assert (Hd : keeps_depth w1 (exec_seq fuel body w1)).
    { apply exec_seq_depth; [|assumption..].
      apply Forall_forall. intros s _. apply exec_depth. }
    destruct (exec_seq fuel body w1) as [w2|w2|w2| |] eqn:Hbd; try exact I.
    + pose proof (FLUX_CATCH_exit_effects (wtop w + 1) w2) as E.
      destruct (FLUX_CATCH_exit (wtop w + 1) w2) as [w3| | | |] eqn:Hx;
        try exact I; try contradiction.
      destruct (block_frame fuel body w w1 w2 w3 Hwf Hr Hseq Htry
                  (or_introl Hbd) (or_introl Hx)) as (Hs & _ & Ht3 & Hwf3).
      split; [exact Hwf3|]. split; [lia|]. rewrite Hs by lia. exact Hb.
    + destruct Hd as [_ Ht2]. rewrite Ht2, Ht1, Z.eqb_refl.
      pose proof (FLUX_CATCH_unwind_effects fuel (wtop w + 1) w2) as E.
      destruct (FLUX_CATCH_unwind fuel (wtop w + 1) w2) as [w3| | | |]
        eqn:Hx; try exact I; try contradiction.
      destruct (block_frame fuel body w w1 w2 w3 Hwf Hr Hseq Htry
                  (or_intror Hbd) (or_intror Hx)) as (Hs & _ & Ht3 & Hwf3).
      apply (exec_seq_outside fuel handler IHh).
      split; [exact Hwf3|]. split; [lia|]. rewrite Hs by lia. exact Hb.
Qed.

Lemma thread_start_outside : outside_every_scope thread_start.
Proof. split; [split; reflexivity|]. split; reflexivity. Qed.

(** C5 on the code. The registry of a thread comes zeroed out of [calloc],
    so outside every scope the top is 0 and not -1: the test of
    [FLUX_THROW] holds, the error goes into [stack[0]] and [longjmp] is
    called on the [jmp_buf] of [stack[0]], which no [setjmp] has ever
    filled. This is so on a fresh thread and after any program that has
    returned, and no program ever writes to the diagnostic sink or aborts
    in [FLUX_THROW]. Only a top outside [0 .. 63], such as the -1 the test
    expects of an empty stack, would select the branch that reports and
    aborts; that branch writes the line when the message is not empty and
    nothing otherwise. *)
Theorem C5_throw_outside_every_scope_faults
    (c : Z) (m : option (list ascii)) (a : site) :
  FLUX_THROW c m a thread_start = Faults JmpBufNotSet /\
  (forall fuel prog,
     match exec_seq fuel prog thread_start with
     | Returns w =>
         wtop w = 0 /\ stderr w = [] /\
         FLUX_THROW c m a w = Faults JmpBufNotSet /\
         exec_seq fuel (prog ++ [SThrow c m a]) thread_start =
           Faults JmpBufNotSet
     | Jumps _ => False
     | Aborts w => stderr w = [] /\ wtop w = FLUX_MAX_DEPTH - 1
     | Faults _ | OutOfFuel => True
     end) /\
  (exists w,
     exec_seq 8 [STry [SDefer 1 11 demo_site] [];
                 STry [SThrow 3 (Some demo_msg) demo_site] []]
       thread_start = Returns w /\
     FLUX_THROW c m a w = Faults JmpBufNotSet) /\
  (exists w,
     FLUX_THROW c m a empty_stack_world = Aborts w /\
     calls w = [] /\
     stderr w =
       match m with
       | Some s =>
           match c_str s with
           | [] => []
           | _ :: _ =>
               printed_line
                 (__flux_make_error (wrap_int c) m (Some (site_file a))
                    (site_line a))
           end
       | None => []
       end).
Proof.
  pose proof thread_start_outside as H0.
  assert (Hprog : forall fuel prog,
            match exec_seq fuel prog thread_start with
            | Returns w => outside_every_scope w
            | Jumps _ => False
            | _ => True
            end).
  { intros fuel prog. apply exec_seq_outside; [|exact H0].
    apply Forall_forall. intros s _. apply exec_outside. }
  split; [apply FLUX_THROW_outside; exact H0|].
  split.
  { intros fuel prog. specialize (Hprog fuel prog).
    assert (Hfr : frame_outcome thread_start
                    (exec_seq fuel prog thread_start)).
    { apply exec_seq_frame.
      - apply Forall_forall. intros s _. apply exec_frame.
      - apply H0.
      - unfold top_in_range, wtop, FLUX_MAX_DEPTH. simpl. lia. }
    rewrite exec_seq_app.
    destruct (exec_seq fuel prog thread_start) as [w|w|w| |];
      try exact I; try exact Hprog.
    - destruct Hfr as [_ He].
      split; [apply Hprog|]. split; [apply He; reflexivity|].
      unfold exec_seq. cbn [seq_with exec].
      rewrite (FLUX_THROW_outside c m a w Hprog). split; reflexivity.
    - destruct Hfr as [_ He]. apply He. reflexivity. }
  split.
  { assert (Hw : exists w,
              exec_seq 8 [STry [SDefer 1 11 demo_site] [];
                          STry [SThrow 3 (Some demo_msg) demo_site] []]
                thread_start = Returns w)
      by (eexists; vm_compute; reflexivity).
    destruct Hw as [w Hw]. exists w. split; [exact Hw|].
    specialize (Hprog 8%nat [STry [SDefer 1 11 demo_site] [];
                             STry [SThrow 3 (Some demo_msg) demo_site] []]).
    rewrite Hw in Hprog. apply FLUX_THROW_outside. exact Hprog. }
  set (e := __flux_make_error (wrap_int c) m (Some (site_file a))
              (site_line a)).
  eexists. split.
  { apply FLUX_THROW_aborts. cbn [empty_stack_tls set_top top].
    unfold FLUX_MAX_DEPTH. lia. }
  split; [reflexivity|].
  assert (Hmsg : c_str (msg e) =
                 match m with Some s => take 511 (c_str s) | None => [] end).
  { destruct m as [s|]; [|reflexivity].
    unfold e. rewrite make_error_msg.
    change 512%nat with (S 511). apply stored_string_c_str. }
  cbn [stderr]. fold e. rewrite flux_error_print_line, Hmsg.
  destruct m as [s|]; [|reflexivity].
  destruct (c_str s); reflexivity.
Qed.

(** ** Termination of the guard walk *)

Lemma nth_head_None (p : flux_pool) (n : nat) : nth_head p n None = None.
Proof. induction n as [|n IH]; simpl; [reflexivity | exact IH]. Qed.

Lemma nth_head_add (p : flux_pool) (a b : nat) (h : option Z) :
  nth_head p (a + b) h = nth_head p b (nth_head p a h).
Proof.
  revert h. induction a as [|a IH]; intros h; simpl; [reflexivity|].
  apply IH.
Qed.

Lemma nth_head_prefix (p : flux_pool) (n k : nat) (h : option Z) :
  (k <= n)%nat -> is_Some (nth_head p n h) -> is_Some (nth_head p k h).
Proof.
  intros Hk. replace n with (k + (n - k))%nat by lia.
  rewrite nth_head_add. destruct (nth_head p k h); [eauto|].
  rewrite nth_head_None. intros [? [=]].
Qed.

Lemma next_head_Some (p : flux_pool) (h : option Z) :
  is_Some (next_head p h) ->
  exists i, h = Some i /\ 0 <= i < FLUX_POOL_SIZE.
Proof.
  destruct h as [i|]; simpl; [|intros [? [=]]].
  unfold slot_at.
  destruct (Z.leb_spec 0 i) as [H0|H0],
           (Z.ltb_spec i FLUX_POOL_SIZE) as [H1|H1]; simpl.
  - intros _. exists i. split; [reflexivity | lia].
  - intros [? [=]].
  - intros [? [=]].
  - intros [? [=]].
Qed.

Lemma nth_head_in_pool (p : flux_pool) (n k : nat) (h : option Z) :
  (k < n)%nat -> is_Some (nth_head p n h) ->
  exists i, nth_head p k h = Some i /\ 0 <= i < FLUX_POOL_SIZE.
Proof.
  intros Hk Hn. apply (next_head_Some p).
  apply (nth_head_prefix p n (k + 1)) in Hn; [|lia].
  rewrite nth_head_add in Hn. exact Hn.
Qed.

(** The walk runs out of fuel exactly when the head is not null after
    [fuel] links. *)
Lemma release_out_of_fuel (fuel : nat) (p : flux_pool) :
  forall (h : option Z) (c : list call),
    __flux_release_guards fuel p h c = WalkOutOfFuel <->
    is_Some (nth_head p fuel h).
Proof.
  induction fuel as [|fuel IH]; intros h c.
  - destruct h as [i|]; simpl; split; eauto; try discriminate.
    intros [? [=]].
  - destruct h as [i|]; cbn [__flux_release_guards nth_head next_head].
    + destruct (slot_at p i) as [g|].
      * apply IH.
      * rewrite nth_head_None. split; [discriminate | intros [? [=]]].
    + rewrite nth_head_None. split; [discriminate | intros [? [=]]].
Qed.

(** More fuel does not change the result of a walk that has ended. *)
Lemma release_more_fuel (fuel fuel' : nat) (p : flux_pool) :
  forall (h : option Z) (c : list call),
    (fuel <= fuel')%nat ->
    __flux_release_guards fuel p h c <> WalkOutOfFuel ->
    __flux_release_guards fuel' p h c = __flux_release_guards fuel p h c.
Proof.
  revert fuel'. induction fuel as [|fuel IH]; intros fuel' h c Hle Hr.
  - destruct h as [i|]; simpl in *; [congruence|].
    destruct fuel'; reflexivity.
  - destruct fuel' as [|fuel']; [lia|].
    destruct h as [i|]; cbn [__flux_release_guards] in *; [|reflexivity].
    destruct (slot_at p i) as [g|]; [|reflexivity].
    apply IH; [lia | exact Hr].
Qed.

(** Among more heads than the pool has slots, two are the same. *)
Lemma repeated_index (l : list Z) :
  NoDup l \/
  exists j k x, (j < k)%nat /\ l !! j = Some x /\ l !! k = Some x.
Proof.
  induction l as [|x l IH]; [left; constructor|].
  destruct (decide (x ∈ l)) as [Hin|Hnin].
  - right. apply list_elem_of_lookup in Hin as [k Hk].
    exists 0%nat, (S k), x. split; [lia|]. split; [reflexivity | exact Hk].
  - destruct IH as [Hnd|(j & k & y & Hjk & Hj & Hk)].
    + left. constructor; assumption.
    + right. exists (S j), (S k), y. split; [lia|]. split; assumption.
Qed.

Lemma walk_cycles (p : flux_pool) (h : option Z) :
  is_Some (nth_head p (S (Z.to_nat FLUX_POOL_SIZE)) h) ->
  forall n, is_Some (nth_head p n h).
Proof.
  intros Hlong.
  set (N := S (Z.to_nat FLUX_POOL_SIZE)) in *.
  set (l := (fun k => default 0 (nth_head p k h)) <$> seq 0 N).
  assert (Hl : forall k, (k < N)%nat ->
             exists i, nth_head p k h = Some i /\ l !! k = Some i /\
                       0 <= i < FLUX_POOL_SIZE).
  { intros k Hk.
    destruct (nth_head_in_pool p N k h Hk Hlong) as (i & Hi & Hr).
    exists i. split; [exact Hi|]. split; [|exact Hr].
    unfold l. rewrite list_lookup_fmap, lookup_seq_lt by exact Hk.
    simpl. rewrite Hi. reflexivity. }
  assert (Hdup : exists j k x, (j < k < N)%nat /\
             nth_head p j h = Some x /\ nth_head p k h = Some x).
  { destruct (repeated_index l) as [Hnd|(j & k & x & Hjk & Hj & Hk)].
    - exfalso.
      assert (Hsub : l ⊆+ seqZ 0 FLUX_POOL_SIZE).
      { apply NoDup_submseteq; [exact Hnd|].
        intros x Hx. apply list_elem_of_lookup in Hx as [k Hk].
        assert (HkN : (k < N)%nat).
        { apply lookup_lt_Some in Hk. unfold l in Hk.
          rewrite length_fmap, length_seq in Hk. exact Hk. }
        destruct (Hl k HkN) as (i & _ & Hi & Hr).
        rewrite Hk in Hi. injection Hi as ->.
        apply elem_of_seqZ. lia. }
      apply submseteq_length in Hsub.
      unfold l in Hsub.
      rewrite length_fmap, length_seq, length_seqZ in Hsub.
      unfold N in Hsub. lia.
    - assert (HkN : (k < N)%nat).
      { apply lookup_lt_Some in Hk. unfold l in Hk.
        rewrite length_fmap, length_seq in Hk. exact Hk. }
      exists j, k, x. split; [lia|].
      destruct (Hl j ltac:(lia)) as (i & Hi & Hli & _).
      destruct (Hl k HkN) as (i' & Hi' & Hli' & _).
      split; congruence. }
  destruct Hdup as (j & k & x & Hjk & Hj & Hk).
  intros n. induction n as [n IH] using lt_wf_ind.
  destruct (le_lt_dec n N) as [Hle|Hgt].
  - apply (nth_head_prefix p N n h Hle Hlong).
  - replace n with (k + (n - k))%nat by lia.
    rewrite nth_head_add, Hk, <- Hj, <- nth_head_add.
    apply IH. lia.
Qed.

(** X9. The loop of [__flux_release_guards] either ends within 2049
    iterations, and then its result does not depend on how many more it is
    allowed, or it never ends: a walk still under way after 2049 iterations
    goes round a cycle of pool slots. *)
Theorem release_ends_within_pool_or_never
    (p : flux_pool) (h : option Z) (c : list call) (fuel : nat) :
  (__flux_release_guards (S (Z.to_nat FLUX_POOL_SIZE)) p h c =
     WalkOutOfFuel /\
   __flux_release_guards fuel p h c = WalkOutOfFuel) \/
  (__flux_release_guards (S (Z.to_nat FLUX_POOL_SIZE)) p h c <>
     WalkOutOfFuel /\
   ((S (Z.to_nat FLUX_POOL_SIZE) <= fuel)%nat ->
    __flux_release_guards fuel p h c =
    __flux_release_guards (S (Z.to_nat FLUX_POOL_SIZE)) p h c)).
Proof.
  destruct (__flux_release_guards (S (Z.to_nat FLUX_POOL_SIZE)) p h c)
    as [c'| |] eqn:Hr.
  - right. split; [discriminate|]. intros Hle. rewrite <- Hr.
    apply release_more_fuel; [exact Hle | rewrite Hr; discriminate].
  - right. split; [discriminate|]. intros Hle. rewrite <- Hr.
    apply release_more_fuel; [exact Hle | rewrite Hr; discriminate].
  - left. split; [reflexivity|].
    apply release_out_of_fuel. apply walk_cycles.
    apply (release_out_of_fuel _ p h c). exact Hr.
Qed.

(** ** Bodies of registrations *)

Lemma FLUX_DEFER_site (dt p : Z) (a a' : site) (w : world) :
  idx (wpool w) < FLUX_POOL_SIZE ->
  FLUX_DEFER dt p a w = FLUX_DEFER dt p a' w.
Proof.
  intros Hi. rewrite (FLUX_DEFER_settled dt p a), (FLUX_DEFER_settled dt p a').
  unfold FLUX_DEFER, settled, wpool in *.
  cbn [__flux_get_tls tls_slot set_tls]. unfold __flux_acquire_guard.
  destruct (Z.leb_spec FLUX_POOL_SIZE (idx (pool (__flux_get_tls w))));
    [lia | reflexivity].
Qed.

Lemma registrations_length (ss : list stmt) :
  only_defers ss -> length (registrations ss) = length ss.
Proof.
  unfold only_defers, registrations.
  induction 1 as [|s ss [g Hg] _ IH]; simpl; [reflexivity|].
  rewrite Hg. simpl. f_equal. exact IH.
Qed.

Lemma registrations_defers (a : site) (gs : list call) :
  registrations (defers a gs) = gs /\ only_defers (defers a gs).
Proof.
  split.
  - induction gs as [|[d p] gs IH]; [reflexivity|].
    change (registrations (defers a ((d, p) :: gs)))
      with ((d, p) :: registrations (defers a gs)).
    rewrite IH. reflexivity.
  - unfold only_defers, defers. apply Forall_fmap, Forall_forall.
    intros g _. simpl. eauto.
Qed.

(** While the pool has room, the site of a registration plays no part. *)
Lemma exec_seq_only_defers (fuel : nat) (a : site) (ss : list stmt) :
  only_defers ss ->
  forall w,
    0 <= idx (wpool w) ->
    idx (wpool w) + Z.of_nat (length ss) <= FLUX_POOL_SIZE ->
    exec_seq fuel ss w = exec_seq fuel (defers a (registrations ss)) w.
Proof.
  unfold only_defers, registrations, exec_seq.
  induction 1 as [|s ss [g Hg] _ IH]; intros w H0 Hroom; [reflexivity|].
  destruct s as [dt p a'| |]; try discriminate. simpl in Hg.
  injection Hg as <-. simpl in Hroom |- *.
  rewrite (FLUX_DEFER_site dt p a' a) by lia.
  pose proof (FLUX_DEFER_effects dt p a w) as E.
  destruct (FLUX_DEFER dt p a w) as [w1| | | |]; try reflexivity.
  destruct E as (_ & Hi & _); [unfold cursor_in_range; lia|].
  apply IH; lia.
Qed.

(** Nothing that follows a throw in a sequence is executed. *)
Lemma exec_seq_throw_stops (fuel : nat) (k : Z) (m : option (list ascii))
    (a : site) (pre rest : list stmt) (w : world) :
  exec_seq fuel (pre ++ SThrow k m a :: rest) w =
  exec_seq fuel (pre ++ [SThrow k m a]) w.
Proof.
  rewrite !exec_seq_app. destruct (exec_seq fuel pre w) as [w1| | | |];
    try reflexivity.
  unfold exec_seq. cbn [seq_with exec].
  pose proof (FLUX_THROW_effects k m a w1) as E.
  destruct (FLUX_THROW k m a w1); [contradiction | reflexivity..].
Qed.

Section Blocks.

Variables (fuel : nat) (w : world) (ss : list stmt).

Hypothesis Hwf : wf w.
Hypothesis Htop : -1 <= wtop w < FLUX_MAX_DEPTH - 1.
Hypothesis Hss : only_defers ss.
Hypothesis Hlen : (length ss <= Z.to_nat FLUX_POOL_SIZE)%nat.

Lemma block_entry :
  exists w1 s,
    FLUX_TRY w = Returns w1 /\
    stack (__flux_get_tls w) !! Z.to_nat (wtop w + 1) = Some s /\
    exec_seq fuel ss w1 =
      Returns (World (Some (scope_after (__flux_get_tls w) s
                              (registrations ss))) (calls w) (stderr w)).
Proof.
  unfold wtop, wf in *. set (t := __flux_get_tls w) in *.
  assert (Hl : 0 <= top t + 1 < FLUX_MAX_DEPTH)
    by (unfold FLUX_MAX_DEPTH in *; lia).
  destruct (stack_at_wf t (top t + 1) Hwf Hl) as [s Hs].
  rewrite stack_at_lookup in Hs by exact Hl.
  assert (Hlen' : (length (registrations ss) <= Z.to_nat FLUX_POOL_SIZE)%nat)
    by (rewrite registrations_length by exact Hss; exact Hlen).
  destruct (scope_registered fuel demo_site (registrations ss) t (calls w)
              (stderr w) s Hwf Htop Hs Hlen') as (w1 & Htry & Hbody).
  change (World (Some t) (calls w) (stderr w)) with (settled w) in Htry.
  rewrite <- FLUX_TRY_settled in Htry.
  exists w1, s. split; [exact Htry|]. split; [exact Hs|].
  rewrite <- Hbody. apply exec_seq_only_defers; [exact Hss | |].
  - pose proof (FLUX_TRY_effects w) as E. rewrite Htry in E.
    destruct E as (_ & _ & -> & _). lia.
  - pose proof (FLUX_TRY_effects w) as E. rewrite Htry in E.
    destruct E as (_ & _ & -> & _).
    unfold FLUX_POOL_SIZE in *. lia.
Qed.

(** A body of registrations runs to its end and the block leaves through
    the first branch of [FLUX_CATCH]. *)
Lemma run_block_completes :
  exists w',
    run_block fuel ss w = Completed w' /\
    wf w' /\ wtop w' = wtop w /\ calls w' = calls w /\
    stderr w' = stderr w.
Proof.
  destruct block_entry as (w1 & s & Htry & Hs & Hbody).
  pose proof (scope_after_wf (registrations ss) (__flux_get_tls w) s Hwf)
    as Hwf2.
  rewrite registrations_length in Hwf2 by exact Hss.
  specialize (Hwf2 Hlen).
  match type of Hbody with
  | _ = Returns ?W2 =>
      destruct (FLUX_CATCH_exit_total (wtop w + 1) W2) as [w3 Hx];
        [exact Hwf2
        | unfold FLUX_MAX_DEPTH in *; lia
        | unfold wtop, INT_MIN in *;
          cbn [__flux_get_tls tls_slot scope_after top]; lia
        | pose proof (FLUX_CATCH_exit_effects (wtop w + 1) W2) as E;
          pose proof (FLUX_CATCH_exit_depth (wtop w + 1) W2 Hwf2) as D ]
  end.
  rewrite Hx in E, D.
  destruct E as (Ht & _ & He & Hc & _). destruct D as (Hwf3 & _).
  exists w3. unfold run_block. fold (wtop w). rewrite Htry, Hbody, Hx.
  split; [reflexivity|]. split; [exact Hwf3|].
  split; [rewrite Ht; unfold wtop;
          cbn [__flux_get_tls tls_slot scope_after top]; lia|].
  split; assumption.
Qed.

(** A throw after the registrations is caught by the block: the handler
    finds the error as constructed, after the callable guards have been
    called, latest first; what follows the throw in the body is skipped. *)
Lemma run_block_catches (k : Z) (m : option (list ascii)) (a : site)
    (rest : list stmt) :
  (length ss <= fuel)%nat ->
  exists w',
    run_block fuel (ss ++ SThrow k m a :: rest) w =
      Caught w' (__flux_make_error (wrap_int k) m (Some (site_file a))
                   (site_line a)) /\
    wf w' /\ wtop w' = wtop w /\
    calls w' = calls w ++ unwind_calls (registrations ss) /\
    stderr w' = stderr w.
Proof.
  intros Hfuel.
  assert (Hlen' : length (registrations ss) = length ss)
    by (apply registrations_length; exact Hss).
  destruct (scope_throw_unwind fuel a (registrations ss) k m
              (__flux_get_tls w) (calls w) (stderr w) Hwf Htop
              ltac:(lia) ltac:(lia))
    as (w1 & w2 & w3 & Htry & Hbody & Ht2 & _ & Hun & Hc & He & Ht3 & Hwf3
        & Herr & _).
  change (World (Some (__flux_get_tls w)) (calls w) (stderr w))
    with (settled w) in Htry.
  rewrite <- FLUX_TRY_settled in Htry.
  exists w3. unfold run_block. fold (wtop w) in *. rewrite Htry.
  rewrite exec_seq_throw_stops, exec_seq_app.
  rewrite (exec_seq_only_defers fuel a ss Hss w1).
  - rewrite <- exec_seq_app, Hbody. fold (wtop w2).
    rewrite Ht2, Z.eqb_refl, Hun.
    unfold wscope in Herr.
    destruct (stack_at (__flux_get_tls w3) (wtop w + 1)) as [s|];
      [|discriminate].
    simpl in Herr. injection Herr as Herr. rewrite Herr.
    split; [reflexivity|]. split; [exact Hwf3|]. split; [exact Ht3|].
    split; [exact Hc | exact He].
  - pose proof (FLUX_TRY_effects w) as E. rewrite Htry in E.
    destruct E as (_ & _ & -> & _). lia.
  - pose proof (FLUX_TRY_effects w) as E. rewrite Htry in E.
    destruct E as (_ & _ & -> & _). unfold FLUX_POOL_SIZE in *. lia.
Qed.

(** With the pool full, one more registration is a caught limit failure. *)
Lemma run_block_limit (dt p : Z) (a : site) (rest : list stmt) :
  length ss = Z.to_nat FLUX_POOL_SIZE ->
  (length ss <= fuel)%nat ->
  exists w',
    run_block fuel (ss ++ SDefer dt p a :: rest) w =
      Caught w' (__flux_make_error 5
                   (Some (String.list_ascii_of_string
                            "resource limit exceeded"))
                   (Some (site_file a)) (site_line a)) /\
    wf w' /\ wtop w' = wtop w /\
    calls w' = calls w ++ unwind_calls (registrations ss) /\
    stderr w' = stderr w.
Proof.
  intros Hfull Hfuel.
  destruct (run_block_catches 5
              (Some (String.list_ascii_of_string "resource limit exceeded"))
              a [] Hfuel) as (w' & Hb & Hrest).
  change (wrap_int 5) with 5 in Hb.
  exists w'. split; [|exact Hrest].
  rewrite <- Hb. unfold run_block.
  destruct block_entry as (w1 & s & Htry & Hs & Hbody).
  rewrite Htry, !exec_seq_app, Hbody.
  unfold exec_seq. cbn [seq_with exec].
  rewrite FLUX_DEFER_limit.
  - unfold FLUX_THROW_LIMIT.
    match goal with
    | |- context [FLUX_THROW ?k ?m a ?w0] =>
        pose proof (FLUX_THROW_effects k m a w0) as E;
        destruct (FLUX_THROW k m a w0)
    end; [contradiction | reflexivity..].
  - apply scope_after_wf; [exact Hwf|].
    rewrite registrations_length by exact Hss. exact Hlen.
  - cbn [scope_after pool idx].
    rewrite registrations_length by exact Hss. rewrite Hfull. reflexivity.
Qed.

End Blocks.

(** ** Failures seen from the handler *)

(** X10. When the body of a block registers guards and then throws, the
    block catches the failure: the handler starts with the error holding
    the thrown code as converted to [int32_t] (the code itself when it is
    in the range of that type), the line of the throw, the base name of its
    file and the message cut to 511 bytes, after the callable guards have
    been called latest first; the statements after the throw are not
    executed, nothing is written to the diagnostic sink and the stack is
    back at its depth. *)
Theorem caught_failure_reaches_handler
    (fuel : nat) (w : world) (ss rest handler : list stmt)
    (k : Z) (m : option (list ascii)) (a : site) :
  wf w ->
  -1 <= wtop w < FLUX_MAX_DEPTH - 1 ->
  only_defers ss ->
  (length ss <= Z.to_nat FLUX_POOL_SIZE)%nat ->
  (length ss <= fuel)%nat ->
  exists w' e,
    run_block fuel (ss ++ SThrow k m a :: rest) w = Caught w' e /\
    exec fuel (STry (ss ++ SThrow k m a :: rest) handler) w =
      exec_seq fuel handler w' /\
    code e = wrap_int k /\
    (INT_MIN <= k <= INT_MAX -> code e = k) /\
    line e = site_line a /\
    c_str (msg e) =
      match m with Some s => take 511 (c_str s) | None => [] end /\
    c_str (file e) = take 63 (c_str (basename (site_file a))) /\
    calls w' = calls w ++ unwind_calls (registrations ss) /\
    stderr w' = stderr w /\
    wtop w' = wtop w.
Proof.
  intros Hwf Htop Hss Hlen Hfuel.
  destruct (run_block_catches fuel w ss Hwf Htop Hss Hlen k m a rest Hfuel)
    as (w' & Hb & _ & Ht & Hc & He).
  exists w', (__flux_make_error (wrap_int k) m (Some (site_file a))
                (site_line a)).
  split; [exact Hb|].
  split; [rewrite exec_STry_run_block, Hb; reflexivity|].
  split; [reflexivity|].
  split; [intros Hk; apply wrap_int_small; exact Hk|].
  split; [reflexivity|].
  split.
  { destruct m as [s|]; [|reflexivity].
    rewrite make_error_msg. change 512%nat with (S 511).
    apply stored_string_c_str. }
  split.
  { rewrite make_error_file. change 64%nat with (S 63).
    apply stored_string_c_str. }
  repeat split; assumption.
Qed.

Lemma caught_failure_reaches_handler_witness :
  exists w' e,
    run_block 8 ([SDefer 1 11 demo_site; SDefer 2 22 demo_site] ++
                 SThrow 4 (Some demo_msg) demo_site ::
                 [SDefer 3 33 demo_site]) thread_start = Caught w' e /\
    code e = 4 /\ c_str (msg e) = demo_msg /\
    c_str (file e) = String.list_ascii_of_string "c.txt" /\
    calls w' = [(2, 22); (1, 11)].
Proof.
  destruct (caught_failure_reaches_handler 8 thread_start
              [SDefer 1 11 demo_site; SDefer 2 22 demo_site]
              [SDefer 3 33 demo_site] [] 4 (Some demo_msg) demo_site)
    as (w' & e & Hb & _ & Hk & _ & _ & Hm & Hf & Hc & _).
  - split; reflexivity.
  - unfold wtop, FLUX_MAX_DEPTH. simpl. lia.
  - repeat constructor; simpl; eauto.
  - unfold FLUX_POOL_SIZE. simpl length. lia.
  - simpl length. lia.
  - exists w', e. split; [exact Hb|]. split; [exact Hk|].
    split; [exact Hm|]. split; [exact Hf|]. exact Hc.
Defined.

(** ** The allocating wrappers *)

Lemma alloc_call_success (L : libc) (a : site) (W : list stmt) (p : Z) :
  alloc_call L a W p -> p <> 0 -> W = [SDefer (free L) p a].
Proof.
  intros [sz|n sz|old sz|str] Hp; simpl in *;
    apply Z.eqb_neq in Hp; rewrite Hp; reflexivity.
Qed.

Lemma alloc_call_failure (L : libc) (a : site) (W : list stmt) :
  alloc_call L a W 0 -> exists tl, W = FLUX_THROW_MEMORY a :: tl.
Proof.
  intros H. inversion H as [sz Hw Hp|n sz Hw Hp|old sz Hw Hp|str Hw Hp];
    simpl in *; rewrite Hp; simpl; eauto.
Qed.

Lemma successful_allocations (L : libc) (Ws : list (list stmt))
    (ps : list Z) :
  Forall2 (fun W p => p <> 0 /\ exists a, alloc_call L a W p) Ws ps ->
  only_defers (concat Ws) /\
  registrations (concat Ws) = (fun p => (free L, p)) <$> ps /\
  length (concat Ws) = length ps.
Proof.
  induction 1 as [|W p Ws ps (Hp & a & Hw) _ (IH1 & IH2 & IH3)].
  - split; [constructor|]. split; reflexivity.
  - rewrite (alloc_call_success L a W p Hw Hp).
    change (concat ([SDefer (free L) p a] :: Ws))
      with (SDefer (free L) p a :: concat Ws).
    change (registrations (SDefer (free L) p a :: concat Ws))
      with ((free L, p) :: registrations (concat Ws)).
    split; [constructor; [simpl; eauto | exact IH1]|].
    split; [rewrite IH2; reflexivity | simpl; rewrite IH3; reflexivity].
Qed.

Lemma unwind_calls_free (f : Z) (ps : list Z) :
  f <> 0 -> Forall (fun p => p <> 0) ps ->
  unwind_calls ((fun p => (f, p)) <$> ps) =
  reverse ((fun p => (f, p)) <$> ps).
Proof.
  intros Hf Hps. apply unwind_calls_all.
  induction Hps as [|p ps Hp _ IH]; [reflexivity|].
  change (callable (f, p) &&
          forallb callable ((fun p => (f, p)) <$> ps) = true).
  rewrite IH, andb_true_r. unfold callable. simpl.
  apply Z.eqb_neq in Hf, Hp. rewrite Hf, Hp. reflexivity.
Qed.

(** X11. In a scope whose body is a series of successful calls of
    [FLUX_MALLOC], [FLUX_CALLOC], [FLUX_REALLOC] and [FLUX_STRDUP]: if a
    failure is then signalled, the unwind calls [free] once for each wrapper
    call, on the pointer that call returned, latest first, before the
    handler starts; if the body runs to its end, [free] is not called at
    all. *)
Theorem allocations_freed_latest_first
    (fuel : nat) (L : libc) (w : world) (Ws : list (list stmt))
    (ps : list Z) (rest : list stmt)
    (k : Z) (m : option (list ascii)) (a : site) :
  wf w ->
  -1 <= wtop w < FLUX_MAX_DEPTH - 1 ->
  free L <> 0 ->
  Forall2 (fun W p => p <> 0 /\ exists a', alloc_call L a' W p) Ws ps ->
  (length ps <= Z.to_nat FLUX_POOL_SIZE)%nat ->
  (length ps <= fuel)%nat ->
  (exists w',
     run_block fuel (concat Ws ++ SThrow k m a :: rest) w =
       Caught w' (__flux_make_error (wrap_int k) m (Some (site_file a))
                    (site_line a)) /\
     calls w' = calls w ++ reverse ((fun p => (free L, p)) <$> ps)) /\
  (exists w',
     run_block fuel (concat Ws) w = Completed w' /\
     calls w' = calls w).
Proof.
  intros Hwf Htop Hfree HWs Hlen Hfuel.
  destruct (successful_allocations L Ws ps HWs) as (Hss & Hreg & Hl).
  assert (Hps : Forall (fun p => p <> 0) ps).
  { clear -HWs. induction HWs as [|W p Ws ps [Hp _] _ IH];
      constructor; assumption. }
  split.
  - destruct (run_block_catches fuel w (concat Ws) Hwf Htop Hss
                ltac:(lia) k m a rest ltac:(lia))
      as (w' & Hb & _ & _ & Hc & _).
    exists w'. split; [exact Hb|].
    rewrite Hc, Hreg, unwind_calls_free by assumption. reflexivity.
  - destruct (run_block_completes fuel w (concat Ws) Hwf Htop Hss
                ltac:(lia)) as (w' & Hb & _ & _ & Hc & _).
    exists w'. split; assumption.
Qed.

Lemma allocations_freed_latest_first_witness :
  exists w' e,
    run_block 8 (fst (FLUX_MALLOC demo_libc 24 demo_site) ++
                 fst (FLUX_STRDUP demo_libc (Some demo_msg) demo_site) ++
                 [SThrow 4 (Some demo_msg) demo_site]) thread_start =
      Caught w' e /\
    calls w' = [(1, 9000); (1, 1024)].
Proof.
  destruct (allocations_freed_latest_first 8 demo_libc thread_start
              [fst (FLUX_MALLOC demo_libc 24 demo_site);
               fst (FLUX_STRDUP demo_libc (Some demo_msg) demo_site)]
              [1024; 9000] [] 4 (Some demo_msg) demo_site)
    as [(w' & Hb & Hc) _].
  - split; reflexivity.
  - unfold wtop, FLUX_MAX_DEPTH. simpl. lia.
  - discriminate.
  - constructor; [split; [discriminate|]; exists demo_site;
                  apply (alloc_malloc demo_libc demo_site 24)|].
    constructor; [split; [discriminate|]; exists demo_site;
                  apply (alloc_strdup demo_libc demo_site demo_msg)|].
    constructor.
  - unfold FLUX_POOL_SIZE. simpl length. lia.
  - simpl length. lia.
  - exists w', (__flux_make_error 4 (Some demo_msg)
                  (Some (site_file demo_site)) (site_line demo_site)).
    split; [exact Hb | exact Hc].
Defined.

(** X12. When the library call of an allocating wrapper returns null, the
    wrapper registers nothing and throws code 2 with the message
    [out of memory]; the enclosing block catches it after unwinding the
    guards registered before, and the code after the wrapper is skipped. *)
Theorem allocation_failure_is_caught
    (fuel : nat) (L : libc) (w : world) (ss W rest : list stmt) (a : site) :
  wf w ->
  -1 <= wtop w < FLUX_MAX_DEPTH - 1 ->
  only_defers ss ->
  (length ss <= Z.to_nat FLUX_POOL_SIZE)%nat ->
  (length ss <= fuel)%nat ->
  alloc_call L a W 0 ->
  exists w' e,
    run_block fuel (ss ++ W ++ rest) w = Caught w' e /\
    code e = 2 /\
    c_str (msg e) = String.list_ascii_of_string "out of memory" /\
    line e = site_line a /\
    calls w' = calls w ++ unwind_calls (registrations ss) /\
    stderr w' = stderr w /\
    wtop w' = wtop w.
Proof.
  intros Hwf Htop Hss Hlen Hfuel HW.
  destruct (alloc_call_failure L a W HW) as [tl ->].
  destruct (run_block_catches fuel w ss Hwf Htop Hss Hlen 2
              (Some (String.list_ascii_of_string "out of memory")) a
              (tl ++ rest) Hfuel) as (w' & Hb & _ & Ht & Hc & He).
  do 2 eexists. split; [exact Hb|].
  repeat split; assumption.
Qed.

Lemma allocation_failure_is_caught_witness :
  exists w' e,
    run_block 8 ([SDefer 1 11 demo_site] ++
                 fst (FLUX_MALLOC
                        {| free := 1; fclose := 2; close := 3;
                           malloc := fun _ => 0;
                           calloc := fun _ _ => 0;
                           realloc := fun _ _ => 0;
                           strdup := fun _ => 0;
                           fopen := fun _ _ => 0 |} 64 demo_site) ++
                 [SDefer 2 22 demo_site]) thread_start = Caught w' e /\
    code e = 2 /\ calls w' = [(1, 11)].
Proof.
  set (L := {| free := 1; fclose := 2; close := 3;
               malloc := fun _ => 0; calloc := fun _ _ => 0;
               realloc := fun _ _ => 0; strdup := fun _ => 0;
               fopen := fun _ _ => 0 |}).
  destruct (allocation_failure_is_caught 8 L thread_start
              [SDefer 1 11 demo_site] (fst (FLUX_MALLOC L 64 demo_site))
              [SDefer 2 22 demo_site] demo_site)
    as (w' & e & Hb & Hk & _ & _ & Hc & _).
  - split; reflexivity.
  - unfold wtop, FLUX_MAX_DEPTH. simpl. lia.
  - repeat constructor; simpl; eauto.
  - unfold FLUX_POOL_SIZE. simpl length. lia.
  - simpl length. lia.
  - apply (alloc_malloc L demo_site 64).
  - exists w', e. split; [exact Hb|]. split; [exact Hk | exact Hc].
Defined.

(** X13. [FLUX_REALLOC] registers a guard for the new block and leaves the
    guard of the old one in place: for a block obtained with [FLUX_MALLOC]
    and then resized in the same scope, a later failure makes the unwind
    call [free] on the new pointer and then on the old one, which are the
    same pointer when [realloc] resized in place. *)
Theorem realloc_keeps_old_guard
    (fuel : nat) (L : libc) (w : world) (sz new_sz : Z) (a1 a2 a : site)
    (k : Z) (m : option (list ascii)) (rest : list stmt) :
  let p := snd (FLUX_MALLOC L sz a1) in
  let q := snd (FLUX_REALLOC L p new_sz a2) in
  wf w ->
  -1 <= wtop w < FLUX_MAX_DEPTH - 1 ->
  free L <> 0 -> p <> 0 -> q <> 0 ->
  (2 <= fuel)%nat ->
  exists w',
    run_block fuel (fst (FLUX_MALLOC L sz a1) ++
                    fst (FLUX_REALLOC L p new_sz a2) ++
                    SThrow k m a :: rest) w =
      Caught w' (__flux_make_error (wrap_int k) m (Some (site_file a))
                   (site_line a)) /\
    calls w' = calls w ++ [(free L, q); (free L, p)].
Proof.
  intros p q Hwf Htop Hfree Hp Hq Hfuel.
  assert (HWs : Forall2
            (fun W r => r <> 0 /\ exists a', alloc_call L a' W r)
            [fst (FLUX_MALLOC L sz a1); fst (FLUX_REALLOC L p new_sz a2)]
            [p; q]).
  { constructor; [split; [exact Hp|]; exists a1; apply alloc_malloc|].
    constructor; [split; [exact Hq|]; exists a2; apply alloc_realloc|].
    constructor. }
  destruct (successful_allocations L _ _ HWs) as (Hss & Hreg & Hl).
  change (length [p; q]) with 2%nat in Hl.
  destruct (run_block_catches fuel w _ Hwf Htop Hss
              ltac:(rewrite Hl; unfold FLUX_POOL_SIZE; lia) k m a rest
              ltac:(rewrite Hl; lia))
    as (w' & Hb & _ & _ & Hc & _).
  exists w'. split.
  - rewrite <- Hb. f_equal. simpl concat. rewrite app_nil_r, <- app_assoc.
    reflexivity.
  - rewrite Hc, Hreg, unwind_calls_free.
    + reflexivity.
    + exact Hfree.
    + repeat constructor; assumption.
Qed.

Lemma realloc_keeps_old_guard_witness :
  exists w' e,
    run_block 8 (fst (FLUX_MALLOC demo_libc 24 demo_site) ++
                 fst (FLUX_REALLOC demo_libc 1024 48 demo_site) ++
                 [SThrow 4 (Some demo_msg) demo_site]) thread_start =
      Caught w' e /\
    calls w' = [(1, 1040); (1, 1024)].
Proof.
  destruct (realloc_keeps_old_guard 8 demo_libc thread_start 24 48
              demo_site demo_site demo_site 4 (Some demo_msg) [])
    as (w' & Hb & Hc).
  - split; reflexivity.
  - unfold wtop, FLUX_MAX_DEPTH. simpl. lia.
  - discriminate.
  - discriminate.
  - discriminate.
  - lia.
  - exists w', (__flux_make_error 4 (Some demo_msg)
                  (Some (site_file demo_site)) (site_line demo_site)).
    split; [exact Hb | exact Hc].
Defined.



(** ** Opening files *)

Lemma c_str_id (s : list ascii) : no_char NUL s -> c_str s = s.
Proof.
  unfold no_char. induction 1 as [|x s Hx _ IH]; simpl; [reflexivity|].
  destruct (Ascii.eqb_spec x NUL); [contradiction|]. f_equal. exact IH.
Qed.

(** The text [FLUX_FOPEN] reports, before it is cut. *)
Lemma fopen_failed_text (path mode : list ascii) :
  fopen_failed path mode =
  Some (take 255 (String.list_ascii_of_string "fopen('" ++ c_str path ++
                  String.list_ascii_of_string "', '" ++ c_str mode ++
                  String.list_ascii_of_string "') failed")).
Proof.
  unfold fopen_failed, snprintf.
  cbn [fprintf option_map]. rewrite app_nil_r. reflexivity.
Qed.

Lemma fopen_failed_no_nul (path mode : list ascii) :
  no_char NUL
    (take 255 (String.list_ascii_of_string "fopen('" ++ c_str path ++
               String.list_ascii_of_string "', '" ++ c_str mode ++
               String.list_ascii_of_string "') failed")).
Proof.
  unfold no_char. apply Forall_take. rewrite !Forall_app.
  repeat split; try apply c_str_no_nul;
    simpl; repeat constructor; discriminate.
Qed.

Lemma FLUX_FOPEN_success (L : libc) (path mode : list ascii) (a : site) :
  fopen L path mode <> 0 ->
  fst (FLUX_FOPEN L path mode a) = [SDefer (fclose L) (fopen L path mode) a].
Proof.
  intros H. apply Z.eqb_neq in H. unfold FLUX_FOPEN. simpl.
  rewrite H. reflexivity.
Qed.

Lemma FLUX_FOPEN_failure (L : libc) (path mode : list ascii) (a : site) :
  fopen L path mode = 0 ->
  fst (FLUX_FOPEN L path mode a) =
  [FLUX_THROW_FILE (fopen_failed path mode) a; SDefer (fclose L) 0 a].
Proof. intros H. unfold FLUX_FOPEN. simpl. rewrite H. reflexivity. Qed.

(** X15. When [fopen] returns null, [FLUX_FOPEN] registers nothing and
    throws code 1 with the message [fopen('<path>', '<mode>') failed], cut
    to the 255 bytes of its buffer; the enclosing block catches it after
    unwinding the guards registered before. When [fopen] returns a stream
    and the pool has a free slot, the wrapper yields the stream and
    registers [fclose] for it: a failure signalled later in the scope makes
    the unwind call [fclose] on the stream, before the guards registered
    earlier. *)
Theorem fopen_failure_is_caught
    (fuel : nat) (L : libc) (w : world) (ss rest : list stmt)
    (path mode : list ascii) (a : site) :
  wf w ->
  -1 <= wtop w < FLUX_MAX_DEPTH - 1 ->
  only_defers ss ->
  (length ss <= Z.to_nat FLUX_POOL_SIZE)%nat ->
  (length ss <= fuel)%nat ->
  (fopen L path mode = 0 ->
   exists w' e,
     run_block fuel (ss ++ fst (FLUX_FOPEN L path mode a) ++ rest) w =
       Caught w' e /\
     code e = 1 /\
     c_str (msg e) =
       take 255 (String.list_ascii_of_string "fopen('" ++ c_str path ++
                 String.list_ascii_of_string "', '" ++ c_str mode ++
                 String.list_ascii_of_string "') failed") /\
     line e = site_line a /\
     calls w' = calls w ++ unwind_calls (registrations ss) /\
     stderr w' = stderr w) /\
  (fopen L path mode <> 0 ->
   fclose L <> 0 ->
   (length ss < Z.to_nat FLUX_POOL_SIZE)%nat ->
   (length ss < fuel)%nat ->
   forall (k : Z) (m : option (list ascii)) (a' : site),
   exists w',
     run_block fuel
       (ss ++ fst (FLUX_FOPEN L path mode a) ++ SThrow k m a' :: rest) w =
       Caught w' (__flux_make_error (wrap_int k) m (Some (site_file a'))
                    (site_line a')) /\
     snd (FLUX_FOPEN L path mode a) = fopen L path mode /\
     calls w' =
       calls w ++
       (fclose L, fopen L path mode) :: unwind_calls (registrations ss)).
Proof.
  intros Hwf Htop Hss Hlen Hfuel. split.
  - intros Hf. rewrite (FLUX_FOPEN_failure L path mode a Hf).
    destruct (run_block_catches fuel w ss Hwf Htop Hss Hlen 1
                (fopen_failed path mode) a
                ([SDefer (fclose L) 0 a] ++ rest) Hfuel)
      as (w' & Hb & _ & _ & Hc & He).
    do 2 eexists. split; [exact Hb|].
    split; [reflexivity|].
    split; [|repeat split; assumption].
    rewrite fopen_failed_text, make_error_msg.
    change 512%nat with (S 511). rewrite stored_string_c_str.
    rewrite c_str_id by apply fopen_failed_no_nul.
    rewrite take_take. reflexivity.
  - intros Hf Hcl Hroom Hfuel' k m a'.
    rewrite (FLUX_FOPEN_success L path mode a Hf), app_assoc.
    set (g := SDefer (fclose L) (fopen L path mode) a).
    assert (Hss' : only_defers (ss ++ [g])).
    { apply Forall_app. split; [exact Hss|].
      repeat constructor. simpl. eauto. }
    assert (Hlen' : (length (ss ++ [g]) <= Z.to_nat FLUX_POOL_SIZE)%nat)
      by (rewrite length_app; simpl length; lia).
    destruct (run_block_catches fuel w _ Hwf Htop Hss' Hlen' k m a' rest)
      as (w' & Hb & _ & _ & Hc & _);
      [rewrite length_app; simpl length; lia|].
    exists w'. split; [exact Hb|]. split; [reflexivity|].
    rewrite Hc. f_equal. unfold registrations. rewrite omap_app.
    change (omap guard_of [g]) with [(fclose L, fopen L path mode)].
    rewrite unwind_calls_snoc. unfold callable. cbn [fst snd].
    apply Z.eqb_neq in Hf, Hcl. rewrite Hf, Hcl. reflexivity.
Qed.

Lemma fopen_failure_is_caught_witness :
  (exists w' e,
     run_block 8 ([SDefer 1 11 demo_site] ++
                  fst (FLUX_FOPEN demo_libc
                         (String.list_ascii_of_string "a.txt")
                         (String.list_ascii_of_string "r") demo_site) ++ [])
       thread_start = Caught w' e /\
     code e = 1 /\
     c_str (msg e) =
       String.list_ascii_of_string "fopen('a.txt', 'r') failed" /\
     calls w' = [(1, 11)]) /\
  (exists w' e,
     run_block 8 ([SDefer 1 11 demo_site] ++
                  fst (FLUX_FOPEN demo_libc
                         (String.list_ascii_of_string "a.txt")
                         (String.list_ascii_of_string "w") demo_site) ++
                  SThrow 4 (Some demo_msg) demo_site :: [])
       thread_start = Caught w' e /\
     calls w' = [(2, 7000); (1, 11)]).
Proof.
  split.
  - destruct (fopen_failure_is_caught 8 demo_libc thread_start
                [SDefer 1 11 demo_site] []
                (String.list_ascii_of_string "a.txt")
                (String.list_ascii_of_string "r") demo_site) as [Hfail _].
    + split; reflexivity.
    + unfold wtop, FLUX_MAX_DEPTH. simpl. lia.
    + repeat constructor; simpl; eauto.
    + unfold FLUX_POOL_SIZE. simpl length. lia.
    + simpl length. lia.
    + destruct (Hfail eq_refl) as (w' & e & Hb & Hk & Hm & _ & Hc & _).
      exists w', e. split; [exact Hb|]. split; [exact Hk|].
      split; [exact Hm | exact Hc].
  - destruct (fopen_failure_is_caught 8 demo_libc thread_start
                [SDefer 1 11 demo_site] []
                (String.list_ascii_of_string "a.txt")
                (String.list_ascii_of_string "w") demo_site) as [_ Hok].
    + split; reflexivity.
    + unfold wtop, FLUX_MAX_DEPTH. simpl. lia.
    + repeat constructor; simpl; eauto.
    + unfold FLUX_POOL_SIZE. simpl length. lia.
    + simpl length. lia.
    + destruct (Hok ltac:(discriminate) ltac:(discriminate)
                  ltac:(unfold FLUX_POOL_SIZE; simpl length; lia)
                  ltac:(simpl length; lia)
                  4 (Some demo_msg) demo_site) as (w' & Hb & _ & Hc).
      exists w'. eexists. split; [exact Hb | exact Hc].
Defined.

(** X16. With 2048 guards registered in the scope, a wrapper whose library
    call succeeds cannot register its guard: it throws the limit failure,
    code 5, and the unwind calls the 2048 earlier guards only, so the block
    just obtained is released by nobody. *)
Theorem allocation_unguarded_when_pool_full
    (fuel : nat) (L : libc) (w : world) (ss W rest : list stmt) (p : Z)
    (a : site) :
  wf w ->
  -1 <= wtop w < FLUX_MAX_DEPTH - 1 ->
  only_defers ss ->
  length ss = Z.to_nat FLUX_POOL_SIZE ->
  (length ss <= fuel)%nat ->
  alloc_call L a W p ->
  p <> 0 ->
  exists w' e,
    run_block fuel (ss ++ W ++ rest) w = Caught w' e /\
    code e = 5 /\
    c_str (msg e) = String.list_ascii_of_string "resource limit exceeded" /\
    calls w' = calls w ++ unwind_calls (registrations ss) /\
    wtop w' = wtop w.
Proof.
  intros Hwf Htop Hss Hlen Hfuel HW Hp.
  rewrite (alloc_call_success L a W p HW Hp).
  destruct (run_block_limit fuel w ss Hwf Htop Hss ltac:(lia)
              (free L) p a rest Hlen Hfuel)
    as (w' & Hb & _ & Ht & Hc & _).
  do 2 eexists. split; [exact Hb|].
  repeat split; assumption.
Qed.

Lemma allocation_unguarded_when_pool_full_witness :
  exists w' e,
    run_block 2048
      (defers demo_site (replicate 2048 (1, 11)) ++
       fst (FLUX_MALLOC demo_libc 24 demo_site) ++ []) thread_start =
      Caught w' e /\
    code e = 5 /\
    calls w' = unwind_calls (replicate 2048 (1, 11)).
Proof.
  destruct (registrations_defers demo_site (replicate 2048 (1, 11)))
    as [Hreg Hss].
  destruct (allocation_unguarded_when_pool_full 2048 demo_libc thread_start
              (defers demo_site (replicate 2048 (1, 11)))
              (fst (FLUX_MALLOC demo_libc 24 demo_site)) [] 1024 demo_site)
    as (w' & e & Hb & Hk & _ & Hc & _).
  - split; reflexivity.
  - unfold wtop, FLUX_MAX_DEPTH. simpl. lia.
  - exact Hss.
  - unfold defers. rewrite length_map, length_replicate. reflexivity.
  - unfold defers. rewrite length_map, length_replicate. lia.
  - apply (alloc_malloc demo_libc demo_site 24).
  - discriminate.
  - exists w', e. split; [exact Hb|]. split; [exact Hk|].
    rewrite Hc, Hreg. reflexivity.
Defined.

(** ** The demonstration program *)

Section Main.

Variables (L : libc) (fuel : nat) (src : list ascii) (w : world).

Hypothesis Hwf : wf w.
Hypothesis Htop : -1 <= wtop w < FLUX_MAX_DEPTH - 1.

Lemma main_first_block :
  main_buffer L <> 0 -> main_file L <> 0 ->
  exists w1,
    run_block fuel
      (fst (FLUX_MALLOC L 1024 (main_site src 6)) ++
       fst (FLUX_FOPEN L (String.list_ascii_of_string "test.txt")
              (String.list_ascii_of_string "w") (main_site src 7))) w =
      Completed w1 /\
    wf w1 /\ wtop w1 = wtop w /\ calls w1 = calls w /\ stderr w1 = stderr w.
Proof.
  intros Hb Hf.
  rewrite (alloc_call_success L _ _ (main_buffer L)
             (alloc_malloc L _ 1024) Hb).
  rewrite (FLUX_FOPEN_success L _ _ _ Hf).
  apply run_block_completes; try assumption.
  - repeat constructor; simpl; eauto.
  - unfold FLUX_POOL_SIZE. simpl length. lia.
Qed.

Lemma main_second_block (w1 : world) :
  wf w1 -> wtop w1 = wtop w -> main_arr L <> 0 ->
  exists w2,
    run_block fuel (fst (FLUX_CALLOC L 1000 4 (main_site src 17))) w1 =
      Completed w2 /\
    wf w2 /\ wtop w2 = wtop w /\ calls w2 = calls w1 /\
    stderr w2 = stderr w1.
Proof.
  intros Hwf1 Ht1 Ha.
  rewrite (alloc_call_success L _ _ (main_arr L)
             (alloc_calloc L _ 1000 4) Ha).
  destruct (run_block_completes fuel w1
              [SDefer (free L) (main_arr L) (main_site src 17)])
    as (w2 & Hb & Hwf2 & Ht2 & Hc & He); try assumption.
  - rewrite Ht1. exact Htop.
  - repeat constructor; simpl; eauto.
  - unfold FLUX_POOL_SIZE. simpl length. lia.
  - exists w2. split; [exact Hb|]. split; [exact Hwf2|].
    split; [congruence|]. split; assumption.
Qed.

End Main.

Lemma printed_when_not_empty (e : flux_error) (out : list ascii) :
  c_str (msg e) <> [] ->
  flux_error_print (Some e) out = out ++ printed_line e.
Proof.
  intros H. rewrite flux_error_print_line.
  destruct (c_str (msg e)); [congruence | reflexivity].
Qed.

(** X17. When its two allocations and its first [fopen] succeed, [main]
    exits with status 0 without a single cleanup call having been made:
    the buffer and the array are never freed and the file is never closed.
    The stack is back at its depth, and [stderr] has received one line,
    for the failure of the second [fopen], or nothing if that call
    succeeded. *)
Theorem main_succeeds_without_cleanup
    (L : libc) (fuel : nat) (src : list ascii) (w : world) :
  wf w ->
  -1 <= wtop w < FLUX_MAX_DEPTH - 1 ->
  main_buffer L <> 0 ->
  main_file L <> 0 ->
  main_arr L <> 0 ->
  exists w',
    main L fuel src w = Exit 0 w' /\
    calls w' = calls w /\
    wtop w' = wtop w /\
    stderr w' =
      stderr w ++
      (if main_missing L =? 0
       then printed_line
              (__flux_make_error 1
                 (fopen_failed
                    (String.list_ascii_of_string "nonexistent.txt")
                    (String.list_ascii_of_string "r"))
                 (Some src) 26)
       else []).
Proof.
  intros Hwf Htop Hb Hf Ha.
  destruct (main_first_block L fuel src w Hwf Htop Hb Hf)
    as (w1 & Hb1 & Hwf1 & Ht1 & Hc1 & He1).
  destruct (main_second_block L fuel src w Htop w1 Hwf1 Ht1 Ha)
    as (w2 & Hb2 & Hwf2 & Ht2 & Hc2 & He2).
  assert (Htop2 : -1 <= wtop w2 < FLUX_MAX_DEPTH - 1)
    by (rewrite Ht2; exact Htop).
  unfold main. rewrite Hb1, Hb2.
  destruct (Z.eqb_spec (main_missing L) 0) as [H0|H0].
  - rewrite (FLUX_FOPEN_failure L _ _ _ H0).
    destruct (run_block_catches fuel w2 [] Hwf2 Htop2
                ltac:(constructor) ltac:(simpl; lia) 1
                (fopen_failed
                   (String.list_ascii_of_string "nonexistent.txt")
                   (String.list_ascii_of_string "r"))
                (main_site src 26)
                [SDefer (fclose L) 0 (main_site src 26)]
                ltac:(simpl; lia))
      as (w3 & Hb3 & _ & Ht3 & Hc3 & He3).
    cbn [app] in Hb3. unfold FLUX_THROW_FILE. rewrite Hb3.
    eexists. split; [reflexivity|]. cbn [calls stderr].
    split; [rewrite Hc3, app_nil_r; congruence|].
    split; [change (wtop w3 = wtop w); congruence|].
    rewrite printed_when_not_empty.
    + rewrite He3, He2, He1. reflexivity.
    + rewrite fopen_failed_text, make_error_msg.
      change 512%nat with (S 511). rewrite stored_string_c_str.
      rewrite c_str_id by apply fopen_failed_no_nul.
      discriminate.
  - rewrite (FLUX_FOPEN_success L _ _ _ H0).
    destruct (run_block_completes fuel w2
                [SDefer (fclose L) (main_missing L) (main_site src 26)]
                Hwf2 Htop2)
      as (w3 & Hb3 & _ & Ht3 & Hc3 & He3).
    + repeat constructor; simpl; eauto.
    + unfold FLUX_POOL_SIZE. simpl length. lia.
    + unfold main_missing in Hb3. rewrite Hb3.
      exists w3. split; [reflexivity|].
      split; [congruence|]. split; [congruence|].
      rewrite app_nil_r. congruence.
Qed.

Lemma main_succeeds_without_cleanup_witness :
  exists w',
    main demo_libc 0 (String.list_ascii_of_string "src/main.c")
      thread_start = Exit 0 w' /\
    calls w' = [] /\
    stderr w' =
      String.list_ascii_of_string
        "🔥 [main.c:26] ERR 1: fopen('nonexistent.txt', 'r') failed" ++
      [LF].
Proof.
  destruct (main_succeeds_without_cleanup demo_libc 0
              (String.list_ascii_of_string "src/main.c") thread_start)
    as (w' & Hm & Hc & _ & He).
  - split; reflexivity.
  - unfold wtop, FLUX_MAX_DEPTH. simpl. lia.
  - discriminate.
  - discriminate.
  - discriminate.
  - exists w'. split; [exact Hm|]. split; [exact Hc|].
    rewrite He. reflexivity.
Defined.

Lemma message_stored_not_empty (k : Z) (m : list ascii)
    (f : option (list ascii)) (ln : Z) :
  c_str m <> [] -> c_str (msg (__flux_make_error k (Some m) f ln)) <> [].
Proof.
  intros H. rewrite make_error_msg. change 512%nat with (S 511).
  rewrite stored_string_c_str. destruct (c_str m); [congruence|].
  discriminate.
Qed.

(** X18. The failure paths of [main], with a non-null [free]. If [malloc]
    fails, [main] prints the out-of-memory line for line 6 and exits with
    status 1 without any cleanup call. If [malloc] succeeds and the first
    [fopen] fails, the buffer is freed, once, the line for line 7 is printed
    and the status is 1. If the first block succeeds and [calloc] fails, the
    line for line 17 is printed and the status is 1, and no cleanup call is
    made: the buffer and the file of the first block are not released. *)
Theorem main_failure_paths
    (L : libc) (fuel : nat) (src : list ascii) (w : world) :
  wf w ->
  -1 <= wtop w < FLUX_MAX_DEPTH - 1 ->
  free L <> 0 ->
  (1 <= fuel)%nat ->
  (main_buffer L = 0 ->
   exists w',
     main L fuel src w = Exit 1 w' /\
     calls w' = calls w /\
     stderr w' =
       stderr w ++
       printed_line
         (__flux_make_error 2
            (Some (String.list_ascii_of_string "out of memory"))
            (Some src) 6)) /\
  (main_buffer L <> 0 -> main_file L = 0 ->
   exists w',
     main L fuel src w = Exit 1 w' /\
     calls w' = calls w ++ [(free L, main_buffer L)] /\
     stderr w' =
       stderr w ++
       printed_line
         (__flux_make_error 1
            (fopen_failed (String.list_ascii_of_string "test.txt")
               (String.list_ascii_of_string "w"))
            (Some src) 7)) /\
  (main_buffer L <> 0 -> main_file L <> 0 -> main_arr L = 0 ->
   exists w',
     main L fuel src w = Exit 1 w' /\
     calls w' = calls w /\
     stderr w' =
       stderr w ++
       printed_line
         (__flux_make_error 2
            (Some (String.list_ascii_of_string "out of memory"))
            (Some src) 17)).
Proof.
  intros Hwf Htop Hfree Hfuel. split; [|split].
  - intros Hb.
    pose proof (alloc_malloc L (main_site src 6) 1024) as HW.
    change (snd (FLUX_MALLOC L 1024 (main_site src 6)))
      with (main_buffer L) in HW. rewrite Hb in HW.
    destruct (alloc_call_failure L _ _ HW) as [tl Htl].
    unfold main. rewrite Htl.
    match goal with
    | |- context [run_block fuel ((FLUX_THROW_MEMORY ?a :: tl) ++ ?r) w] =>
        destruct (run_block_catches fuel w [] Hwf Htop
                    ltac:(constructor) ltac:(simpl; lia) 2
                    (Some (String.list_ascii_of_string "out of memory"))
                    a (tl ++ r) ltac:(simpl; lia))
          as (w1 & Hb1 & _ & _ & Hc1 & He1)
    end.
    cbn [app] in Hb1. unfold FLUX_THROW_MEMORY.
    rewrite <- app_comm_cons, Hb1.
    eexists. split; [reflexivity|]. cbn [calls stderr].
    split; [rewrite Hc1; apply app_nil_r|].
    rewrite printed_when_not_empty, He1; [reflexivity|].
    apply message_stored_not_empty. discriminate.
  - intros Hb Hf.
    unfold main.
    rewrite (alloc_call_success L _ _ (main_buffer L)
               (alloc_malloc L _ 1024) Hb).
    rewrite (FLUX_FOPEN_failure L _ _ _ Hf).
    match goal with
    | |- context [run_block fuel ([?d] ++ [FLUX_THROW_FILE ?m ?a; ?r]) w] =>
        destruct (run_block_catches fuel w [d] Hwf Htop
                    ltac:(repeat constructor; simpl; eauto)
                    ltac:(unfold FLUX_POOL_SIZE; simpl length; lia) 1
                    m a [r] ltac:(simpl length; lia))
          as (w1 & Hb1 & _ & _ & Hc1 & He1)
    end.
    unfold FLUX_THROW_FILE. rewrite Hb1.
    eexists. split; [reflexivity|]. cbn [calls stderr].
    split.
    + rewrite Hc1. f_equal.
      change (registrations [SDefer (free L) (main_buffer L)
                               (main_site src 6)])
        with ((fun p => (free L, p)) <$> [main_buffer L]).
      rewrite unwind_calls_free; [reflexivity | exact Hfree|].
      repeat constructor. exact Hb.
    + rewrite printed_when_not_empty, He1; [reflexivity|].
      rewrite fopen_failed_text. apply message_stored_not_empty.
      rewrite c_str_id by apply fopen_failed_no_nul. discriminate.
  - intros Hb Hf Ha.
    destruct (main_first_block L fuel src w Hwf Htop Hb Hf)
      as (w1 & Hb1 & Hwf1 & Ht1 & Hc1 & He1).
    pose proof (alloc_calloc L (main_site src 17) 1000 4) as HW.
    change (snd (FLUX_CALLOC L 1000 4 (main_site src 17)))
      with (main_arr L) in HW. rewrite Ha in HW.
    destruct (alloc_call_failure L _ _ HW) as [tl Htl].
    unfold main. rewrite Hb1, Htl.
    destruct (run_block_catches fuel w1 [] Hwf1
                ltac:(rewrite Ht1; exact Htop)
                ltac:(constructor) ltac:(simpl; lia) 2
                (Some (String.list_ascii_of_string "out of memory"))
                (main_site src 17) tl ltac:(simpl; lia))
      as (w2 & Hb2 & _ & _ & Hc2 & He2).
    cbn [app] in Hb2. unfold FLUX_THROW_MEMORY. rewrite Hb2.
    eexists. split; [reflexivity|]. cbn [calls stderr].
    split; [rewrite Hc2, app_nil_r; exact Hc1|].
    rewrite printed_when_not_empty, He2, He1; [reflexivity|].
    apply message_stored_not_empty. discriminate.
Qed.

Lemma main_failure_paths_witness :
  exists w',
    main {| free := 1; fclose := 2; close := 3;
            malloc := fun sz => 1000 + sz;
            calloc := fun _ _ => 0;
            realloc := fun _ _ => 0;
            strdup := fun _ => 0;
            fopen := fun _ _ => 0 |} 1
      (String.list_ascii_of_string "src/main.c") thread_start = Exit 1 w' /\
    calls w' = [(1, 2024)] /\
    stderr w' =
      String.list_ascii_of_string
        "🔥 [main.c:7] ERR 1: fopen('test.txt', 'w') failed" ++ [LF].
Proof.
  set (L := {| free := 1; fclose := 2; close := 3;
               malloc := fun sz => 1000 + sz; calloc := fun _ _ => 0;
               realloc := fun _ _ => 0; strdup := fun _ => 0;
               fopen := fun _ _ => 0 |}).
  destruct (main_failure_paths L 1
              (String.list_ascii_of_string "src/main.c") thread_start)
    as (_ & Hpath & _).
  - split; reflexivity.
  - unfold wtop, FLUX_MAX_DEPTH. simpl. lia.
  - discriminate.
  - lia.
  - destruct Hpath as (w' & Hm & Hc & He); [discriminate | reflexivity|].
    exists w'. split; [exact Hm|]. split; [exact Hc|].
    rewrite He. reflexivity.
Defined.

(** ** Registering after a nested block *)

Lemma chain_lookup (gs : list call) :
  forall (k : nat) (h : option Z) (i : nat),
    (i < length gs)%nat ->
    exists g,
      chain k h gs !! i = Some g /\
      next g = match i with
               | O => h
               | S i' => Some (Z.of_nat (k + i'))
               end.
Proof.
  induction gs as [|g gs IH]; intros k h i Hi; simpl in Hi; [lia|].
  destruct i as [|i]; simpl.
  - eexists. split; reflexivity.
  - destruct (IH (S k) (Some (Z.of_nat k)) i ltac:(lia)) as (g' & Hg & Hn).
    exists g'. split; [exact Hg|]. rewrite Hn.
    destruct i; [do 2 f_equal; lia | do 2 f_equal; lia].
Qed.

(** A walk whose heads stay between two slots never reaches the end. *)
Lemma walk_confined (p : flux_pool) (lo hi : Z) :
  (forall i, lo <= i < hi ->
     exists j, next_head p (Some i) = Some j /\ lo <= j < hi) ->
  forall (n : nat) (i : Z), lo <= i < hi -> is_Some (nth_head p n (Some i)).
Proof.
  intros Hstep. induction n as [|n IH]; intros i Hi; [simpl; eauto|].
  cbn [nth_head]. destruct (Hstep i Hi) as (j & -> & Hj). apply IH. exact Hj.
Qed.

(** The pool after a scope has registered [gs], a nested block has
    registered fewer guards [gj] and exited, and the scope has registered
    one guard more: the slots from [length gj] up to [length gs] form a
    cycle. *)
Lemma late_registration_cycle (sl : list flux_guard) (gs gj : list call)
    (g0 : flux_guard) (n : nat) :
  length sl = Z.to_nat FLUX_POOL_SIZE ->
  (length gj < length gs <= Z.to_nat FLUX_POOL_SIZE)%nat ->
  next g0 = chain_head 0 None gs ->
  is_Some
    (nth_head
       {| slots := <[length gj := g0]>
                     (chain 0 None gj ++
                      drop (length gj)
                        (chain 0 None gs ++ drop (length gs) sl));
          idx := Z.of_nat (length gj) + 1 |}
       n (Some (Z.of_nat (length gj)))).
Proof.
  intros Hsl Hlen Hg0.
  change (Z.to_nat FLUX_POOL_SIZE) with 2048%nat in *.
  apply (walk_confined _ (Z.of_nat (length gj)) (Z.of_nat (length gs)));
    [|lia].
  intros i Hi. unfold next_head.
  rewrite slot_at_lookup by (unfold FLUX_POOL_SIZE; lia). cbn [slots].
  assert (Hlen1 : length (chain 0 None gj ++
                          drop (length gj)
                            (chain 0 None gs ++ drop (length gs) sl)) =
                  2048%nat).
  { rewrite length_app, length_drop, length_app, !chain_length,
      length_drop. lia. }
  destruct (decide (Z.to_nat i = length gj)) as [Heq|Hne].
  - rewrite Heq, list_lookup_insert_eq by lia.
    rewrite Hg0, chain_head_last by (destruct gs; simpl in *; [lia|discriminate]).
    eexists. split; [reflexivity|]. simpl. lia.
  - rewrite list_lookup_insert_ne by lia.
    rewrite lookup_app_r by (rewrite chain_length; lia).
    rewrite chain_length, lookup_drop.
    replace (length gj + (Z.to_nat i - length gj))%nat with (Z.to_nat i)
      by lia.
    rewrite lookup_app_l by (rewrite chain_length; lia).
    destruct (chain_lookup gs 0 None (Z.to_nat i) ltac:(lia))
      as (g & -> & Hn).
    destruct (Z.to_nat i) as [|i'] eqn:Hi'; [lia|].
    rewrite Hn. eexists. split; [reflexivity|]. lia.
Qed.

(** X19. A scope that registers guards, runs a nested block that registers
    fewer guards (or none) and exits normally, then registers one more guard
    and fails, never finishes unwinding: the nested entry has reset the
    cursor, the late guard has taken a slot of the scope's own list, the
    list is circular and the loop of [__flux_release_guards] does not end,
    whatever number of iterations it is given. *)
Theorem late_registration_hangs_unwind
    (fuel : nat) (w : world) (ss js inner_handler rest handler : list stmt)
    (d p : Z) (a a' : site) (k : Z) (m : option (list ascii)) :
  wf w ->
  -1 <= wtop w < FLUX_MAX_DEPTH - 2 ->
  only_defers ss ->
  only_defers js ->
  (length js < length ss <= Z.to_nat FLUX_POOL_SIZE)%nat ->
  exec fuel
    (STry (ss ++ [STry js inner_handler; SDefer d p a; SThrow k m a'] ++
           rest) handler) w = OutOfFuel.
Proof.
  intros Hwf Htop Hss Hjs Hlen.
  assert (Htop1 : -1 <= wtop w < FLUX_MAX_DEPTH - 1) by lia.
  destruct (block_entry fuel w ss Hwf Htop1 Hss ltac:(lia))
    as (w1 & s & Htry & Hs & Hbody).
  pose proof (registrations_length ss Hss) as Hn.
  pose proof (registrations_length js Hjs) as Hj.
  set (gs := registrations ss) in *. set (gj := registrations js) in *.
  set (t := __flux_get_tls w) in *. unfold wf, wtop in *. fold t in Hwf, Htop.
  set (T2 := scope_after t s gs) in *.
  assert (Hwf2 : wf_tls T2) by (apply scope_after_wf; [exact Hwf | lia]).
  assert (Hlev2 : stack T2 !! Z.to_nat (top t + 1) =
                  Some {| buf := true; err := err s;
                          guards := chain_head 0 None gs; active := true |})
    by (apply scope_after_level; [exact Hwf | lia | lia]).
  (* the nested block *)
  destruct (block_entry fuel (World (Some T2) (calls w) (stderr w)) js
              Hwf2 ltac:(unfold wtop; cbn; unfold FLUX_MAX_DEPTH in *; lia)
              Hjs ltac:(lia))
    as (w3 & s' & Htry2 & Hs' & Hbody2).
  cbn [__flux_get_tls tls_slot calls stderr] in Hs', Hbody2.
  unfold wtop in Hs'. cbn [__flux_get_tls tls_slot] in Hs'.
  fold gj in Hbody2.
  set (T3 := scope_after T2 s' gj) in *.
  assert (Hwf3 : wf_tls T3) by (apply scope_after_wf; [exact Hwf2 | lia]).
  assert (Htop2 : top T2 = top t + 1) by reflexivity.
  assert (Hlev3 : stack T3 !! Z.to_nat (top T2 + 1) =
                  Some {| buf := true; err := err s';
                          guards := chain_head 0 None gj; active := true |}).
  { apply scope_after_level; [exact Hwf2 | | lia].
    rewrite Htop2. unfold FLUX_MAX_DEPTH in *. lia. }
  assert (Hinner : exec fuel (STry js inner_handler)
                     (World (Some T2) (calls w) (stderr w)) =
                   Returns (World (Some
                     {| stack := <[Z.to_nat (top T2 + 1) :=
                                     set_active
                                       {| buf := true; err := err s';
                                          guards := chain_head 0 None gj;
                                          active := true |} false]>
                                   (stack T3);
                        top := top T3 - 1; pool := pool T3 |})
                     (calls w) (stderr w))).
  { rewrite exec_STry, Htry2, Hbody2. unfold wtop.
    cbn [__flux_get_tls tls_slot].
    apply FLUX_CATCH_exit_returns.
    - rewrite Htop2. unfold FLUX_MAX_DEPTH in *. lia.
    - exact Hlev3.
    - cbn [T3 scope_after top]. unfold INT_MIN. lia. }
  set (T4 := {| stack := <[Z.to_nat (top T2 + 1) :=
                             set_active
                               {| buf := true; err := err s';
                                  guards := chain_head 0 None gj;
                                  active := true |} false]> (stack T3);
                top := top T3 - 1; pool := pool T3 |}) in *.
  assert (Htop4 : top T4 = top t + 1) by (cbn; lia).
  assert (Hwf4 : wf_tls T4).
  { destruct Hwf3 as [H1 H2]. split; cbn [T4 stack pool];
      [rewrite length_insert|]; assumption. }
  assert (Hlen64 : (Z.to_nat (top t + 1) < length (stack t))%nat).
  { destruct Hwf as [-> _]. unfold FLUX_MAX_DEPTH in *. lia. }
  assert (Hlev4 : stack T4 !! Z.to_nat (top T4) =
                  Some {| buf := true; err := err s;
                          guards := chain_head 0 None gs; active := true |}).
  { rewrite Htop4. cbn [T4 T3 scope_after stack].
    rewrite !list_lookup_insert_ne by (rewrite Htop2; lia).
    exact Hlev2. }
  assert (Hidx4 : idx (pool T4) = Z.of_nat (length gj)) by reflexivity.
  pose proof (FLUX_DEFER_returns T4 (calls w) (stderr w) Hwf4 d p a _
                ltac:(rewrite Htop4; unfold FLUX_MAX_DEPTH in *; lia) Hlev4
                ltac:(rewrite Hidx4; unfold FLUX_POOL_SIZE in *; lia))
    as Hdefer.
  match type of Hdefer with
  | _ = Returns (World (Some ?T) _ _) => set (T5 := T) in *
  end.
  assert (Hlev5 : stack T5 !! Z.to_nat (top T5) =
                  Some (set_guards
                          {| buf := true; err := err s;
                             guards := chain_head 0 None gs;
                             active := true |} (Some (idx (pool T4))))).
  { cbn [T5 stack top]. apply list_lookup_insert_eq.
    eapply lookup_lt_Some. exact Hlev4. }
  pose proof (FLUX_THROW_jumps T5 (calls w) (stderr w) k m a' _
                ltac:(cbn [T5 top]; rewrite Htop4;
                      unfold FLUX_MAX_DEPTH in *; lia) Hlev5 eq_refl)
    as Hthrow.
  match type of Hthrow with
  | _ = Jumps (World (Some ?T) _ _) => set (T6 := T) in *
  end.
  assert (Htop6 : top T6 = top t + 1) by (cbn [T6 T5 top]; exact Htop4).
  (* the block of the scope *)
  rewrite exec_STry, Htry. fold t.
  rewrite exec_seq_app, Hbody. unfold exec_seq at 1.
  cbn [app seq_with]. rewrite Hinner.
  cbn [exec]. rewrite Hdefer, Hthrow.
  unfold wtop. cbn [__flux_get_tls tls_slot]. fold t.
  rewrite Htop6, Z.eqb_refl.
  unfold FLUX_CATCH_unwind. cbn [__flux_get_tls tls_slot calls].
  rewrite stack_at_lookup by (unfold FLUX_MAX_DEPTH in *; lia).
  assert (Hlev6 : stack T6 !! Z.to_nat (top t + 1) =
                  Some (set_err
                          (set_guards
                             {| buf := true; err := err s;
                                guards := chain_head 0 None gs;
                                active := true |} (Some (idx (pool T4))))
                          (__flux_make_error (wrap_int k) m
                             (Some (site_file a'))
                             (site_line a')))).
  { cbn [T6 stack]. rewrite <- Htop4 at 1.
    change (top T4) with (top T5). apply list_lookup_insert_eq.
    eapply lookup_lt_Some. exact Hlev5. }
  rewrite Hlev6. cbn [guards set_err set_guards].
  replace (__flux_release_guards fuel (pool T6) (Some (idx (pool T4)))
             (calls w)) with WalkOutOfFuel; [reflexivity|].
  symmetry. apply release_out_of_fuel.
  rewrite Hidx4. cbn [T6 T5 T4 T3 T2 pool scope_after slots idx].
  rewrite Nat2Z.id. fold gs gj.
  apply late_registration_cycle.
  - apply Hwf.
  - lia.
  - reflexivity.
Qed.

Lemma late_registration_hangs_unwind_witness :
  exec 5000 (STry ([SDefer 1 11 demo_site] ++
                   [STry [] []; SDefer 2 22 demo_site;
                    SThrow 4 (Some demo_msg) demo_site] ++ []) [])
    thread_start = OutOfFuel.
Proof.
  apply (late_registration_hangs_unwind 5000 thread_start
           [SDefer 1 11 demo_site] [] [] [] [] 2 22 demo_site demo_site 4
           (Some demo_msg)).
  - split; reflexivity.
  - unfold wtop, FLUX_MAX_DEPTH. simpl. lia.
  - repeat constructor; simpl; eauto.
  - constructor.
  - unfold FLUX_POOL_SIZE. simpl length. lia.
Defined.
